(** * DCF analysis suite: a shallow embedding of the valuation code

    The development follows the three Streamlit pages of the repository:
    [pages/1_WACC_Calculator.py], [pages/2_Historical_Analysis.py] and
    [pages/3_DCF_Model.py].

    Numbers.  Every quantity of the program is a binary64 float (a Python
    [float] or a numpy [float64]).  The embedding keeps the four classes
    of IEEE values apart, finite, the two infinities and NaN, and does
    exact rational arithmetic on the finite ones: rounding, overflow and
    the sign of zero are abstracted.  Division follows numpy, which is
    what the pages run on ([Series] columns and the [float64] scalars taken
    out of them): a zero divisor yields an infinity or NaN, not an
    exception. *)

From Stdlib Require Import QArith Qpower Lqa Lia ZArith.
From Stdlib Require Import List String Ascii Bool Permutation Sorted.
Import ListNotations.

Set Implicit Arguments.

(** ** Floats *)

Module Float.

Inductive flt : Type :=
| Fin (q : Q)
| PInf
| NInf
| NaN.

Definition is_nan (x : flt) : bool :=
  match x with NaN => true | _ => false end.

Definition is_finite (x : flt) : bool :=
  match x with Fin _ => true | _ => false end.

Definition is_inf (x : flt) : bool :=
  match x with PInf | NInf => true | _ => false end.

(** Equality of values: the same class, and equal as rationals when
    finite.  (This is identity of results, not the IEEE [==] under which
    NaN differs from itself.) *)
Definition same (x y : flt) : Prop :=
  match x, y with
  | Fin a, Fin b => a == b
  | PInf, PInf => True
  | NInf, NInf => True
  | NaN, NaN => True
  | _, _ => False
  end.

Definition neg (x : flt) : flt :=
  match x with
  | Fin a => Fin (- a)
  | PInf => NInf
  | NInf => PInf
  | NaN => NaN
  end.

Definition add (x y : flt) : flt :=
  match x, y with
  | NaN, _ | _, NaN => NaN
  | Fin a, Fin b => Fin (a + b)
  | PInf, NInf | NInf, PInf => NaN
  | PInf, _ | _, PInf => PInf
  | NInf, _ | _, NInf => NInf
  end.

Definition sub (x y : flt) : flt := add x (neg y).

(** An infinity scaled by a finite factor. *)
Definition scale_inf (positive : bool) (a : Q) : flt :=
  match a ?= 0 with
  | Eq => NaN
  | Gt => if positive then PInf else NInf
  | Lt => if positive then NInf else PInf
  end.

Definition mul (x y : flt) : flt :=
  match x, y with
  | NaN, _ | _, NaN => NaN
  | Fin a, Fin b => Fin (a * b)
  | Fin a, PInf | PInf, Fin a => scale_inf true a
  | Fin a, NInf | NInf, Fin a => scale_inf false a
  | PInf, PInf | NInf, NInf => PInf
  | PInf, NInf | NInf, PInf => NInf
  end.

(** numpy true division. *)
Definition div (x y : flt) : flt :=
  match x, y with
  | NaN, _ | _, NaN => NaN
  | Fin a, Fin b =>
      if Qeq_bool b 0 then scale_inf true a else Fin (a / b)
  | Fin _, (PInf | NInf) => Fin 0
  | PInf, Fin b => if Qle_bool 0 b then PInf else NInf
  | NInf, Fin b => if Qle_bool 0 b then NInf else PInf
  | (PInf | NInf), (PInf | NInf) => NaN
  end.

(** [x ** n] for an integer exponent [n >= 0]. *)
Definition pow (x : flt) (n : nat) : flt :=
  match n with
  | O => Fin 1
  | S _ =>
      match x with
      | Fin a => Fin (a ^ Z.of_nat n)
      | PInf => PInf
      | NInf => if Nat.even n then PInf else NInf
      | NaN => NaN
      end
  end.

(** IEEE comparisons: false as soon as one side is NaN. *)
Definition ltb (x y : flt) : bool :=
  match x, y with
  | NaN, _ | _, NaN => false
  | Fin a, Fin b => negb (Qle_bool b a)
  | PInf, _ | _, NInf => false
  | NInf, _ | _, PInf => true
  end.

Definition leb (x y : flt) : bool :=
  match x, y with
  | NaN, _ | _, NaN => false
  | Fin a, Fin b => Qle_bool a b
  | NInf, _ | _, PInf => true
  | PInf, _ | _, NInf => false
  end.

End Float.

Import Float.

Declare Scope flt_scope.
Delimit Scope flt_scope with flt.
Bind Scope flt_scope with flt.
Infix "+" := add : flt_scope.
Infix "-" := sub : flt_scope.
Infix "*" := mul : flt_scope.
Infix "/" := div : flt_scope.
Infix "**" := pow (at level 30, right associativity) : flt_scope.
Notation "- x" := (neg x) : flt_scope.
Infix "=~" := same (at level 70, no associativity).

(** Literals: [# q] is the finite float of the rational [q]. *)
Notation "# q" := (Fin q%Q) (at level 5, format "# q").

Local Open Scope string_scope.

(** ** Exceptions and the error monad *)

Inductive exn : Type :=
| KeyError (key : string)
| IndexError (msg : string)
| ValueError (msg : string).

Inductive outcome (A : Type) : Type :=
| Returns (a : A)
| Raises (e : exn).

Arguments Raises {A} e.

(** [str(e)] *)
Definition message (e : exn) : string :=
  match e with
  | KeyError key => "'" ++ key ++ "'"
  | IndexError msg => msg
  | ValueError msg => msg
  end.

Definition bind {A B} (c : outcome A) (k : A -> outcome B) : outcome B :=
  match c with
  | Returns a => k a
  | Raises e => Raises e
  end.

Declare Scope exc_scope.
Delimit Scope exc_scope with exc.
Notation "x <- c ;; k" := (bind c (fun x => k))
  (at level 61, c at next level, right associativity) : exc_scope.
Notation "' pat <- c ;; k" := (bind c (fun x => match x with pat => k end))
  (at level 61, pat pattern, c at next level, right associativity) : exc_scope.

Definition raised {A} (c : outcome A) : bool :=
  match c with Raises _ => true | Returns _ => false end.

(** ** Python strings: [str.strip] and [str.lower] on ASCII text *)

Module PyStr.

(** [str.isspace] on a one-character ASCII string: TAB..CR, FS..US and
    the space. *)
Definition is_space (c : ascii) : bool :=
  let n := nat_of_ascii c in
  ((9 <=? n) && (n <=? 13) || (28 <=? n) && (n <=? 32))%nat.

Fixpoint lstrip (s : string) : string :=
  match s with
  | EmptyString => EmptyString
  | String c rest => if is_space c then lstrip rest else s
  end.

Fixpoint rstrip (s : string) : string :=
  match s with
  | EmptyString => EmptyString
  | String c rest =>
      match rstrip rest with
      | EmptyString => if is_space c then EmptyString else String c EmptyString
      | kept => String c kept
      end
  end.

Definition strip (s : string) : string := rstrip (lstrip s).

Definition lower_char (c : ascii) : ascii :=
  let n := nat_of_ascii c in
  if ((65 <=? n) && (n <=? 90))%nat then ascii_of_nat (n + 32) else c.

Fixpoint lower (s : string) : string :=
  match s with
  | EmptyString => EmptyString
  | String c rest => String (lower_char c) (lower rest)
  end.

(** [s.split(',')]: at least one piece, also for the empty string. *)
Fixpoint split_on (sep : ascii) (s : string) : list string :=
  match s with
  | EmptyString => [EmptyString]
  | String c rest =>
      if Ascii.eqb c sep then EmptyString :: split_on sep rest
      else match split_on sep rest with
           | piece :: pieces => String c piece :: pieces
           | [] => [String c EmptyString]
           end
  end.

End PyStr.

(** ** A pandas subset: labelled series and frames *)

Module Pandas.

(** A period end date, as a day number. *)
Definition date := Z.

Record Series : Type := mkSeries {
  s_index : list date;
  s_values : list flt
}.

Record DataFrame : Type := mkFrame {
  df_index : list date;
  df_columns : list (string * list flt)
}.

Definition len (df : DataFrame) : nat := List.length (df_index df).

Fixpoint index_eqb (i j : list date) : bool :=
  match i, j with
  | [], [] => true
  | a :: i', b :: j' => Z.eqb a b && index_eqb i' j'
  | _, _ => false
  end.

(** The value a series holds at a label, NaN when the label is absent.
    Labels are period end dates and taken to be unique: the first entry
    wins. *)
Fixpoint at_label (idx : list date) (vals : list flt) (d : date) : flt :=
  match idx, vals with
  | i :: idx', v :: vals' => if Z.eqb i d then v else at_label idx' vals' d
  | _, _ => NaN
  end.

(** [s.reindex(idx)]; a series already on [idx] is taken as it is. *)
Definition reindex (s : Series) (idx : list date) : list flt :=
  if index_eqb (s_index s) idx then s_values s
  else map (at_label (s_index s) (s_values s)) idx.

Fixpoint lookup_column (name : string) (cols : list (string * list flt))
  : option (list flt) :=
  match cols with
  | [] => None
  | (n, v) :: rest => if String.eqb n name then Some v else lookup_column name rest
  end.

(** [df[name]] *)
Definition getitem (df : DataFrame) (name : string) : outcome Series :=
  match lookup_column name (df_columns df) with
  | Some v => Returns (mkSeries (df_index df) v)
  | None => Raises (KeyError name)
  end.

Fixpoint assign_column (name : string) (v : list flt)
  (cols : list (string * list flt)) : list (string * list flt) :=
  match cols with
  | [] => [(name, v)]
  | (n, old) :: rest =>
      if String.eqb n name then (n, v) :: rest
      else (n, old) :: assign_column name v rest
  end.

(** [df[name] = s]: the series is aligned on the frame's index; an
    existing column is replaced in place, a new one goes last. *)
Definition setitem (df : DataFrame) (name : string) (s : Series) : DataFrame :=
  mkFrame (df_index df) (assign_column name (reindex s (df_index df)) (df_columns df)).

(** [df[[n1, n2, ...]]] *)
Fixpoint select (df : DataFrame) (names : list string)
  : outcome (list (string * list flt)) :=
  match names with
  | [] => Returns []
  | n :: rest =>
      match lookup_column n (df_columns df) with
      | None => Raises (KeyError n)
      | Some v => bind (select df rest) (fun cols => Returns ((n, v) :: cols))
      end
  end.

Fixpoint map2 (f : flt -> flt -> flt) (xs ys : list flt) : list flt :=
  match xs, ys with
  | x :: xs', y :: ys' => f x y :: map2 f xs' ys'
  | _, _ => []
  end.

Fixpoint insert_date (d : date) (l : list date) : list date :=
  match l with
  | [] => [d]
  | x :: rest =>
      if Z.ltb d x then d :: l
      else if Z.eqb d x then l
      else x :: insert_date d rest
  end.

(** The sorted union of two indexes. *)
Definition union_index (i j : list date) : list date :=
  fold_right insert_date [] (i ++ j).

(** An arithmetic operator between two series: position by position when
    they share their index, on the sorted union of the labels otherwise
    (a label missing on one side gives NaN). *)
Definition binop (f : flt -> flt -> flt) (a b : Series) : Series :=
  if index_eqb (s_index a) (s_index b)
  then mkSeries (s_index a) (map2 f (s_values a) (s_values b))
  else let idx := union_index (s_index a) (s_index b) in
       mkSeries idx (map (fun d => f (at_label (s_index a) (s_values a) d)
                                     (at_label (s_index b) (s_values b) d)) idx).

(** A unary or scalar operator applied to every entry. *)
Definition smap (f : flt -> flt) (a : Series) : Series :=
  mkSeries (s_index a) (map f (s_values a)).

(** [s.sum()] skips NaN entries ([skipna=True]): they are replaced by
    zero before the values are added up. *)
Definition nan_to (z x : flt) : flt := if is_nan x then z else x.

Definition sum (s : Series) : flt :=
  fold_left (fun acc x => acc + nan_to #0 x)%flt (s_values s) #0.

(** The plain sum of a list of values, from zero. *)
Definition total (xs : list flt) : flt :=
  fold_left add xs #0.

(** [s.cumprod()] skips NaN entries as well: they count as one in the
    running product and stay NaN in the result. *)
Fixpoint cumprod_from (acc : flt) (xs : list flt) : list flt :=
  match xs with
  | [] => []
  | x :: rest =>
      let acc' := (acc * nan_to #1 x)%flt in
      (if is_nan x then NaN else acc') :: cumprod_from acc' rest
  end.

Definition cumprod (s : Series) : Series :=
  mkSeries (s_index s)
    match s_values s with
    | [] => []
    | x :: rest =>
        let acc := nan_to #1 x in
        (if is_nan x then NaN else acc) :: cumprod_from acc rest
    end.


(** [s.iloc[i]] for [i >= 0] *)
Definition iloc (s : list flt) (i : nat) : outcome flt :=
  match nth_error s i with
  | Some x => Returns x
  | None => Raises (IndexError "single positional indexer is out-of-bounds")
  end.

(** [l[-k:]]: the last [k] entries, all of them when there are fewer. *)
Definition last_n {A} (k : nat) (l : list A) : list A :=
  skipn (List.length l - k) l.

(** [df.iloc[-k:]] *)
Definition tail_rows (k : nat) (df : DataFrame) : DataFrame :=
  mkFrame (last_n k (df_index df))
          (map (fun c => (fst c, last_n k (snd c))) (df_columns df)).

(** [s.pct_change()]: NaN first, then [p_t / p_(t-1) - 1]. *)
Fixpoint pct_change_from (prev : flt) (xs : list flt) : list flt :=
  match xs with
  | [] => []
  | x :: rest => (x / prev - #1)%flt :: pct_change_from x rest
  end.

Definition pct_change (s : Series) : Series :=
  mkSeries (s_index s)
    match s_values s with
    | [] => []
    | x :: rest => NaN :: pct_change_from x rest
    end.

(** [s.diff()] *)
Fixpoint diff_from (prev : flt) (xs : list flt) : list flt :=
  match xs with
  | [] => []
  | x :: rest => (x - prev)%flt :: diff_from x rest
  end.

Definition diff (s : Series) : Series :=
  mkSeries (s_index s)
    match s_values s with
    | [] => []
    | x :: rest => NaN :: diff_from x rest
    end.

(** [s.dropna()] *)
Fixpoint dropna_rows (idx : list date) (vals : list flt) : list (date * flt) :=
  match idx, vals with
  | i :: idx', v :: vals' =>
      if is_nan v then dropna_rows idx' vals' else (i, v) :: dropna_rows idx' vals'
  | _, _ => []
  end.

Definition dropna (s : Series) : Series :=
  let rows := dropna_rows (s_index s) (s_values s) in
  mkSeries (map fst rows) (map snd rows).

End Pandas.

Import Pandas.

(** ** The interpreter state: shared frames and the Streamlit screen

    A [DataFrame] handed to a function is a reference to a mutable
    object.  The frames a caller shares with a callee live in a heap and
    are named by their position in it.  What the pages write on the
    screen through [st.warning], [st.error] and [st.sidebar.error] is kept
    as a log.  A raised exception leaves the writes made so far in
    place. *)

Module Py.

Inductive ui_event : Type :=
| st_warning (msg : string)
| st_error (msg : string)
| st_sidebar_error (msg : string).

Definition ref := nat.

Record world : Type := mkWorld {
  heap : list DataFrame;
  screen : list ui_event
}.

Definition py (A : Type) : Type := world -> outcome A * world.

Definition ret {A} (a : A) : py A := fun w => (Returns a, w).

Definition raise {A} (e : exn) : py A := fun w => (Raises e, w).

Definition bind_py {A B} (c : py A) (k : A -> py B) : py B :=
  fun w =>
    match c w with
    | (Returns a, w') => k a w'
    | (Raises e, w') => (Raises e, w')
    end.

(** A computation that touches neither the heap nor the screen. *)
Definition lift {A} (c : outcome A) : py A := fun w => (c, w).

(** [try: c  except Exception as e: handler e] *)
Definition try_except {A} (c : py A) (handler : exn -> py A) : py A :=
  fun w =>
    match c w with
    | (Returns a, w') => (Returns a, w')
    | (Raises e, w') => handler e w'
    end.

Definition emit (e : ui_event) : py unit :=
  fun w => (Returns tt, mkWorld (heap w) (screen w ++ [e])).

(** Reading the object behind a reference. *)
Definition load (r : ref) : py DataFrame :=
  fun w =>
    match nth_error (heap w) r with
    | Some df => (Returns df, w)
    | None => (Raises (ValueError "dangling reference"), w)
    end.

Fixpoint replace_nth {A} (n : nat) (x : A) (l : list A) : list A :=
  match l, n with
  | [], _ => []
  | _ :: rest, O => x :: rest
  | y :: rest, S n' => y :: replace_nth n' x rest
  end.

(** Overwriting the object behind a reference: every holder of the
    reference sees the new contents. *)
Definition store (r : ref) (df : DataFrame) : py unit :=
  fun w => (Returns tt, mkWorld (replace_nth r df (heap w)) (screen w)).

(** A new object. *)
Definition alloc (df : DataFrame) : py ref :=
  fun w => (Returns (List.length (heap w)), mkWorld (heap w ++ [df]) (screen w)).

End Py.

Import Py.

Declare Scope py_scope.
Delimit Scope py_scope with py.
Notation "x <- c ;; k" := (bind_py c (fun x => k))
  (at level 61, c at next level, right associativity) : py_scope.
Notation "c ;; k" := (bind_py c (fun _ => k))
  (at level 61, right associativity) : py_scope.

(** * Page 1: the WACC calculator *)

Module Wacc.

Record spread_entry : Type := mkEntry {
  GreaterThan : flt;
  LessThan : flt;
  Rating : string;
  Spread : flt
}.

(** The credit spreads lookup table. *)
Definition credit_spreads : list spread_entry :=
  [ mkEntry #(-100000) #0.199999 "D2/D" #19.00;
    mkEntry #0.2 #0.649999 "C2/C" #15.50;
    mkEntry #0.65 #0.799999 "Ca2/CC" #10.10;
    mkEntry #0.8 #1.249999 "Caa/CCC" #7.28;
    mkEntry #1.25 #1.499999 "B3/B-" #4.42;
    mkEntry #1.5 #1.749999 "B2/B" #3.00;
    mkEntry #1.75 #1.999999 "B1/B+" #2.61;
    mkEntry #2.0 #2.2499999 "Ba2/BB" #1.83;
    mkEntry #2.25 #2.49999 "Ba1/BB+" #1.55;
    mkEntry #2.5 #2.999999 "Baa2/BBB" #1.20;
    mkEntry #3.0 #4.249999 "A3/A-" #0.95;
    mkEntry #4.25 #5.499999 "A2/A" #0.85;
    mkEntry #5.5 #6.499999 "A1/A+" #0.77;
    mkEntry #6.5 #8.499999 "Aa2/AA" #0.60;
    mkEntry #8.5 #100000 "Aaa/AAA" #0.45 ].

(** Whether a table entry is the one a rating names. *)
Definition rating_matches (rating : string) (entry : spread_entry) : bool :=
  String.eqb (PyStr.lower (PyStr.strip (Rating entry)))
             (PyStr.lower (PyStr.strip rating)).

(** [get_credit_spread(rating, credit_spreads)]: the spread of the first
    matching entry as a decimal; a warning on the screen and NaN when no
    entry matches. *)
Fixpoint get_credit_spread (rating : string) (credit_spreads : list spread_entry)
  : py flt :=
  match credit_spreads with
  | entry :: rest =>
      if rating_matches rating entry
      then ret (Spread entry / #100)%flt
      else get_credit_spread rating rest
  | [] =>
      (emit (st_warning ("Warning: No spread found for rating " ++ rating)) ;;
       ret NaN)%py
  end.

(** The world once the warning of an unmatched rating is on the screen. *)
Definition warned (rating : string) (w : world) : world :=
  mkWorld (heap w) (screen w ++ [st_warning ("Warning: No spread found for rating " ++ rating)]).

(** Section 3 of the page: the cost of debt. *)
Definition cost_of_debt (rf : flt) (firm_rating : string) : py flt :=
  (credit_spread <- get_credit_spread firm_rating credit_spreads ;;
   ret (rf + credit_spread)%flt)%py.

(** What section 4 saves in [st.session_state.wacc_results]. *)
Record wacc_results : Type := mkWaccResults {
  wacc_lower : flt;
  wacc : flt;
  wacc_upper : flt
}.

(** Sections 2 and 4 of the page: CAPM at the point estimate of beta and
    at both ends of its confidence interval, each put through the WACC
    formula with the one cost of debt. *)
Definition wacc_section (w_E w_D rf emrp marg_tax_rate : flt)
  (beta beta_lower_ci beta_upper_ci cost_of_debt : flt) : wacc_results :=
  let cost_of_equity := (rf + beta * emrp)%flt in
  let wacc := (w_E * cost_of_equity + w_D * cost_of_debt * (#1 - marg_tax_rate))%flt in
  let cost_of_equity_lower_ci := (rf + beta_lower_ci * emrp)%flt in
  let cost_of_equity_upper_ci := (rf + beta_upper_ci * emrp)%flt in
  let wacc_lower_ci :=
    (w_E * cost_of_equity_lower_ci + w_D * cost_of_debt * (#1 - marg_tax_rate))%flt in
  let wacc_upper_ci :=
    (w_E * cost_of_equity_upper_ci + w_D * cost_of_debt * (#1 - marg_tax_rate))%flt in
  mkWaccResults wacc_lower_ci wacc wacc_upper_ci.

(** Modelled from the spec: the regression is statsmodels'
    [sm.OLS(endog, sm.add_constant(exog)).fit().params], a library that is
    not part of the repository.  The spec describes it as ordinary least
    squares of the target returns on the benchmark returns with an
    intercept term.  The library refuses two series of different sizes or
    on different indexes with a [ValueError]; otherwise the model returns
    the solution of the normal equations, intercept first and slope
    second.  This is what the library computes whenever the regressor takes
    two distinct values; what it does on a rank-deficient design (a
    pseudo-inverse, a constant column that is left out) is not modelled,
    and nothing below relies on that case. *)
Definition least_squares (endog exog : Series) : outcome (list flt) :=
  if negb (Nat.eqb (List.length (s_values endog)) (List.length (s_values exog)))
  then Raises (ValueError "endog and exog matrices are different sizes")
  else if negb (index_eqb (s_index endog) (s_index exog))
  then Raises (ValueError "The indices for endog and exog are not aligned")
  else
    let y := s_values endog in
    let x := s_values exog in
    let n := Fin (inject_Z (Z.of_nat (List.length x))) in
    let sx := total x in
    let sy := total y in
    let sxy := total (map2 mul x y) in
    let sxx := total (map2 mul x x) in
    let slope := ((n * sxy - sx * sy) / (n * sxx - sx * sx))%flt in
    let const := ((sy - slope * sx) / n)%flt in
    Returns [const; slope].

Section MarketModel.

(** The regression routine: endogenous series, regressor, fitted
    parameters. *)
Variable OLS_fit_params : Series -> Series -> outcome (list flt).

(** [calculate_beta(stock_data, index_data, rf)] returns the slope, the
    fitted parameters and the two excess-return series. *)
Definition calculate_beta (stock_data index_data : Series) (rf : flt)
  : outcome (flt * list flt * Series * Series) :=
  let stock_returns := smap (fun r => r - rf)%flt (dropna (pct_change stock_data)) in
  let index_returns := smap (fun r => r - rf)%flt (dropna (pct_change index_data)) in
  (params <- OLS_fit_params stock_returns index_returns ;;
   beta <- iloc params 1 ;;
   Returns (beta, params, stock_returns, index_returns))%exc.

End MarketModel.

End Wacc.

(** * Page 2: the historical analysis *)

Module Historical.

Local Open Scope py_scope.

(** An operator between two columns of one frame. *)
Definition columns (f : flt -> flt -> flt) (df : DataFrame) (a b : string)
  : outcome Series :=
  (x <- getitem df a ;;
   y <- getitem df b ;;
   Returns (binop f x y))%exc.

(** [calculate_growth_and_margins(income_statement)] works on a copy of
    the statement it is given. *)
Definition calculate_growth_and_margins (income_statement : ref) : py DataFrame :=
  stmt <- load income_statement ;;
  let df := stmt in
  lift (gross <- columns div df "Gross Profit" "Total Revenue" ;;
        let df := setitem df "Gross Margin" gross in
        ebit <- columns div df "EBIT" "Total Revenue" ;;
        let df := setitem df "EBIT Margin" ebit in
        ebitda <- columns div df "EBITDA" "Total Revenue" ;;
        let df := setitem df "EBITDA Margin" ebitda in
        revenue <- getitem df "Total Revenue" ;;
        let df := setitem df "Revenue Growth" (pct_change revenue) in
        ebit <- getitem df "EBIT" ;;
        let df := setitem df "EBIT Growth" (pct_change ebit) in
        Returns df)%exc.

(** [calculate_nwc(balance_sheet)] works on a copy as well. *)
Definition calculate_nwc (balance_sheet : ref) : py DataFrame :=
  sheet <- load balance_sheet ;;
  let df := sheet in
  lift (assets <- columns sub df "Current Assets"
                    "Cash Cash Equivalents And Short Term Investments" ;;
        let df := setitem df "Adj Current Assets" assets in
        liabilities <- columns sub df "Current Liabilities"
                         "Current Debt And Capital Lease Obligation" ;;
        let df := setitem df "Adj Current Liabilities" liabilities in
        nwc <- columns sub df "Adj Current Assets" "Adj Current Liabilities" ;;
        let df := setitem df "NWC" nwc in
        nwc <- getitem df "NWC" ;;
        let df := setitem df "Change in NWC" (diff nwc) in
        Returns df)%exc.

(** [pd.merge(left, right, left_index=True, right_index=True, how='left')]:
    the rows of [left], with the columns of [right] looked up by label. *)
Definition merge_left (left right : DataFrame) : DataFrame :=
  mkFrame (df_index left)
    (df_columns left ++
     map (fun c => (fst c, reindex (mkSeries (df_index right) (snd c)) (df_index left)))
         (df_columns right)).

(** [calculate_reinvestment(cash_flows_df, nwc_df, income_df, tax_rate_col)].
    The first statement assigns the negated column to the frame the
    caller passed in. *)
Definition calculate_reinvestment (cash_flows_df nwc_df income_df : ref)
  (tax_rate_col : string) : py DataFrame :=
  (* Make CapEx positive *)
  cf <- load cash_flows_df ;;
  capex <- lift (getitem cf "Capital Expenditure") ;;
  store cash_flows_df (setitem cf "Capital Expenditure" (smap neg capex)) ;;
  (* Merge dataframes *)
  cf <- load cash_flows_df ;;
  left <- lift (select cf ["Capital Expenditure"; "Depreciation And Amortization"]) ;;
  nwc <- load nwc_df ;;
  right <- lift (select nwc ["NWC"; "Change in NWC"]) ;;
  let merged := merge_left (mkFrame (df_index cf) left) (mkFrame (df_index nwc) right) in
  (* Calculate Reinvestment *)
  net <- lift (columns sub merged "Capital Expenditure" "Depreciation And Amortization") ;;
  change <- lift (getitem merged "Change in NWC") ;;
  let merged := setitem merged "Reinvestment" (binop add net change) in
  (* Calculate NOPAT *)
  income <- load income_df ;;
  tax <- lift (getitem income tax_rate_col) ;;
  let merged := setitem merged "Tax Rate" tax in
  ebit <- lift (getitem income "EBIT") ;;
  rate <- lift (getitem merged "Tax Rate") ;;
  let merged := setitem merged "NOPAT" (binop mul ebit (smap (sub #1) rate)) in
  (* Calculate Reinvestment Rate *)
  ratio <- lift (columns div merged "Reinvestment" "NOPAT") ;;
  let merged := setitem merged "Reinvestment Rate" ratio in
  ret merged.

End Historical.

(** * Page 3: the DCF model *)

Module Dcf.

(** What the data provider hands over for a ticker: the [info]
    dictionary and the quarterly income statement, one row per line item
    and one column per quarter. *)
Record ticker_data : Type := mkTicker {
  info : list (string * flt);
  quarterly_income_stmt : DataFrame
}.

(** [info.get(key, default)] *)
Fixpoint info_get (d : list (string * flt)) (key : string) (default : flt) : flt :=
  match d with
  | [] => default
  | (k, v) :: rest => if String.eqb k key then v else info_get rest key default
  end.

(** [.T] turns the quarters into the rows; a frame is stored by column
    here with the quarters as its labels, so the contents stay. *)
Definition T (stmt : DataFrame) : DataFrame := stmt.

Fixpoint insert_row {A} (r : date * A) (l : list (date * A)) : list (date * A) :=
  match l with
  | [] => [r]
  | x :: rest => if Z.leb (fst r) (fst x) then r :: l else x :: insert_row r rest
  end.

Definition sort_rows {A} (l : list (date * A)) : list (date * A) :=
  fold_right insert_row [] l.

(** Rows in ascending order of their label. *)
Definition by_label {A} (a b : date * A) : Prop := (fst a <= fst b)%Z.

(** [df.sort_index()]: the rows in ascending order of their label. *)
Definition sort_index (df : DataFrame) : DataFrame :=
  mkFrame (map fst (sort_rows (combine (df_index df) (df_index df))))
          (map (fun c => (fst c, map snd (sort_rows (combine (df_index df) (snd c)))))
               (df_columns df)).

Record ltm_data : Type := mkLtm {
  ltm_revenue : flt;
  most_recent_date : date;
  shares_outstanding : flt;
  ltm_info : list (string * flt)
}.

(** [get_ltm_data(ticker_symbol)].  [fetched] is the answer of
    [yf.Ticker(ticker_symbol)], which may itself be an exception.  Every
    exception ends in [st.error] and the all-[None] tuple. *)
Definition get_ltm_data (fetched : outcome ticker_data) : py (option ltm_data) :=
  try_except
    (lift (ticker <- fetched ;;
           let info := info ticker in
           (* Get quarterly income statement *)
           let ltm_data := sort_index (T (quarterly_income_stmt ticker)) in
           (* Keep last 4 quarters *)
           let ltm_data := tail_rows 4 ltm_data in
           (* Sum revenue for LTM *)
           revenue <- getitem ltm_data "Total Revenue" ;;
           let ltm_revenue := sum revenue in
           (* Get most recent date *)
           most_recent_date <-
             match rev (df_index ltm_data) with
             | d :: _ => Returns d
             | [] => Raises (IndexError "index -1 is out of bounds for axis 0 with size 0")
             end ;;
           (* Get shares outstanding *)
           let shares_outstanding := info_get info "sharesOutstanding" #0 in
           Returns (Some (mkLtm ltm_revenue most_recent_date shares_outstanding info)))%exc)
    (fun e => (emit (st_error ("Error fetching data: " ++ message e)) ;; ret None)%py).

Definition all_lengths (n : nat) (cols : list (list flt)) : bool :=
  forallb (fun c => Nat.eqb (List.length c) n) cols.

(** [project_financials(ltm_revenue, growth_pattern, ebit_margin_pattern,
    reinv_rate_pattern, tax_rate, projection_dates)] *)
Definition project_financials (ltm_revenue : flt)
  (growth_pattern ebit_margin_pattern reinv_rate_pattern : list flt)
  (tax_rate : flt) (projection_dates : list date) : outcome DataFrame :=
  (projection <-
     (if all_lengths (List.length projection_dates)
           [growth_pattern; ebit_margin_pattern; reinv_rate_pattern]
      then Returns (mkFrame projection_dates
                      [("Revenue Growth", growth_pattern);
                       ("EBIT Margin", ebit_margin_pattern);
                       ("Reinv Rate", reinv_rate_pattern)])
      else Raises (ValueError "Length of values does not match length of index")) ;;
   (* Calculate Revenue projections *)
   growth <- getitem projection "Revenue Growth" ;;
   let projection :=
     setitem projection "Revenue"
       (smap (mul ltm_revenue) (cumprod (smap (add #1) growth))) in
   (* Calculate EBIT *)
   revenue <- getitem projection "Revenue" ;;
   margin <- getitem projection "EBIT Margin" ;;
   let projection := setitem projection "EBIT" (binop mul revenue margin) in
   (* Calculate NOPAT *)
   ebit <- getitem projection "EBIT" ;;
   let projection :=
     setitem projection "NOPAT" (smap (fun e => e * (#1 - tax_rate))%flt ebit) in
   (* Calculate FCF *)
   nopat <- getitem projection "NOPAT" ;;
   reinv <- getitem projection "Reinv Rate" ;;
   let projection :=
     setitem projection "FCF" (binop mul nopat (smap (sub #1) reinv)) in
   Returns projection)%exc.

(** [np.arange(1, n + 1)] *)
Definition arange_from_1 (n : nat) : list nat := seq 1 n.

(** [series / base ** periods], entry by entry. *)
Definition discount (fcf : Series) (base : flt) (periods : list nat) : Series :=
  mkSeries (s_index fcf) (map2 div (s_values fcf) (map (pow base) periods)).

(** The frame [discount_cash_flows] leaves behind: the discounted column
    is assigned to the frame it was given. *)
Definition with_discounted_fcf (projection : DataFrame) (wacc : flt)
  : outcome DataFrame :=
  (let periods := arange_from_1 (len projection) in
   fcf <- getitem projection "FCF" ;;
   Returns (setitem projection "Discounted FCF"
              (discount fcf (#1 + wacc)%flt periods)))%exc.

(** [discount_cash_flows(projection, wacc)] writes into the caller's
    frame and returns that same object. *)
Definition discount_cash_flows (projection : ref) (wacc : flt) : py ref :=
  (df <- load projection ;;
   df' <- lift (with_discounted_fcf df wacc) ;;
   store projection df' ;;
   ret projection)%py.

(** [calculate_terminal_value(final_fcf, wacc, terminal_growth, num_periods)] *)
Definition calculate_terminal_value (final_fcf wacc terminal_growth : flt)
  (num_periods : nat) : outcome (flt * flt) :=
  let terminal_value :=
    (final_fcf * (#1 + terminal_growth) / (wacc - terminal_growth))%flt in
  let pv_terminal := (terminal_value / (#1 + wacc) ** num_periods)%flt in
  Returns (terminal_value, pv_terminal).

(** [calculate_share_price(pv_fcf_sum, pv_terminal, total_debt, total_cash,
    shares_outstanding)] *)
Definition calculate_share_price
  (pv_fcf_sum pv_terminal total_debt total_cash shares_outstanding : flt)
  : outcome (flt * flt * flt) :=
  let firm_value := (pv_fcf_sum + pv_terminal)%flt in
  let equity_value := (firm_value - total_debt + total_cash)%flt in
  let share_price := (equity_value / shares_outstanding)%flt in
  Returns (firm_value, equity_value, share_price).

(** One turn of the sensitivity loop: a copy of the projection is
    discounted at [current_wacc]; the FCF column and [final_fcf] are those
    of the projection made once, before the loop. *)
Definition sensitivity_pass (projection : DataFrame) (final_fcf : flt)
  (terminal_growth total_debt total_cash shares_outstanding : flt)
  (current_wacc : flt) : outcome flt :=
  ((* Discount FCF *)
   let current_projection := projection in
   let periods := arange_from_1 (len current_projection) in
   fcf <- getitem current_projection "FCF" ;;
   let current_projection :=
     setitem current_projection "Discounted FCF"
       (discount fcf (#1 + current_wacc)%flt periods) in
   (* Calculate TV *)
   tv <- calculate_terminal_value final_fcf current_wacc terminal_growth
           (len current_projection) ;;
   let current_pv_terminal := snd tv in
   (* Calculate share price *)
   discounted <- getitem current_projection "Discounted FCF" ;;
   price <- calculate_share_price (sum discounted) current_pv_terminal
              total_debt total_cash shares_outstanding ;;
   Returns (snd price))%exc.

Fixpoint for_each {A B} (f : A -> outcome B) (l : list A) : outcome (list B) :=
  match l with
  | [] => Returns []
  | x :: rest =>
      (y <- f x ;;
       ys <- for_each f rest ;;
       Returns (y :: ys))%exc
  end.

(** Section 7 of the page: the share price at the three WACC values. *)
Definition sensitivity_analysis (projection : DataFrame) (final_fcf : flt)
  (terminal_growth total_debt total_cash shares_outstanding : flt)
  (wacc_lower wacc wacc_upper : flt) : outcome (list flt) :=
  let wacc_values := [wacc_lower; wacc; wacc_upper] in
  for_each (sensitivity_pass projection final_fcf terminal_growth
              total_debt total_cash shares_outstanding) wacc_values.

(** *** The sidebar in "Advanced" mode *)

Section AdvancedMode.

(** Python's [float(text)]: the number the text denotes, or a
    [ValueError]. *)
Variable float : string -> outcome flt.

(** [[float(x.strip())/100 for x in text.split(',')][:num_years]] *)
Definition percentages (text : string) (num_years : nat) : outcome (list flt) :=
  (values <- for_each (fun x => v <- float (PyStr.strip x) ;; Returns (v / #100)%flt)
                      (PyStr.split_on "," text) ;;
   Returns (firstn num_years values))%exc.

(** [while len(pattern) < num_years:
       pattern.append(pattern[-1] if pattern else default)].
    Every turn makes the list one longer, so [num_years] turns are
    enough. *)
Fixpoint pad_loop (fuel : nat) (pattern : list flt) (default : flt) (num_years : nat)
  : list flt :=
  match fuel with
  | O => pattern
  | S fuel' =>
      if (List.length pattern <? num_years)%nat
      then pad_loop fuel' (pattern ++ [last pattern default]) default num_years
      else pattern
  end.

Definition pad (pattern : list flt) (default : flt) (num_years : nat) : list flt :=
  pad_loop num_years pattern default num_years.

(** The three text areas are read, cut to [num_years] values and padded;
    any exception puts an error in the sidebar and the defaults in the
    three patterns. *)
Definition advanced_mode (growth_input ebit_input reinv_input : string)
  (num_years : nat) : py (list flt * list flt * list flt) :=
  try_except
    (lift (growth_pattern <- percentages growth_input num_years ;;
           ebit_margin_pattern <- percentages ebit_input num_years ;;
           reinv_rate_pattern <- percentages reinv_input num_years ;;
           (* Pad with last value if needed *)
           let growth_pattern := pad growth_pattern #0.06 num_years in
           let ebit_margin_pattern := pad ebit_margin_pattern #0.46 num_years in
           let reinv_rate_pattern := pad reinv_rate_pattern #0.20 num_years in
           Returns (growth_pattern, ebit_margin_pattern, reinv_rate_pattern))%exc)
    (fun e =>
       (emit (st_sidebar_error "Invalid input format. Using defaults.") ;;
        ret (repeat #0.15 num_years, repeat #0.46 num_years, repeat #0.20 num_years))%py).

End AdvancedMode.

(** A reading of [float] for plain decimal literals, an optional sign,
    digits and at most one point (["20"], ["7.5"], ["-3"]); it stands in
    for Python's [float] on the inputs written out below.  Python accepts
    more (exponents, ["inf"], ["nan"], underscores). *)
Definition digit_of (c : ascii) : option Z :=
  let n := nat_of_ascii c in
  if ((48 <=? n) && (n <=? 57))%nat then Some (Z.of_nat (n - 48)) else None.

Fixpoint scan_decimal (s : string) (num : Z) (scale : option Z) (any : bool)
  : option Q :=
  match s with
  | EmptyString =>
      if any
      then Some (inject_Z num / inject_Z match scale with Some k => k | None => 1 end)%Q
      else None
  | String c rest =>
      match digit_of c with
      | Some d => scan_decimal rest (10 * num + d) (option_map (Z.mul 10) scale) true
      | None =>
          if Ascii.eqb c "." then
            match scale with
            | None => scan_decimal rest num (Some 1%Z) any
            | Some _ => None
            end
          else None
      end
  end.

Definition decimal_float (text : string) : outcome flt :=
  let unsigned body :=
    match scan_decimal body 0 None false with
    | Some q => Returns (Fin q)
    | None => Raises (ValueError ("could not convert string to float: '" ++ text ++ "'"))
    end in
  match text with
  | String "-" body => bind (unsigned body) (fun v => Returns (neg v))
  | String "+" body => unsigned body
  | _ => unsigned text
  end.

End Dcf.

(** * Reference formulas

    The closed forms the code is compared with, over the rationals. *)

Module Formula.

(** [(1 + g_1) * ... * (1 + g_t)] *)
Definition compound (growth : list Q) : Q :=
  fold_right (fun g acc => (1 + g) * acc)%Q 1%Q growth.

(** [revenue_t = LTM * (1 + g_1) * ... * (1 + g_t)], years counted from 1. *)
Definition revenue (ltm : Q) (growth : list Q) (t : nat) : Q :=
  (ltm * compound (firstn t growth))%Q.

(** [FCF_t / base ^ t] for the years [t, t + 1, ...]. *)
Fixpoint discounted (fcfs : list Q) (base : Q) (t : nat) : list Q :=
  match fcfs with
  | [] => []
  | f :: rest => (f / base ^ Z.of_nat t)%Q :: discounted rest base (S t)
  end.

Definition Qsum (l : list Q) : Q := fold_right Qplus 0%Q l.

(** The sum of [FCF_t / (1 + wacc) ^ t] over the years [1..N]. *)
Definition present_value (fcfs : list Q) (wacc : Q) : Q :=
  Qsum (discounted fcfs (1 + wacc)%Q 1).

(** [PV(TV) = FCF_N * (1 + g) / (wacc - g) / (1 + wacc) ^ N] *)
Definition terminal (fcfs : list Q) (g wacc : Q) : Q :=
  (last fcfs 0 * (1 + g) / (wacc - g) / (1 + wacc) ^ Z.of_nat (List.length fcfs))%Q.

(** The implied share price of one FCF stream at a discount rate. *)
Definition share_price (fcfs : list Q) (g debt cash shares wacc : Q) : Q :=
  ((present_value fcfs wacc + terminal fcfs g wacc - debt + cash) / shares)%Q.

(** [extendToLength(vector, n)]: a vector shorter than [n] is continued
    with its last value ([default] stands in when there is none). *)
Definition extend_to_length (vector : list flt) (default : flt) (n : nat) : list flt :=
  vector ++ repeat (last vector default) (n - List.length vector).

(** The frame [project_financials] builds when the three patterns have
    one value per projected year. *)
Definition projected (ltm_revenue : flt) (growth ebit_margin reinv_rate : list flt)
  (tax_rate : flt) (dates : list date) : DataFrame :=
  let revenue :=
    map (mul ltm_revenue)
        (s_values (cumprod (mkSeries dates (map (add #1) growth)))) in
  let ebit := map2 mul revenue ebit_margin in
  let nopat := map (fun e => e * (#1 - tax_rate))%flt ebit in
  let fcf := map2 mul nopat (map (sub #1) reinv_rate) in
  mkFrame dates
    [("Revenue Growth", growth); ("EBIT Margin", ebit_margin);
     ("Reinv Rate", reinv_rate); ("Revenue", revenue); ("EBIT", ebit);
     ("NOPAT", nopat); ("FCF", fcf)].

(** The frame [calculate_reinvestment] returns, from the columns it reads:
    [capex] is the column as the caller holds it, before the negation. *)
Definition reinvested (idx : list date) (capex da nwc change tax ebit : Series) : DataFrame :=
  let capital := map neg (s_values capex) in
  let nwc_col := reindex nwc idx in
  let change_col := reindex change idx in
  let reinvestment := map2 add (map2 sub capital (s_values da)) change_col in
  let tax_col := reindex tax idx in
  let nopat :=
    reindex (binop mul ebit (mkSeries idx (map (sub #1) tax_col))) idx in
  mkFrame idx
    [("Capital Expenditure", capital);
     ("Depreciation And Amortization", s_values da);
     ("NWC", nwc_col); ("Change in NWC", change_col);
     ("Reinvestment", reinvestment); ("Tax Rate", tax_col);
     ("NOPAT", nopat);
     ("Reinvestment Rate", map2 div reinvestment nopat)].

(** The frame of the caller after the call: its capital expenditure
    column has changed sign. *)
Definition negated (cash_flows : DataFrame) (capex : list flt) : DataFrame :=
  setitem cash_flows "Capital Expenditure"
    (mkSeries (df_index cash_flows) (map neg capex)).

End Formula.

(** * Scenarios *)

Module Scenario.

(** Nothing on the heap, nothing on the screen. *)
Definition blank_world : world := mkWorld [] [].

(** Two periods of a firm with an operating loss in the second one. *)
Definition history_world : world :=
  mkWorld
    [ mkFrame [1%Z; 2%Z]
        [("Capital Expenditure", [#(-100); #(-120)]);
         ("Depreciation And Amortization", [#20; #30])];
      mkFrame [1%Z; 2%Z]
        [("NWC", [#50; #55]); ("Change in NWC", [NaN; #5])];
      mkFrame [1%Z; 2%Z]
        [("EBIT", [#200; #(-40)]); ("Tax Rate For Calcs", [#0.25; #0.25])] ]
    [].

End Scenario.

(** * The rest of the pages *)

Module Pages.

Import Dcf.

(** The world after the [except] branch of a fetch has reported [e]. *)
Definition reported (e : exn) (w : world) : world :=
  mkWorld (heap w) (screen w ++ [st_error ("Error fetching data: " ++ message e)]).

(** The world after the [except] branch of the sidebar has written its
    error. *)
Definition sidebar_error (w : world) : world :=
  mkWorld (heap w) (screen w ++ [st_sidebar_error "Invalid input format. Using defaults."]).

(** ** Page 1: capital structure weights

    These are plain Python numbers, not numpy values: a zero divisor
    raises [ZeroDivisionError]. *)

Inductive arith (A : Type) : Type :=
| Value (a : A)
| ZeroDivisionError.

Arguments ZeroDivisionError {A}.

Definition truediv (x y : flt) : arith flt :=
  match y with
  | Fin b => if Qeq_bool b 0 then ZeroDivisionError else Value (x / y)%flt
  | _ => Value (x / y)%flt
  end.

Definition and_then {A B} (c : arith A) (k : A -> arith B) : arith B :=
  match c with
  | Value a => k a
  | ZeroDivisionError => ZeroDivisionError
  end.

(** The "Display Scale" select box. *)
Inductive scale_option : Type := Millions | Billions.

Definition scale_factor (s : scale_option) : flt :=
  match s with Millions => #1000000 | Billions => #1000000000 end.

Record capital_structure : Type := mkCapital {
  market_cap : flt;
  total_debt : flt;
  w_E : flt;
  w_D : flt
}.

(** Section 1 of the page: the scaled market capitalisation and debt,
    and their shares of the total. *)
Definition capital_weights (info : list (string * flt)) (scale : scale_option)
  : arith capital_structure :=
  and_then (truediv (info_get info "marketCap" #0) (scale_factor scale)) (fun market_cap =>
  and_then (truediv (info_get info "totalDebt" #0) (scale_factor scale)) (fun total_debt =>
  (* Calculate weights *)
  and_then (truediv market_cap (market_cap + total_debt)%flt) (fun w_E =>
  and_then (truediv total_debt (market_cap + total_debt)%flt) (fun w_D =>
  Value (mkCapital market_cap total_debt w_E w_D))))).

(** ** Page 2: fetching the statements *)

Record statements : Type := mkStatements {
  st_info : list (string * flt);
  financials : DataFrame;
  balance_sheet : DataFrame;
  cashflow : DataFrame
}.

Record financial_data : Type := mkFinancial {
  income_statement : DataFrame;
  balance : DataFrame;
  cash_flows : DataFrame;
  fd_info : list (string * flt)
}.

(** [get_financial_data(ticker_symbol)].  [fetched] is the answer of the
    provider, one row per line item and one column per year in each
    statement; the statements are transposed and sorted by period. *)
Definition get_financial_data (fetched : outcome statements) : py (option financial_data) :=
  try_except
    (lift (ticker <- fetched ;;
           let info := st_info ticker in
           (* Get financial statements and transpose so dates are rows *)
           let income_statement := sort_index (T (financials ticker)) in
           let balance_sheet := sort_index (T (balance_sheet ticker)) in
           let cash_flows := sort_index (T (cashflow ticker)) in
           Returns (Some (mkFinancial income_statement balance_sheet cash_flows info)))%exc)
    (fun e => (emit (st_error ("Error fetching data: " ++ message e)) ;; ret None)%py).

(** ** Page 3: the sidebar in "Simple" mode *)

(** [np.linspace(start, stop, num).tolist()]: [arange(0, num) * step + start]
    with [step = (stop - start) / (num - 1)], the last value then set to
    [stop]; a single value is [0 * (stop - start) + start].  (For a step of
    zero numpy divides before it multiplies, which gives the same
    numbers.) *)
Definition linspace (start stop : flt) (num : nat) : list flt :=
  match num with
  | O => []
  | S O => [(#0 * (stop - start) + start)%flt]
  | S div =>
      let step := ((stop - start) / Fin (inject_Z (Z.of_nat div)))%flt in
      (map (fun i => Fin (inject_Z (Z.of_nat i)) * step + start)%flt (seq 0 div)
       ++ [stop])%list
  end.

(** The three patterns of the simple mode. *)
Definition simple_mode (initial_growth final_growth ebit_margin_const
  initial_reinv final_reinv : flt) (num_years : nat) : list flt * list flt * list flt :=
  (* Create declining growth pattern *)
  let growth_pattern := linspace initial_growth final_growth num_years in
  let ebit_margin_pattern := repeat ebit_margin_const num_years in
  let reinv_rate_pattern := linspace initial_reinv final_reinv num_years in
  (growth_pattern, ebit_margin_pattern, reinv_rate_pattern).

(** ** Page 3: projection dates *)

Inductive month_of_year : Type :=
| JAN | FEB | MAR | APR | MAY | JUN | JUL | AUG | SEP | OCT | NOV | DEC.

Definition month_number (m : month_of_year) : Z :=
  match m with
  | JAN => 1 | FEB => 2 | MAR => 3 | APR => 4 | MAY => 5 | JUN => 6
  | JUL => 7 | AUG => 8 | SEP => 9 | OCT => 10 | NOV => 11 | DEC => 12
  end.

Record Timestamp : Type := mkTimestamp {
  year : Z;
  month : month_of_year;
  day : Z
}.

Definition is_leap_year (y : Z) : bool :=
  (Z.eqb (y mod 4) 0 && (negb (Z.eqb (y mod 100) 0) || Z.eqb (y mod 400) 0))%bool.

Definition days_in_month (y : Z) (m : month_of_year) : Z :=
  match m with
  | FEB => if is_leap_year y then 29 else 28
  | APR | JUN | SEP | NOV => 30
  | _ => 31
  end.

(** The last day of month [m] in year [y]: the dates a year-end frequency
    anchored on [m] consists of. *)
Definition year_end (y : Z) (m : month_of_year) : Timestamp :=
  mkTimestamp y m (days_in_month y m).

Definition not_after (a b : Timestamp) : bool :=
  (Z.ltb (year a) (year b)
   || Z.eqb (year a) (year b)
      && (Z.ltb (month_number (month a)) (month_number (month b))
          || Z.eqb (month_number (month a)) (month_number (month b))
             && Z.leb (day a) (day b)))%bool.

(** The year-end frequencies: ['YE-JAN'] ... ['YE-DEC']. *)
Inductive frequency : Type := YE (anchor : month_of_year).

(** [freq_dict[most_recent_date.month]] *)
Definition freq_dict (m : month_of_year) : frequency := YE m.

(** [pd.date_range(start=start, periods=periods, freq=f)]: the first
    [periods] dates of the frequency that are not before [start]. *)
Definition date_range (start : Timestamp) (periods : nat) (f : frequency)
  : list Timestamp :=
  match f with
  | YE m =>
      let first :=
        if not_after start (year_end (year start) m) then year start
        else (year start + 1)%Z in
      map (fun k => year_end (first + Z.of_nat k) m) (seq 0 periods)
  end.

(** [create_projection_dates(most_recent_date, num_years)] *)
Definition create_projection_dates (most_recent_date : Timestamp) (num_years : nat)
  : list Timestamp :=
  let f := freq_dict (month most_recent_date) in
  let new_dates := date_range most_recent_date (num_years + 1) f in
  tl new_dates.

End Pages.

(** * Properties *)

Unset Implicit Arguments.

Import Wacc Historical Dcf Formula Scenario Pages.

(** ** Facts on floats *)

Section FloatFacts.

Lemma same_refl (x : flt) : x =~ x.
Proof. destruct x; simpl; auto with qarith. Qed.

Lemma same_sym (x y : flt) : x =~ y -> y =~ x.
Proof. destruct x, y; simpl; auto with qarith. Qed.

Lemma same_trans (x y z : flt) : x =~ y -> y =~ z -> x =~ z.
Proof.
  destruct x, y, z; simpl; try tauto.
  intros H1 H2. now rewrite H1.
Qed.

Lemma Qeq_bool_false (a b : Q) : ~ a == b -> Qeq_bool a b = false.
Proof.
  intros H. destruct (Qeq_bool a b) eqn:E; [| reflexivity].
  apply Qeq_bool_iff in E. contradiction.
Qed.

(** A finite dividend over a finite, nonzero divisor is the finite
    quotient: also when the divisor is negative. *)
Lemma div_finite (a b : Q) : ~ b == 0 -> (#a / #b)%flt = #(a / b).
Proof. intros H. simpl. now rewrite (Qeq_bool_false _ _ H). Qed.

(** Over zero the quotient is an infinity or NaN. *)
Lemma div_by_zero (a b : Q) :
  b == 0 -> is_finite (#a / #b)%flt = false.
Proof.
  intros H. simpl.
  assert (E : Qeq_bool b 0 = true) by now apply Qeq_bool_iff.
  rewrite E. unfold scale_inf. destruct (a ?= 0)%Q; reflexivity.
Qed.

Lemma add_nan_r (x : flt) : (x + NaN)%flt = NaN.
Proof. now destruct x. Qed.

Lemma mul_nan_r (x : flt) : (x * NaN)%flt = NaN.
Proof. now destruct x. Qed.

Lemma mul_nan_l (x : flt) : (NaN * x)%flt = NaN.
Proof. reflexivity. Qed.

Lemma pow_finite (a : Q) (n : nat) : exists q, (#a ** n)%flt = #q /\ q == a ^ Z.of_nat n.
Proof.
  destruct n as [| n].
  - exists 1. split; [reflexivity | reflexivity].
  - exists (a ^ Z.of_nat (S n)). split; reflexivity.
Qed.

Lemma leb_finite (a b : Q) : leb #a #b = true <-> a <= b.
Proof. simpl. apply Qle_bool_iff. Qed.

Lemma ltb_finite (a b : Q) : ltb #a #b = true <-> a < b.
Proof.
  simpl. rewrite negb_true_iff. split.
  - intros H. apply Qnot_le_lt. intros Hle.
    apply Qle_bool_iff in Hle. congruence.
  - intros H. destruct (Qle_bool b a) eqn:E; [| reflexivity].
    apply Qle_bool_iff in E. apply Qlt_not_le in H. contradiction.
Qed.

End FloatFacts.

(** ** Powers of a rational with a natural exponent *)

Section Powers.

Lemma Qpower_succ (a : Q) (k : nat) : a ^ Z.of_nat (S k) == a * a ^ Z.of_nat k.
Proof.
  rewrite Nat2Z.inj_succ. unfold Z.succ.
  rewrite Qpower_plus' by lia.
  rewrite Qpower_1_r. ring.
Qed.

Lemma Qpower_nat_pos (a : Q) (k : nat) : 0 < a -> 0 < a ^ Z.of_nat k.
Proof. intros. now apply Qpower_0_lt. Qed.

(** A larger positive base gives a larger power, strictly so from the
    first power on. *)
Lemma Qpower_base_lt (a b : Q) (k : nat) :
  0 < a -> a < b -> a ^ Z.of_nat (S k) < b ^ Z.of_nat (S k).
Proof.
  intros Ha Hab. induction k as [| k IH].
  - simpl. change (a ^ 1 < b ^ 1). now rewrite !Qpower_1_r.
  - rewrite (Qpower_succ a (S k)), (Qpower_succ b (S k)).
    assert (Hb : 0 < b) by (eapply Qlt_trans; eauto).
    assert (Hak := Qpower_nat_pos a (S k) Ha).
    apply Qlt_trans with (a * b ^ Z.of_nat (S k)).
    + apply Qmult_lt_l; assumption.
    + apply Qmult_lt_r; [| assumption].
      now apply Qpower_nat_pos.
Qed.


End Powers.

(** ** Terminal value *)

Section TerminalValue.

(** The function has no branch and no [raise]: it returns on every
    input. *)
Lemma calculate_terminal_value_returns (final_fcf wacc g : flt) (n : nat) :
  raised (calculate_terminal_value final_fcf wacc g n) = false.
Proof. reflexivity. Qed.

(** With the discount rate equal to the growth rate the quotient is taken
    over zero: the terminal value is an infinity or NaN. *)
Lemma calculate_terminal_value_at_growth (final_fcf g : Q) (n : nat) :
  exists tv pv,
    calculate_terminal_value #final_fcf #g #g n = Returns (tv, pv) /\
    is_finite tv = false.
Proof.
  unfold calculate_terminal_value. do 2 eexists. split; [reflexivity |].
  apply div_by_zero. ring.
Qed.

(** The value on finite inputs, away from the two zero divisors. *)
Lemma terminal_value_finite (final_fcf wacc g : Q) (n : nat) :
  ~ wacc == g -> ~ 1 + wacc == 0 ->
  exists tv pv,
    calculate_terminal_value #final_fcf #wacc #g n = Returns (#tv, #pv) /\
    tv == final_fcf * (1 + g) / (wacc - g) /\
    pv == tv / (1 + wacc) ^ Z.of_nat n.
Proof.
  intros Hg H1.
  assert (Hd : ~ wacc + - g == 0) by (intros A; apply Hg; lra).
  unfold calculate_terminal_value.
  change (#final_fcf * (#1 + #g))%flt with #(final_fcf * (1 + g)).
  change (#wacc - #g)%flt with #(wacc + - g).
  change (#1 + #wacc)%flt with #(1 + wacc).
  rewrite (div_finite _ _ Hd).
  destruct (pow_finite (1 + wacc) n) as [p [Ep Hp]].
  rewrite Ep.
  assert (Hp0 : ~ p == 0) by (rewrite Hp; now apply Qpower_not_0).
  rewrite (div_finite _ _ Hp0).
  do 2 eexists. split; [reflexivity |]. split.
  - reflexivity.
  - now rewrite Hp.
Qed.

(** C1, as the code has it: no guard compares the discount rate with the
    growth rate.  For finite inputs with [wacc <> g], below [g] as well as
    above it, and [wacc <> -1], the function returns
    [TV = final_fcf * (1 + g) / (wacc - g)] and [PV = TV / (1 + wacc) ^ N]. *)
Theorem calculate_terminal_value_gordon (final_fcf wacc g : Q) (n : nat) :
  ~ wacc == g -> ~ 1 + wacc == 0 ->
  exists tv pv,
    calculate_terminal_value #final_fcf #wacc #g n = Returns (#tv, #pv) /\
    tv == final_fcf * (1 + g) / (wacc - g) /\
    pv == tv / (1 + wacc) ^ Z.of_nat n.
Proof. apply terminal_value_finite. Qed.

(** The spec's example: [wacc = 0.09], [g = 0.03], [final_fcf = 100] give
    [TV = 100 * 1.03 / 0.06 = 5150/3 = 1716.666...]. *)
Lemma calculate_terminal_value_gordon_example :
  exists tv pv,
    calculate_terminal_value #100 #0.09 #0.03 5 = Returns (#tv, #pv) /\
    tv == 5150 / 3 /\
    pv == tv / (1 + 0.09) ^ 5.
Proof.
  destruct (calculate_terminal_value_gordon 100 0.09 0.03 5) as [tv [pv [E [Htv Hpv]]]];
    try (intros H; discriminate H).
  exists tv, pv. split; [exact E |]. split; [| exact Hpv].
  rewrite Htv. reflexivity.
Defined.

(** C1, as stated, fails: with [wacc = 0.02] below [g = 0.03] the function
    raises nothing and returns [TV = -10300], a negative terminal value. *)
Lemma calculate_terminal_value_below_growth :
  ltb #0.02 #0.03 = true /\
  raised (calculate_terminal_value #100 #0.02 #0.03 5) = false /\
  exists tv pv,
    calculate_terminal_value #100 #0.02 #0.03 5 = Returns (#tv, #pv) /\
    tv == -10300 /\ pv < 0.
Proof.
  split; [reflexivity |]. split; [reflexivity |].
  do 2 eexists. split; [vm_compute; reflexivity |].
  split; reflexivity.
Qed.

End TerminalValue.

(** ** Credit spread and cost of debt *)

Section CreditSpread.

Lemma get_credit_spread_not_found (rating : string) (table : list spread_entry) (w : world) :
  existsb (rating_matches rating) table = false ->
  get_credit_spread rating table w = (Returns NaN, warned rating w).
Proof.
  induction table as [| entry rest IH]; simpl; intros H.
  - reflexivity.
  - apply orb_false_iff in H. destruct H as [H1 H2].
    rewrite H1. now apply IH.
Qed.

(** A rating that matches gets the spread of the first matching entry,
    as a decimal, and nothing is written on the screen. *)
Lemma get_credit_spread_found (rating : string) (before after : list spread_entry)
  (entry : spread_entry) (w : world) :
  existsb (rating_matches rating) before = false ->
  rating_matches rating entry = true ->
  get_credit_spread rating (before ++ entry :: after) w
  = (Returns (Spread entry / #100)%flt, w).
Proof.
  intros Hb He. induction before as [| b rest IH]; simpl.
  - now rewrite He.
  - simpl in Hb. apply orb_false_iff in Hb. destruct Hb as [H1 H2].
    rewrite H1. now apply IH.
Qed.

(** C2, as the code has it: a rating without a case-insensitive, trimmed
    match in the table gets NaN, the "not found" signal, with a warning on
    the screen, never a finite spread; the cost of debt [rf + NaN] is then
    NaN as well: the computation returns and raises nothing. *)
Theorem cost_of_debt_unmatched_rating (rf : flt) (rating : string) (w : world) :
  existsb (rating_matches rating) credit_spreads = false ->
  get_credit_spread rating credit_spreads w = (Returns NaN, warned rating w) /\
  cost_of_debt rf rating w = (Returns NaN, warned rating w).
Proof.
  intros H. split.
  - now apply get_credit_spread_not_found.
  - unfold cost_of_debt, bind_py.
    rewrite (get_credit_spread_not_found _ _ _ H).
    unfold ret. now rewrite add_nan_r.
Qed.

Lemma cost_of_debt_unmatched_rating_example :
  existsb (rating_matches "ZZZ") credit_spreads = false /\
  get_credit_spread "ZZZ" credit_spreads (mkWorld [] [])
    = (Returns NaN, warned "ZZZ" (mkWorld [] [])) /\
  cost_of_debt #0.045 "ZZZ" (mkWorld [] [])
    = (Returns NaN, warned "ZZZ" (mkWorld [] [])).
Proof.
  split; [reflexivity |].
  apply (cost_of_debt_unmatched_rating #0.045 "ZZZ" (mkWorld [] [])). reflexivity.
Defined.

(** C2, as stated, fails: for the unknown rating ["ZZZ"] the cost of debt
    does not fail, it evaluates to NaN. *)
Lemma cost_of_debt_does_not_fail :
  existsb (rating_matches "ZZZ") credit_spreads = false /\
  raised (fst (cost_of_debt #0.045 "ZZZ" (mkWorld [] []))) = false /\
  fst (cost_of_debt #0.045 "ZZZ" (mkWorld [] [])) = Returns NaN.
Proof. repeat split. Qed.

(** A known rating, in any case and with blanks around it. *)
Example cost_of_debt_aaa :
  exists kd, fst (cost_of_debt #0.045 " aaa/AAA " (mkWorld [] [])) = Returns #kd /\
             kd == 0.0495.
Proof. eexists. split; [vm_compute; reflexivity | reflexivity]. Qed.

End CreditSpread.

(** ** WACC and beta *)

Section WaccBand.



End WaccBand.

(** ** Facts on series and frames *)

Section PandasFacts.

Lemma index_eqb_refl (idx : list date) : index_eqb idx idx = true.
Proof.
  induction idx as [| d idx IH]; simpl; [reflexivity |].
  now rewrite Z.eqb_refl.
Qed.

Lemma reindex_same (idx : list date) (v : list flt) :
  reindex (mkSeries idx v) idx = v.
Proof. unfold reindex. simpl. now rewrite index_eqb_refl. Qed.

Lemma binop_same (f : flt -> flt -> flt) (idx : list date) (a b : list flt) :
  binop f (mkSeries idx a) (mkSeries idx b) = mkSeries idx (map2 f a b).
Proof. unfold binop. simpl. now rewrite index_eqb_refl. Qed.

Lemma map2_length (f : flt -> flt -> flt) (a b : list flt) :
  List.length a = List.length b -> List.length (map2 f a b) = List.length a.
Proof.
  revert b. induction a as [| x a IH]; intros [| y b]; simpl; intros H;
    try reflexivity; try discriminate.
  f_equal. apply IH. now injection H.
Qed.

Lemma map2_finite (f : flt -> flt -> flt) (g : Q -> Q -> Q) (a b : list Q) :
  (forall x y, f #x #y = #(g x y)) ->
  map2 f (map Fin a) (map Fin b)
  = map Fin (map (fun p => g (fst p) (snd p)) (combine a b)).
Proof.
  intros H. revert b. induction a as [| x a IH]; intros [| y b]; simpl;
    try reflexivity.
  now rewrite H, IH.
Qed.

End PandasFacts.

(** Running a chain of [df[name]] and [df[name] = ...] on a frame whose
    column names are known. *)
Ltac frame_step :=
  unfold columns, getitem, setitem, smap, cumprod, discount;
  cbn [bind lookup_column assign_column df_columns df_index s_index s_values
       String.eqb Ascii.eqb Bool.eqb fst snd];
  rewrite ?reindex_same, ?binop_same.

Ltac frame_steps := repeat progress frame_step.

(** ** Revenue projection *)

Section Projection.

Lemma project_financials_frame (ltm_revenue : flt) (growth ebit_margin reinv_rate : list flt)
  (tax_rate : flt) (dates : list date) :
  List.length growth = List.length dates ->
  List.length ebit_margin = List.length dates ->
  List.length reinv_rate = List.length dates ->
  project_financials ltm_revenue growth ebit_margin reinv_rate tax_rate dates
  = Returns (projected ltm_revenue growth ebit_margin reinv_rate tax_rate dates).
Proof.
  intros Hg He Hr. unfold project_financials, all_lengths. simpl forallb.
  rewrite Hg, He, Hr, Nat.eqb_refl.
  cbn [andb]. unfold projected. frame_steps.
  reflexivity.
Qed.

(** A lengths mismatch is refused when the frame is built. *)
Lemma project_financials_length_mismatch (ltm_revenue : flt)
  (growth ebit_margin reinv_rate : list flt) (tax_rate : flt) (dates : list date) :
  List.length growth <> List.length dates ->
  raised (project_financials ltm_revenue growth ebit_margin reinv_rate tax_rate dates) = true.
Proof.
  intros H. unfold project_financials, all_lengths. simpl forallb.
  apply Nat.eqb_neq in H. now rewrite H.
Qed.

(** The running product of finite factors. *)
Lemma cumprod_from_finite (acc : Q) (factors : list Q) (t : nat) :
  (t < List.length factors)%nat ->
  exists r, nth_error (cumprod_from #acc (map Fin factors)) t = Some #r /\
            r == acc * fold_right Qmult 1 (firstn (S t) factors).
Proof.
  revert acc t. induction factors as [| x factors IH]; intros acc t Ht.
  - simpl in Ht. lia.
  - destruct t as [| t].
    + simpl. eexists. split; [reflexivity |]. destruct factors; simpl; ring.
    + simpl in Ht. destruct (IH (acc * x) t) as [r [E Hr]]; [lia |].
      exists r. split.
      * exact E.
      * rewrite Hr. change (firstn (S (S t)) (x :: factors)) with (x :: firstn (S t) factors).
        simpl fold_right. ring.
Qed.

Lemma compound_as_product (growth : list Q) :
  Formula.compound growth == fold_right Qmult 1 (map (Qplus 1) growth).
Proof.
  induction growth as [| g growth IH]; simpl; [reflexivity |].
  now rewrite IH.
Qed.

(** C3: projected revenue is the LTM base times the cumulative product of
    the growth factors, [revenue_t = LTM * (1 + g_1) * ... * (1 + g_t)]:
    the column is [ltm_revenue * (1 + growth).cumprod()]. *)
Theorem revenue_is_cumulative_product (ltm : Q) (growth : list Q)
  (ebit_margin reinv_rate : list flt) (tax_rate : flt) (dates : list date) :
  List.length growth = List.length dates ->
  List.length ebit_margin = List.length dates ->
  List.length reinv_rate = List.length dates ->
  exists projection revenue,
    project_financials #ltm (map Fin growth) ebit_margin reinv_rate tax_rate dates
      = Returns projection /\
    getitem projection "Revenue" = Returns revenue /\
    revenue = smap (mul #ltm) (cumprod (smap (add #1) (mkSeries dates (map Fin growth)))) /\
    forall t, (t < List.length growth)%nat ->
      exists r, nth_error (s_values revenue) t = Some #r /\
                r == Formula.revenue ltm growth (S t).
Proof.
  intros Hg He Hr.
  rewrite project_financials_frame by (rewrite ?length_map; assumption).
  do 2 eexists. split; [reflexivity |]. split; [reflexivity |].
  split; [reflexivity |].
  intros t Ht. unfold Formula.revenue. simpl s_values.
  destruct growth as [| g growth]; [simpl in Ht; lia |].
  simpl map. simpl nan_to.
  destruct t as [| t].
  - simpl. eexists. split; [reflexivity |]. destruct growth; simpl; ring.
  - simpl in Ht.
    change (map (Float.add #1) (map Fin growth)) with (map (fun x => #1 + x)%flt (map Fin growth)).
    rewrite map_map.
    change (map (fun x : Q => (#1 + #x)%flt) growth) with (map (fun x : Q => #(1 + x)) growth).
    rewrite <- (map_map (Qplus 1) Fin).
    destruct (cumprod_from_finite (1 + g) (map (Qplus 1) growth) t) as [r [E Hr']].
    { rewrite length_map. lia. }
    simpl nth_error. rewrite (nth_error_map (mul #ltm)).
    change (nan_to #1 #(1 + g)) with #(1 + g).
    rewrite E. simpl. eexists. split; [reflexivity |].
    rewrite Hr'. rewrite firstn_map, <- compound_as_product.
    change (firstn (S (S t)) (g :: growth)) with (g :: firstn (S t) growth).
    simpl. ring.
Qed.

(** The spec's example: [LTMRevenue = 100] with growth [0.10, 0.10] gives
    [revenue_1 = 110] and [revenue_2 = 121]. *)
Lemma revenue_is_cumulative_product_example :
  exists projection revenue,
    project_financials #100 [#0.10; #0.10] [#0.4; #0.4] [#0.3; #0.3] #0.25 [1%Z; 2%Z]
      = Returns projection /\
    getitem projection "Revenue" = Returns revenue /\
    (exists r1, nth_error (s_values revenue) 0%nat = Some #r1 /\ r1 == 110) /\
    (exists r2, nth_error (s_values revenue) 1%nat = Some #r2 /\ r2 == 121).
Proof.
  destruct (revenue_is_cumulative_product 100 [0.10; 0.10] [#0.4; #0.4] [#0.3; #0.3]
              #0.25 [1%Z; 2%Z] eq_refl eq_refl eq_refl)
    as [projection [revenue [E [G [_ H]]]]].
  exists projection, revenue. split; [exact E |]. split; [exact G |]. split.
  - destruct (H 0%nat) as [r [E1 H1]]; [simpl; lia |].
    exists r. split; [exact E1 |]. rewrite H1. reflexivity.
  - destruct (H 1%nat) as [r [E1 H1]]; [simpl; lia |].
    exists r. split; [exact E1 |]. rewrite H1. reflexivity.
Defined.

End Projection.

(** ** Assumption vectors in "Advanced" mode *)

Section Padding.

Lemma pad_loop_extends (fuel : nat) (pattern : list flt) (default : flt) (n : nat) :
  (n - List.length pattern <= fuel)%nat ->
  pad_loop fuel pattern default n = Formula.extend_to_length pattern default n.
Proof.
  unfold Formula.extend_to_length.
  revert pattern. induction fuel as [| fuel IH]; intros pattern Hfuel.
  - simpl. replace (n - List.length pattern)%nat with 0%nat by lia.
    simpl. now rewrite app_nil_r.
  - simpl. destruct (List.length pattern <? n)%nat eqn:E.
    + apply Nat.ltb_lt in E.
      rewrite IH by (rewrite length_app; simpl; lia).
      rewrite last_last, length_app. simpl.
      replace (n - List.length pattern)%nat with (S (n - (List.length pattern + 1)))%nat by lia.
      simpl. now rewrite <- app_assoc.
    + apply Nat.ltb_ge in E.
      replace (n - List.length pattern)%nat with 0%nat by lia.
      simpl. now rewrite app_nil_r.
Qed.

(** The loop ends by its own test, with one value per projected year,
    whenever it starts from at most [num_years] values. *)
Lemma pad_extends (pattern : list flt) (default : flt) (num_years : nat) :
  pad pattern default num_years = Formula.extend_to_length pattern default num_years.
Proof. unfold pad. apply pad_loop_extends. lia. Qed.

Lemma extend_to_length_length (vector : list flt) (default : flt) (n : nat) :
  (List.length vector <= n)%nat ->
  List.length (Formula.extend_to_length vector default n) = n.
Proof.
  intros H. unfold Formula.extend_to_length.
  rewrite length_app, repeat_length. lia.
Qed.

Lemma for_each_length {A B} (f : A -> outcome B) (l : list A) (r : list B) :
  for_each f l = Returns r -> List.length r = List.length l.
Proof.
  revert r. induction l as [| x l IH]; simpl; intros r H.
  - injection H as <-. reflexivity.
  - destruct (f x); [| discriminate]. simpl in H.
    destruct (for_each f l) as [ys |]; [| discriminate]. simpl in H.
    injection H as <-. simpl. f_equal. now apply IH.
Qed.

Lemma split_on_nonempty (sep : ascii) (s : string) : PyStr.split_on sep s <> [].
Proof.
  destruct s as [| c s]; simpl; [discriminate |].
  destruct (Ascii.eqb c sep); [discriminate |].
  destruct (PyStr.split_on sep s); discriminate.
Qed.

Section Reader.

Variable float : string -> outcome flt.

(** What is read from a text area has at most [num_years] values, and at
    least one when a year is projected: the default of the loop is never
    used. *)
Lemma percentages_length (text : string) (num_years : nat) (values : list flt) :
  percentages float text num_years = Returns values ->
  (List.length values <= num_years)%nat /\
  ((0 < num_years)%nat -> values <> []).
Proof.
  unfold percentages. intros H.
  destruct (for_each _ (PyStr.split_on "," text)) as [all |] eqn:E; [| discriminate].
  simpl in H. injection H as <-.
  split.
  - rewrite length_firstn. lia.
  - intros Hn. apply for_each_length in E.
    pose proof (split_on_nonempty "," text) as Hs.
    destruct all as [| v all].
    + destruct (PyStr.split_on "," text); [congruence | discriminate].
    + destruct num_years; [lia | discriminate].
Qed.


End Reader.



End Padding.

(** ** Last twelve months *)

Section LastTwelveMonths.

Lemma lookup_column_map (f : list flt -> list flt) (name : string)
  (cols : list (string * list flt)) :
  lookup_column name (map (fun c => (fst c, f (snd c))) cols)
  = option_map f (lookup_column name cols).
Proof.
  induction cols as [| [n v] cols IH]; simpl; [reflexivity |].
  destruct (String.eqb n name); [reflexivity | exact IH].
Qed.

Lemma insert_row_length {A} (r : date * A) (l : list (date * A)) :
  List.length (insert_row r l) = S (List.length l).
Proof.
  induction l as [| x l IH]; simpl; [reflexivity |].
  destruct (Z.leb (fst r) (fst x)); simpl; [reflexivity | now rewrite IH].
Qed.

Lemma sort_rows_length {A} (l : list (date * A)) :
  List.length (sort_rows l) = List.length l.
Proof.
  induction l as [| x l IH]; simpl; [reflexivity |].
  unfold sort_rows in *. simpl. now rewrite insert_row_length, IH.
Qed.

(** Sorting keeps the rows and puts them in date order. *)
Lemma insert_row_perm {A} (r : date * A) (l : list (date * A)) :
  Permutation (r :: l) (insert_row r l).
Proof.
  induction l as [| x l IH]; simpl; [apply Permutation_refl |].
  destruct (Z.leb (fst r) (fst x)); [apply Permutation_refl |].
  eapply perm_trans; [apply perm_swap |]. now apply perm_skip.
Qed.

Lemma sort_rows_perm {A} (l : list (date * A)) : Permutation l (sort_rows l).
Proof.
  induction l as [| x l IH]; [apply Permutation_refl |].
  change (sort_rows (x :: l)) with (insert_row x (sort_rows l)).
  eapply perm_trans; [| apply insert_row_perm]. now apply perm_skip.
Qed.

Lemma insert_row_head {A} (r x : date * A) (l : list (date * A)) :
  by_label x r -> HdRel by_label x l -> HdRel by_label x (insert_row r l).
Proof.
  intros Hxr Hhd. destruct l as [| y l]; simpl.
  - now constructor.
  - destruct (Z.leb (fst r) (fst y)); constructor; [exact Hxr |].
    now inversion Hhd.
Qed.

Lemma insert_row_sorted {A} (r : date * A) (l : list (date * A)) :
  Sorted by_label l -> Sorted by_label (insert_row r l).
Proof.
  induction 1 as [| x l Hsorted IH Hhd]; simpl.
  - repeat constructor.
  - destruct (Z.leb (fst r) (fst x)) eqn:E.
    + apply Z.leb_le in E. repeat constructor; assumption.
    + apply Z.leb_gt in E. constructor; [exact IH |].
      apply insert_row_head; [| exact Hhd]. unfold by_label. lia.
Qed.

Lemma sort_rows_sorted {A} (l : list (date * A)) : Sorted by_label (sort_rows l).
Proof.
  induction l as [| x l IH]; [constructor |].
  change (sort_rows (x :: l)) with (insert_row x (sort_rows l)).
  now apply insert_row_sorted.
Qed.

Lemma last_n_all {A} (k : nat) (l : list A) :
  (List.length l <= k)%nat -> last_n k l = l.
Proof.
  intros H. unfold last_n.
  replace (List.length l - k)%nat with 0%nat by lia. reflexivity.
Qed.

Lemma last_n_length {A} (k : nat) (l : list A) :
  List.length (last_n k l) = Nat.min k (List.length l).
Proof. unfold last_n. rewrite length_skipn. lia. Qed.

Lemma add_zero_r (x : flt) : (x + #0)%flt =~ x.
Proof. destruct x; simpl; auto. ring. Qed.

Lemma add_same_l (x x' y : flt) : x =~ x' -> (x + y)%flt =~ (x' + y)%flt.
Proof.
  destruct x, x', y; simpl; try tauto.
  intros H. now rewrite H.
Qed.

(** Adding the entries up with NaN counted as zero is adding up the
    entries that are not NaN. *)
Lemma sum_skips_nan (values : list flt) (acc acc' : flt) :
  acc =~ acc' ->
  fold_left (fun a x => a + nan_to #0 x)%flt values acc
  =~ fold_left add (filter (fun x => negb (is_nan x)) values) acc'.
Proof.
  revert acc acc'. induction values as [| x values IH]; intros acc acc' H; simpl.
  - exact H.
  - destruct x; simpl; apply IH; try (now apply add_same_l).
    eapply same_trans; [apply add_zero_r | exact H].
Qed.

(** C10: whenever the provider returns at least one quarter, and also
    when there are fewer than four, [get_ltm_data] returns an LTM revenue:
    the sum over the last four quarters at most, in date order, in which a
    NaN revenue counts as zero. Nothing is reported on the screen. *)
Theorem get_ltm_data_sums_available_quarters
  (info : list (string * flt)) (stmt : DataFrame) (revenue : list flt) (w : world) :
  lookup_column "Total Revenue" (df_columns stmt) = Some revenue ->
  df_index stmt <> [] ->
  let by_date := map snd (sort_rows (combine (df_index stmt) revenue)) in
  let quarters := last_n 4 by_date in
  exists r,
    get_ltm_data (Returns (mkTicker info stmt)) w = (Returns (Some r), w) /\
    ltm_revenue r = fold_left (fun a x => a + nan_to #0 x)%flt quarters #0 /\
    ltm_revenue r =~ total (filter (fun x => negb (is_nan x)) quarters) /\
    ((List.length revenue < 4)%nat -> quarters = by_date).
Proof.
  intros Hcol Hidx by_date quarters.
  unfold get_ltm_data, try_except, lift, T.
  cbn [bind Dcf.info quarterly_income_stmt].
  unfold getitem, tail_rows, sort_index. cbn [df_columns df_index].
  rewrite map_map. cbn [fst snd].
  rewrite (lookup_column_map
             (fun c => last_n 4 (map snd (sort_rows (combine (df_index stmt) c))))).
  rewrite Hcol. cbn [option_map bind].
  destruct (rev (last_n 4 (map fst (sort_rows (combine (df_index stmt) (df_index stmt))))))
    as [| d rest] eqn:E.
  - exfalso. apply (f_equal (@List.length date)) in E.
    rewrite length_rev, last_n_length, length_map, sort_rows_length, length_combine in E.
    simpl in E. destruct (df_index stmt); [congruence | simpl in E; lia].
  - eexists. split; [reflexivity |]. cbn [ltm_revenue].
    unfold sum. cbn [s_values]. split; [reflexivity |]. split.
    + apply sum_skips_nan. apply same_refl.
    + intros Hlen. apply last_n_all. unfold by_date.
      rewrite length_map, sort_rows_length, length_combine. lia.
Qed.

(** Two quarters only, one of them without a revenue figure. *)
Lemma get_ltm_data_two_quarters :
  exists r,
    get_ltm_data
      (Returns (mkTicker [("sharesOutstanding", #100)]
                  (mkFrame [20%Z; 10%Z] [("Total Revenue", [#3; NaN])])))
      blank_world
    = (Returns (Some r), blank_world) /\
    ltm_revenue r = fold_left (fun a x => a + nan_to #0 x)%flt [NaN; #3] #0 /\
    ltm_revenue r =~ total [#3] /\
    ((2 < 4)%nat -> [NaN; #3] = [NaN; #3]).
Proof.
  apply (get_ltm_data_sums_available_quarters [("sharesOutstanding", #100)]
           (mkFrame [20%Z; 10%Z] [("Total Revenue", [#3; NaN])]) [#3; NaN] blank_world).
  - reflexivity.
  - discriminate.
Defined.

(** With no quarter at all there is no most recent date: the exception
    is caught, reported, and the all-[None] tuple returned. *)
Lemma get_ltm_data_no_quarter (info : list (string * flt)) (w : world) :
  fst (get_ltm_data (Returns (mkTicker info (mkFrame [] [("Total Revenue", [])]))) w)
  = Returns None.
Proof. reflexivity. Qed.

End LastTwelveMonths.

(** ** Reinvestment *)

Section Reinvestment.

Lemma nth_error_replace_nth_same {A} (n : nat) (x y : A) (l : list A) :
  nth_error l n = Some y -> nth_error (replace_nth n x l) n = Some x.
Proof.
  revert n. induction l as [| z l IH]; intros [| n]; simpl; intros H;
    try discriminate; [reflexivity | now apply IH].
Qed.

Lemma nth_error_replace_nth_other {A} (n m : nat) (x : A) (l : list A) :
  n <> m -> nth_error (replace_nth n x l) m = nth_error l m.
Proof.
  revert n m. induction l as [| z l IH]; intros [| n] [| m] H; simpl;
    try reflexivity; try congruence.
  apply IH. congruence.
Qed.

Lemma lookup_assign_same (name : string) (v old : list flt)
  (cols : list (string * list flt)) :
  lookup_column name cols = Some old ->
  lookup_column name (assign_column name v cols) = Some v.
Proof.
  induction cols as [| [n c] cols IH]; simpl; [discriminate |].
  destruct (String.eqb n name) eqn:E; simpl; rewrite E; [reflexivity | exact IH].
Qed.

Lemma lookup_assign_other (name other : string) (v : list flt)
  (cols : list (string * list flt)) :
  String.eqb name other = false ->
  lookup_column other (assign_column name v cols) = lookup_column other cols.
Proof.
  intros H. induction cols as [| [n c] cols IH]; simpl.
  - now rewrite H.
  - destruct (String.eqb n name) eqn:E; simpl.
    + apply String.eqb_eq in E. subst n. now rewrite H.
    + now rewrite IH.
Qed.

Variables (cash_flows_df nwc_df income_df : ref) (tax_rate_col : string).
Variables (cash_flows balance income : DataFrame) (w : world).
Variables (capex da nwc change tax ebit : list flt).

Hypothesis cash_flows_at : nth_error (heap w) cash_flows_df = Some cash_flows.
Hypothesis balance_at : nth_error (heap w) nwc_df = Some balance.
Hypothesis income_at : nth_error (heap w) income_df = Some income.
Hypothesis separate_nwc : cash_flows_df <> nwc_df.
Hypothesis separate_income : cash_flows_df <> income_df.
Hypothesis has_capex :
  lookup_column "Capital Expenditure" (df_columns cash_flows) = Some capex.
Hypothesis has_da :
  lookup_column "Depreciation And Amortization" (df_columns cash_flows) = Some da.
Hypothesis has_nwc : lookup_column "NWC" (df_columns balance) = Some nwc.
Hypothesis has_change : lookup_column "Change in NWC" (df_columns balance) = Some change.
Hypothesis has_tax : lookup_column tax_rate_col (df_columns income) = Some tax.
Hypothesis has_ebit : lookup_column "EBIT" (df_columns income) = Some ebit.

(** What the call returns and what it leaves in the heap. *)
Lemma calculate_reinvestment_run :
  calculate_reinvestment cash_flows_df nwc_df income_df tax_rate_col w
  = (Returns (reinvested (df_index cash_flows)
                (mkSeries (df_index cash_flows) capex)
                (mkSeries (df_index cash_flows) da)
                (mkSeries (df_index balance) nwc)
                (mkSeries (df_index balance) change)
                (mkSeries (df_index income) tax)
                (mkSeries (df_index income) ebit)),
     mkWorld (replace_nth cash_flows_df (negated cash_flows capex) (heap w)) (screen w)).
Proof.
  unfold calculate_reinvestment, bind_py, load, store, lift, ret.
  rewrite cash_flows_at. unfold getitem at 1. rewrite has_capex.
  cbn [heap screen].
  rewrite (nth_error_replace_nth_same _ _ _ _ cash_flows_at).
  cbn [heap screen].
  rewrite (nth_error_replace_nth_other _ _ _ _ separate_nwc), balance_at.
  cbn [heap screen].
  rewrite (nth_error_replace_nth_other _ _ _ _ separate_income), income_at.
  unfold select, setitem at 1 2, smap at 1 2.
  cbn [df_columns df_index s_index s_values].
  rewrite reindex_same.
  rewrite (lookup_assign_same _ _ _ _ has_capex).
  rewrite lookup_assign_other by reflexivity. rewrite has_da.
  rewrite has_nwc, has_change. cbn [bind].
  unfold merge_left. cbn [df_index df_columns map app fst snd].
  frame_steps. rewrite has_tax, has_ebit.
  unfold reinvested, negated. frame_steps.
  reflexivity.
Qed.

(** The caller's frame is overwritten: after the call its capital
    expenditure column holds the negated values. *)
Lemma calculate_reinvestment_overwrites_input :
  nth_error (heap (snd (calculate_reinvestment cash_flows_df nwc_df income_df tax_rate_col w)))
            cash_flows_df
  = Some (negated cash_flows capex).
Proof.
  rewrite calculate_reinvestment_run. cbn [snd heap].
  now apply nth_error_replace_nth_same with (y := cash_flows).
Qed.

Lemma nth_error_map2 (f : flt -> flt -> flt) (a b : list flt) (i : nat) (x y : flt) :
  nth_error a i = Some x -> nth_error b i = Some y ->
  nth_error (map2 f a b) i = Some (f x y).
Proof.
  revert b i. induction a as [| x' a IH]; intros [| y' b] [| i]; simpl;
    try discriminate.
  - now intros [= ->] [= ->].
  - apply IH.
Qed.

(** C7, as the code has it: the reinvestment rate is the plain quotient
    [Reinvestment / NOPAT], period by period.  Where NOPAT is negative the
    rate is the finite number [reinvestment / nopat]; where NOPAT is zero
    it is an infinity or NaN.  No separate marker is set. *)
Theorem reinvestment_rate_is_plain_quotient :
  exists merged w' reinvestment nopat rate,
    calculate_reinvestment cash_flows_df nwc_df income_df tax_rate_col w
      = (Returns merged, w') /\
    getitem merged "Reinvestment" = Returns (mkSeries (df_index merged) reinvestment) /\
    getitem merged "NOPAT" = Returns (mkSeries (df_index merged) nopat) /\
    getitem merged "Reinvestment Rate" = Returns (mkSeries (df_index merged) rate) /\
    rate = map2 div reinvestment nopat /\
    (forall i r n,
        nth_error reinvestment i = Some #r -> nth_error nopat i = Some #n ->
        n < 0 -> nth_error rate i = Some #(r / n)) /\
    (forall i r n,
        nth_error reinvestment i = Some #r -> nth_error nopat i = Some #n ->
        n == 0 -> exists v, nth_error rate i = Some v /\ is_finite v = false).
Proof.
  rewrite calculate_reinvestment_run.
  do 5 eexists. split; [reflexivity |].
  unfold reinvested. frame_steps.
  split; [reflexivity |]. split; [reflexivity |]. split; [reflexivity |].
  split; [reflexivity |]. split.
  - intros i r n Hr Hn Hneg.
    rewrite (nth_error_map2 div _ _ i _ _ Hr Hn).
    rewrite div_finite; [reflexivity |].
    intros A. rewrite A in Hneg. discriminate.
  - intros i r n Hr Hn Hz.
    rewrite (nth_error_map2 div _ _ i _ _ Hr Hn).
    eexists. split; [reflexivity |]. now apply div_by_zero.
Qed.

End Reinvestment.

Section ReinvestmentRuns.

Lemma reinvestment_rate_is_plain_quotient_example :
  exists merged w' reinvestment nopat rate,
    calculate_reinvestment 0%nat 1%nat 2%nat "Tax Rate For Calcs" history_world
      = (Returns merged, w') /\
    getitem merged "Reinvestment" = Returns (mkSeries (df_index merged) reinvestment) /\
    getitem merged "NOPAT" = Returns (mkSeries (df_index merged) nopat) /\
    getitem merged "Reinvestment Rate" = Returns (mkSeries (df_index merged) rate) /\
    rate = map2 div reinvestment nopat /\
    (forall i r n,
        nth_error reinvestment i = Some #r -> nth_error nopat i = Some #n ->
        n < 0 -> nth_error rate i = Some #(r / n)) /\
    (forall i r n,
        nth_error reinvestment i = Some #r -> nth_error nopat i = Some #n ->
        n == 0 -> exists v, nth_error rate i = Some v /\ is_finite v = false).
Proof.
  apply (reinvestment_rate_is_plain_quotient 0%nat 1%nat 2%nat "Tax Rate For Calcs"
           (mkFrame [1%Z; 2%Z]
              [("Capital Expenditure", [#(-100); #(-120)]);
               ("Depreciation And Amortization", [#20; #30])])
           (mkFrame [1%Z; 2%Z] [("NWC", [#50; #55]); ("Change in NWC", [NaN; #5])])
           (mkFrame [1%Z; 2%Z]
              [("EBIT", [#200; #(-40)]); ("Tax Rate For Calcs", [#0.25; #0.25])])
           history_world
           [#(-100); #(-120)] [#20; #30] [#50; #55] [NaN; #5] [#0.25; #0.25]
           [#200; #(-40)]);
    try reflexivity; discriminate.
Defined.

(** C7, as stated, fails: in the second period NOPAT is [-30] and the
    reinvestment rate is the finite number [95 / -30 = -19/6]. *)
Lemma reinvestment_rate_with_negative_nopat :
  exists merged nopat rate n q,
    fst (calculate_reinvestment 0%nat 1%nat 2%nat "Tax Rate For Calcs" history_world)
      = Returns merged /\
    getitem merged "NOPAT" = Returns nopat /\
    getitem merged "Reinvestment Rate" = Returns rate /\
    nth_error (s_values nopat) 1%nat = Some #n /\ n == -30 /\
    nth_error (s_values rate) 1%nat = Some #q /\ q == - (19 / 6).
Proof.
  do 5 eexists. split; [vm_compute; reflexivity |].
  split; [reflexivity |]. split; [reflexivity |].
  split; [reflexivity |]. split; [reflexivity |].
  split; reflexivity.
Qed.

(** C5 fails on [calculate_reinvestment]: the call flips the sign of the
    capital expenditure column of the frame it is given, so a second call
    on the same data starts from other values and returns another
    reinvestment: 95 the first time, -145 the second. *)
Theorem calculate_reinvestment_not_repeatable :
  let first := calculate_reinvestment 0%nat 1%nat 2%nat "Tax Rate For Calcs" history_world in
  let second := calculate_reinvestment 0%nat 1%nat 2%nat "Tax Rate For Calcs" (snd first) in
  option_map (fun df => lookup_column "Capital Expenditure" (df_columns df))
             (nth_error (heap history_world) 0%nat)
    = Some (Some [#(-100); #(-120)]) /\
  option_map (fun df => lookup_column "Capital Expenditure" (df_columns df))
             (nth_error (heap (snd first)) 0%nat)
    = Some (Some [#100; #120]) /\
  (exists merged, fst first = Returns merged /\
     lookup_column "Reinvestment" (df_columns merged) = Some [NaN; #95]) /\
  (exists merged, fst second = Returns merged /\
     lookup_column "Reinvestment" (df_columns merged) = Some [NaN; #(-145)]).
Proof.
  cbv zeta. split; [reflexivity |]. split; [vm_compute; reflexivity |].
  split; eexists; (split; [vm_compute; reflexivity | reflexivity]).
Qed.

(** The sibling functions of the page copy the statement first: they
    leave the heap and the screen as they found them. *)
Lemma calculate_nwc_leaves_input (balance_sheet : ref) (w : world) :
  snd (calculate_nwc balance_sheet w) = w.
Proof.
  unfold calculate_nwc, bind_py, load, lift.
  destruct (nth_error (heap w) balance_sheet); reflexivity.
Qed.

Lemma calculate_growth_and_margins_leaves_input (income_statement : ref) (w : world) :
  snd (calculate_growth_and_margins income_statement w) = w.
Proof.
  unfold calculate_growth_and_margins, bind_py, load, lift.
  destruct (nth_error (heap w) income_statement); reflexivity.
Qed.

(** [discount_cash_flows] writes as well: the discounted column is added
    to the projection of the caller, which is the object it returns. *)
Lemma discount_cash_flows_writes_into_projection
  (projection : ref) (wacc : flt) (df : DataFrame) (fcf : list flt) (w : world) :
  nth_error (heap w) projection = Some df ->
  lookup_column "FCF" (df_columns df) = Some fcf ->
  discount_cash_flows projection wacc w
  = (Returns projection,
     mkWorld (replace_nth projection
                (setitem df "Discounted FCF"
                   (discount (mkSeries (df_index df) fcf) (#1 + wacc)%flt
                      (arange_from_1 (len df))))
                (heap w))
             (screen w)).
Proof.
  intros Hdf Hfcf.
  unfold discount_cash_flows, bind_py, load, store, lift, ret, with_discounted_fcf.
  rewrite Hdf. unfold getitem. rewrite Hfcf. reflexivity.
Qed.

End ReinvestmentRuns.

(** ** Beta *)

Section Beta.

(** [calculate_beta] hands the two excess-return series to the regression
    as they are: whether it returns depends on the regression alone. *)
Lemma calculate_beta_defers_to_fit
  (fit : Series -> Series -> outcome (list flt)) (stock_data index_data : Series)
  (rf : flt) (e : exn) :
  fit (smap (fun r => r - rf)%flt (dropna (pct_change stock_data)))
      (smap (fun r => r - rf)%flt (dropna (pct_change index_data))) = Raises e ->
  calculate_beta fit stock_data index_data rf = Raises e.
Proof. intros H. unfold calculate_beta. now rewrite H. Qed.

(** Series of different sizes are refused by the regression. *)
Lemma least_squares_sizes (endog exog : Series) :
  List.length (s_values endog) <> List.length (s_values exog) ->
  least_squares endog exog = Raises (ValueError "endog and exog matrices are different sizes").
Proof.
  intros H. unfold least_squares. apply Nat.eqb_neq in H. now rewrite H.
Qed.

(** C8, as the code has it: [calculate_beta] has no check on the sample
    size.  From three prices per series, that is two aligned observations
    [(x1, y1)] and [(x2, y2)] of excess returns with [x1 <> x2], it fits
    the regression and returns the slope of the line through the two
    points as beta. *)
Theorem calculate_beta_two_observations (s0 s1 s2 i0 i1 i2 rf : Q) (d0 d1 d2 : date) :
  ~ s0 == 0 -> ~ s1 == 0 -> ~ i0 == 0 -> ~ i1 == 0 ->
  let y1 := s1 / s0 - 1 - rf in
  let y2 := s2 / s1 - 1 - rf in
  let x1 := i1 / i0 - 1 - rf in
  let x2 := i2 / i1 - 1 - rf in
  ~ x1 == x2 ->
  exists beta params stock_returns index_returns,
    calculate_beta least_squares
      (mkSeries [d0; d1; d2] [#s0; #s1; #s2])
      (mkSeries [d0; d1; d2] [#i0; #i1; #i2]) #rf
    = Returns (#beta, params, stock_returns, index_returns) /\
    List.length (s_values stock_returns) = 2%nat /\
    List.length (s_values index_returns) = 2%nat /\
    beta == (y2 - y1) / (x2 - x1).
Proof.
  intros Hs0 Hs1 Hi0 Hi1 y1 y2 x1 x2 Hx.
  unfold calculate_beta, pct_change.
  cbn [s_values s_index pct_change_from].
  rewrite !div_finite by assumption.
  unfold dropna, smap.
  cbn [s_values s_index dropna_rows is_nan sub add neg map fst snd].
  unfold least_squares.
  cbn [s_values s_index List.length Nat.eqb negb].
  rewrite index_eqb_refl.
  cbn [negb total map2 fold_left mul add sub neg Z.of_nat Pos.of_succ_nat Pos.succ].
  change (s1 / s0 + - (1) + - rf) with y1.
  change (s2 / s1 + - (1) + - rf) with y2.
  change (i1 / i0 + - (1) + - rf) with x1.
  change (i2 / i1 + - (1) + - rf) with x2.
  clearbody x1 x2 y1 y2.
  assert (Hdiff : ~ x1 - x2 == 0) by (intros A; apply Hx; lra).
  match goal with
  | |- context [(#?num / #?den)%flt] =>
      assert (Hden : ~ den == 0);
      [| rewrite (div_finite num den Hden) ]
  end.
  - intros A.
    assert (Hsq : (x1 - x2) * (x1 - x2) == 0) by (rewrite <- A; simpl; ring).
    apply Qmult_integral in Hsq. tauto.
  - cbn [bind iloc nth_error].
    do 4 eexists. split; [reflexivity |].
    split; [reflexivity |]. split; [reflexivity |].
    simpl inject_Z.
    assert (Hgap : ~ x2 - x1 == 0) by (intros A; apply Hx; lra).
    setoid_replace (2 * (0 + x1 * x1 + x2 * x2) + - ((0 + x1 + x2) * (0 + x1 + x2)))
      with ((x2 - x1) * (x2 - x1)) by ring.
    setoid_replace (2 * (0 + x1 * y1 + x2 * y2) + - ((0 + x1 + x2) * (0 + y1 + y2)))
      with ((y2 - y1) * (x2 - x1)) by ring.
    field. exact Hgap.
Qed.

(** Prices [100, 110, 132] against [100, 105, 115.5]: returns of 10% and
    20% against 5% and 10%, and a beta of 2. *)
Lemma calculate_beta_two_observations_example :
  exists beta params stock_returns index_returns,
    calculate_beta least_squares
      (mkSeries [1%Z; 2%Z; 3%Z] [#100; #110; #132])
      (mkSeries [1%Z; 2%Z; 3%Z] [#100; #105; #115.5]) #0
    = Returns (#beta, params, stock_returns, index_returns) /\
    List.length (s_values stock_returns) = 2%nat /\
    List.length (s_values index_returns) = 2%nat /\
    beta == 2.
Proof.
  destruct (calculate_beta_two_observations 100 110 132 100 105 115.5 0 1%Z 2%Z 3%Z)
    as [beta [params [sr [ir [E [L1 [L2 Hb]]]]]]];
    try (intros H; discriminate H).
  exists beta, params, sr, ir. repeat split; try assumption.
  rewrite Hb. reflexivity.
Defined.

(** C8, as stated, fails: with two observations only, [calculate_beta]
    raises nothing and reports a beta. *)
Lemma calculate_beta_fits_two_observations :
  exists beta params stock_returns index_returns,
    calculate_beta least_squares
      (mkSeries [1%Z; 2%Z; 3%Z] [#100; #110; #132])
      (mkSeries [1%Z; 2%Z; 3%Z] [#100; #105; #115.5]) #0
    = Returns (#beta, params, stock_returns, index_returns) /\
    List.length (s_values stock_returns) = 2%nat /\
    (List.length (s_values stock_returns) < 3)%nat /\
    beta == 2.
Proof.
  do 4 eexists. split; [vm_compute; reflexivity |].
  split; [reflexivity |]. split; [simpl; lia | reflexivity].
Qed.

End Beta.

(** ** Sensitivity to the discount rate *)

Section Sensitivity.

Lemma lookup_assign (name : string) (v : list flt) (cols : list (string * list flt)) :
  lookup_column name (assign_column name v cols) = Some v.
Proof.
  induction cols as [| [n c] cols IH]; simpl.
  - now rewrite String.eqb_refl.
  - destruct (String.eqb n name) eqn:E; simpl; rewrite E; [reflexivity | exact IH].
Qed.

Lemma pow_succ (b : Q) (k : nat) : (#b ** S k)%flt = #(b ^ Z.of_nat (S k)).
Proof. reflexivity. Qed.

(** Discounting a finite stream at a positive base gives the finite
    quotients. *)
Lemma discount_values (fcfs : list Q) (b : Q) (t : nat) :
  0 < b ->
  map2 div (map Fin fcfs) (map (pow #b) (seq (S t) (List.length fcfs)))
  = map Fin (Formula.discounted fcfs b (S t)).
Proof.
  intros Hb. revert t. induction fcfs as [| f fcfs IH]; intros t; [reflexivity |].
  cbn [List.length seq map map2 Formula.discounted].
  rewrite pow_succ, div_finite, IH; [reflexivity |].
  apply Qpower_not_0. intros A. rewrite A in Hb. discriminate.
Qed.













(** A negative share count turns the order around: in the same scenario
    the three prices rise with the rate. *)
Lemma sensitivity_prices_with_negative_share_count :
  exists price_lower price price_upper : Q,
    sensitivity_analysis (mkFrame [1%Z; 2%Z] [("FCF", [#252; #277.2])]) #277.2
      #0.03 #200 #50 #(-100) #0.08 #0.10 #0.12
    = Returns [#price_lower; #price; #price_upper] /\
    price_lower < price /\ price < price_upper.
Proof.
  eexists _, _, _. split; [vm_compute; reflexivity |]. split; reflexivity.
Qed.

End Sensitivity.

(** * Further properties of the WACC page *)

Section CreditSpreadLookup.

(** X1: the loop of [get_credit_spread] returns at the first entry that
    matches: later entries for the same rating are never looked at, and
    nothing is written on the screen. *)
Theorem first_matching_entry_wins (rating : string)
  (before after : list spread_entry) (entry : spread_entry) (w : world) :
  existsb (rating_matches rating) before = false ->
  rating_matches rating entry = true ->
  get_credit_spread rating (before ++ entry :: after) w
  = (Returns (Spread entry / #100)%flt, w).
Proof. apply get_credit_spread_found. Qed.

Lemma first_matching_entry_wins_example :
  get_credit_spread "b2/b"
    ([mkEntry #0 #1 "A" #1] ++ mkEntry #1 #2 " B2/B" #3 :: [mkEntry #2 #3 "B2/B " #4])
    blank_world
  = (Returns (#3 / #100)%flt, blank_world).
Proof.
  apply (first_matching_entry_wins "b2/b" [mkEntry #0 #1 "A" #1]
           [mkEntry #2 #3 "B2/B " #4] (mkEntry #1 #2 " B2/B" #3) blank_world);
    reflexivity.
Defined.

Lemma rating_matches_normalised (r1 r2 : string) (entry : spread_entry) :
  PyStr.lower (PyStr.strip r1) = PyStr.lower (PyStr.strip r2) ->
  rating_matches r1 entry = rating_matches r2 entry.
Proof. intros H. unfold rating_matches. now rewrite H. Qed.

(** X2: the lookup sees a rating only through its trimmed, lower-case
    form: two spellings that agree after [strip().lower()] get the same
    spread from any table (or both get NaN). *)
Theorem spread_depends_on_normalised_rating (r1 r2 : string)
  (table : list spread_entry) (w : world) :
  PyStr.lower (PyStr.strip r1) = PyStr.lower (PyStr.strip r2) ->
  fst (get_credit_spread r1 table w) = fst (get_credit_spread r2 table w).
Proof.
  intros H. induction table as [| entry rest IH]; simpl.
  - reflexivity.
  - rewrite (rating_matches_normalised r1 r2 entry H).
    destruct (rating_matches r2 entry); [reflexivity | exact IH].
Qed.

Lemma spread_depends_on_normalised_rating_example :
  fst (get_credit_spread "  BAA2/bbb" credit_spreads blank_world)
  = fst (get_credit_spread "Baa2/BBB  " credit_spreads blank_world).
Proof.
  apply (spread_depends_on_normalised_rating "  BAA2/bbb" "Baa2/BBB  "
           credit_spreads blank_world).
  reflexivity.
Defined.

(** X3: on the table of the page, the lookup returns a finite spread
    exactly for the ratings that match an entry, and every spread it
    returns lies between 0.45% and 19%; otherwise it returns NaN.  It never
    raises and never returns an infinity. *)
Theorem credit_spread_range (rating : string) (w : world) :
  match fst (get_credit_spread rating credit_spreads w) with
  | Returns (Fin q) =>
      existsb (rating_matches rating) credit_spreads = true /\
      0.0045 <= q /\ q <= 0.19
  | Returns NaN => existsb (rating_matches rating) credit_spreads = false
  | _ => False
  end.
Proof.
  unfold credit_spreads. cbn [get_credit_spread existsb].
  repeat match goal with
         | |- context [rating_matches rating ?e] =>
             destruct (rating_matches rating e);
             [ cbn [orb fst Py.ret Spread]; vm_compute; repeat split; discriminate | ]
         end.
  reflexivity.
Qed.

End CreditSpreadLookup.

Section WaccValues.

(** X4: an unknown credit rating leaves no WACC at all.  The NaN cost of
    debt makes the three values NaN whatever the weights, even for a firm
    with no debt ([w_D = 0]), and these are the values the page saves for
    the DCF model. *)
Theorem unmatched_rating_poisons_wacc (rating : string) (w : world)
  (w_E w_D rf emrp marg_tax_rate beta beta_lower_ci beta_upper_ci : flt) :
  existsb (rating_matches rating) credit_spreads = false ->
  exists kd w',
    cost_of_debt rf rating w = (Returns kd, w') /\
    let r := wacc_section w_E w_D rf emrp marg_tax_rate
               beta beta_lower_ci beta_upper_ci kd in
    wacc_lower r = NaN /\ wacc r = NaN /\ wacc_upper r = NaN.
Proof.
  intros H.
  unfold cost_of_debt, bind_py.
  rewrite (get_credit_spread_not_found _ _ _ H). unfold Py.ret.
  do 2 eexists. split; [reflexivity |].
  rewrite add_nan_r. cbv zeta. unfold wacc_section.
  cbn [wacc_lower wacc wacc_upper].
  rewrite mul_nan_r. cbn [mul]. rewrite !add_nan_r. repeat split.
Qed.

Lemma unmatched_rating_poisons_wacc_example :
  exists kd w',
    cost_of_debt #0.045 "ZZZ" blank_world = (Returns kd, w') /\
    let r := wacc_section #1 #0 #0.045 #0.05 #0.25 #1.1 #0.9 #1.3 kd in
    wacc_lower r = NaN /\ wacc r = NaN /\ wacc_upper r = NaN.
Proof.
  apply (unmatched_rating_poisons_wacc "ZZZ" blank_world
           #1 #0 #0.045 #0.05 #0.25 #1.1 #0.9 #1.3).
  reflexivity.
Defined.

(** X5: the WACC band comes from beta alone.  On finite inputs the
    distance from the estimate to either bound is the equity weight times
    the risk premium times the distance of beta to that end of its
    interval; the cost of debt, the debt weight and the tax rate cancel,
    and an interval symmetric around beta gives a band symmetric around
    the WACC. *)
Theorem wacc_band_width
  (w_E w_D rf emrp marg_tax_rate beta_lower beta beta_upper cost_of_debt : Q) :
  exists lower point upper,
    wacc_section #w_E #w_D #rf #emrp #marg_tax_rate
      #beta #beta_lower #beta_upper #cost_of_debt
    = mkWaccResults #lower #point #upper /\
    upper - point == w_E * emrp * (beta_upper - beta) /\
    point - lower == w_E * emrp * (beta - beta_lower) /\
    (beta_upper - beta == beta - beta_lower -> upper - point == point - lower).
Proof.
  do 3 eexists. split; [reflexivity |].
  split; [ring |]. split; [ring |].
  intros H.
  setoid_replace (w_E * (rf + beta_upper * emrp) +
                  w_D * cost_of_debt * (1 + - marg_tax_rate) -
                  (w_E * (rf + beta * emrp) +
                   w_D * cost_of_debt * (1 + - marg_tax_rate)))
    with (w_E * emrp * (beta_upper - beta)) by ring.
  rewrite H. ring.
Qed.

End WaccValues.

(** * Further properties of the historical analysis *)

Section ListFacts.

Lemma replace_nth_twice {A} (n : nat) (x y : A) (l : list A) :
  replace_nth n x (replace_nth n y l) = replace_nth n x l.
Proof.
  revert n. induction l as [| z l IH]; intros [| n]; simpl; try reflexivity.
  now rewrite IH.
Qed.

Lemma replace_nth_same_value {A} (n : nat) (x : A) (l : list A) :
  nth_error l n = Some x -> replace_nth n x l = l.
Proof.
  revert n. induction l as [| z l IH]; intros [| n]; simpl; intros H;
    try reflexivity.
  - now injection H as ->.
  - now rewrite IH.
Qed.

Lemma assign_column_twice (name : string) (u v : list flt)
  (cols : list (string * list flt)) :
  assign_column name v (assign_column name u cols) = assign_column name v cols.
Proof.
  induction cols as [| [n c] cols IH]; simpl.
  - now rewrite String.eqb_refl.
  - destruct (String.eqb n name) eqn:E; simpl; rewrite E; [reflexivity |].
    now rewrite IH.
Qed.

Lemma assign_column_same_value (name : string) (v : list flt)
  (cols : list (string * list flt)) :
  lookup_column name cols = Some v -> assign_column name v cols = cols.
Proof.
  induction cols as [| [n c] cols IH]; simpl; [discriminate |].
  destruct (String.eqb n name) eqn:E.
  - now intros [= ->].
  - intros H. now rewrite IH.
Qed.

Lemma neg_involutive (x : flt) : neg (neg x) = x.
Proof.
  destruct x as [[n d] | | |]; try reflexivity.
  simpl. unfold Qopp. simpl. now rewrite Z.opp_involutive.
Qed.

Lemma map_neg_involutive (l : list flt) : map neg (map neg l) = l.
Proof.
  induction l as [| x l IH]; simpl; [reflexivity |].
  now rewrite neg_involutive, IH.
Qed.

Lemma index_eqb_eq (i j : list date) : index_eqb i j = true -> i = j.
Proof.
  revert j. induction i as [| a i IH]; intros [| b j]; simpl; intros H;
    try reflexivity; try discriminate.
  apply andb_true_iff in H. destruct H as [H1 H2].
  apply Z.eqb_eq in H1. subst b. f_equal. now apply IH.
Qed.

Lemma at_label_absent (idx : list date) (vals : list flt) (d : date) :
  ~ In d idx -> at_label idx vals d = NaN.
Proof.
  revert vals. induction idx as [| i idx IH]; intros vals H; [reflexivity |].
  destruct vals as [| v vals]; [reflexivity |]. simpl.
  destruct (Z.eqb i d) eqn:E.
  - apply Z.eqb_eq in E. subst i. exfalso. apply H. now left.
  - apply IH. intros A. apply H. now right.
Qed.

(** A label the series does not carry is NaN after the alignment. *)
Lemma reindex_absent (s : Series) (idx : list date) (i : nat) (d : date) :
  nth_error idx i = Some d -> ~ In d (s_index s) ->
  nth_error (reindex s idx) i = Some NaN.
Proof.
  intros Hi Habs. unfold reindex.
  destruct (index_eqb (s_index s) idx) eqn:E.
  - apply index_eqb_eq in E. exfalso. apply Habs. rewrite E.
    eapply nth_error_In. eassumption.
  - rewrite nth_error_map, Hi. simpl. now rewrite at_label_absent.
Qed.

End ListFacts.

Section ReinvestmentErrors.

Variables (cash_flows_df nwc_df income_df : ref) (tax_rate_col : string).
Variables (cash_flows : DataFrame) (w : world).

Hypothesis cash_flows_at : nth_error (heap w) cash_flows_df = Some cash_flows.

(** X6: without a capital expenditure column the call raises [KeyError]
    at its first statement and the heap is as it was. *)
Theorem calculate_reinvestment_without_capex :
  lookup_column "Capital Expenditure" (df_columns cash_flows) = None ->
  calculate_reinvestment cash_flows_df nwc_df income_df tax_rate_col w
  = (Raises (KeyError "Capital Expenditure"), w).
Proof.
  intros H. unfold calculate_reinvestment, bind_py, load, lift.
  rewrite cash_flows_at. unfold getitem. now rewrite H.
Qed.

(** X7: a call that fails after its first statement has already written.
    With a capital expenditure column but no depreciation column the call
    raises [KeyError], and the caller's frame is left with the sign of its
    capital expenditure flipped. *)
Theorem failed_call_still_negates (capex : list flt) :
  lookup_column "Capital Expenditure" (df_columns cash_flows) = Some capex ->
  lookup_column "Depreciation And Amortization" (df_columns cash_flows) = None ->
  calculate_reinvestment cash_flows_df nwc_df income_df tax_rate_col w
  = (Raises (KeyError "Depreciation And Amortization"),
     mkWorld (replace_nth cash_flows_df (negated cash_flows capex) (heap w)) (screen w)) /\
  lookup_column "Capital Expenditure" (df_columns (negated cash_flows capex))
  = Some (map neg capex).
Proof.
  intros Hcapex Hda. split.
  - unfold calculate_reinvestment, bind_py, load, store, lift.
    rewrite cash_flows_at. unfold getitem at 1. rewrite Hcapex.
    cbn [heap screen].
    rewrite (nth_error_replace_nth_same _ _ _ _ cash_flows_at).
    unfold select, setitem, smap. cbn [df_columns df_index s_index s_values].
    rewrite reindex_same.
    rewrite (lookup_assign_same _ _ _ _ Hcapex).
    rewrite lookup_assign_other by reflexivity. rewrite Hda.
    unfold negated, setitem. cbn [s_index s_values]. rewrite reindex_same.
    reflexivity.
  - unfold negated, setitem. cbn [df_columns s_index s_values].
    rewrite reindex_same. apply lookup_assign.
Qed.

End ReinvestmentErrors.

Lemma calculate_reinvestment_without_capex_example :
  calculate_reinvestment 0%nat 1%nat 2%nat "Tax Rate For Calcs"
    (mkWorld [mkFrame [1%Z] [("Depreciation And Amortization", [#20])]] [])
  = (Raises (KeyError "Capital Expenditure"),
     mkWorld [mkFrame [1%Z] [("Depreciation And Amortization", [#20])]] []).
Proof.
  apply (calculate_reinvestment_without_capex 0%nat 1%nat 2%nat "Tax Rate For Calcs"
           (mkFrame [1%Z] [("Depreciation And Amortization", [#20])]));
    reflexivity.
Defined.

Lemma failed_call_still_negates_example :
  calculate_reinvestment 0%nat 1%nat 2%nat "Tax Rate For Calcs"
    (mkWorld [mkFrame [1%Z] [("Capital Expenditure", [#(-100)])]] [])
  = (Raises (KeyError "Depreciation And Amortization"),
     mkWorld (replace_nth 0
                (negated (mkFrame [1%Z] [("Capital Expenditure", [#(-100)])]) [#(-100)])
                [mkFrame [1%Z] [("Capital Expenditure", [#(-100)])]]) []) /\
  lookup_column "Capital Expenditure"
    (df_columns (negated (mkFrame [1%Z] [("Capital Expenditure", [#(-100)])]) [#(-100)]))
  = Some (map neg [#(-100)]).
Proof.
  apply (failed_call_still_negates 0%nat 1%nat 2%nat "Tax Rate For Calcs"
           (mkFrame [1%Z] [("Capital Expenditure", [#(-100)])])
           (mkWorld [mkFrame [1%Z] [("Capital Expenditure", [#(-100)])]] [])
           eq_refl [#(-100)]);
    reflexivity.
Defined.

Section ReinvestmentTwice.

Variables (cash_flows_df nwc_df income_df : ref) (tax_rate_col : string).
Variables (cash_flows balance income : DataFrame) (w : world).
Variables (capex da nwc change tax ebit : list flt).

Hypothesis cash_flows_at : nth_error (heap w) cash_flows_df = Some cash_flows.
Hypothesis balance_at : nth_error (heap w) nwc_df = Some balance.
Hypothesis income_at : nth_error (heap w) income_df = Some income.
Hypothesis separate_nwc : cash_flows_df <> nwc_df.
Hypothesis separate_income : cash_flows_df <> income_df.
Hypothesis has_capex :
  lookup_column "Capital Expenditure" (df_columns cash_flows) = Some capex.
Hypothesis has_da :
  lookup_column "Depreciation And Amortization" (df_columns cash_flows) = Some da.
Hypothesis has_nwc : lookup_column "NWC" (df_columns balance) = Some nwc.
Hypothesis has_change : lookup_column "Change in NWC" (df_columns balance) = Some change.
Hypothesis has_tax : lookup_column tax_rate_col (df_columns income) = Some tax.
Hypothesis has_ebit : lookup_column "EBIT" (df_columns income) = Some ebit.

Lemma negated_twice :
  negated (negated cash_flows capex) (map neg capex) = cash_flows.
Proof.
  unfold negated, setitem. cbn [df_index df_columns s_index s_values].
  rewrite !reindex_same, assign_column_twice, map_neg_involutive.
  rewrite (assign_column_same_value _ _ _ has_capex).
  now destruct cash_flows.
Qed.

(** X8: the sign flip is its own inverse.  A second call on the same
    frames succeeds as the first did and hands the caller's frame back as
    it was before the first call: heap and screen are those of the start. *)
Theorem second_call_restores_input :
  let first := calculate_reinvestment cash_flows_df nwc_df income_df tax_rate_col w in
  let second :=
    calculate_reinvestment cash_flows_df nwc_df income_df tax_rate_col (snd first) in
  raised (fst first) = false /\ raised (fst second) = false /\
  nth_error (heap (snd first)) cash_flows_df = Some (negated cash_flows capex) /\
  snd second = w.
Proof.
  cbv zeta.
  rewrite (calculate_reinvestment_run cash_flows_df nwc_df income_df tax_rate_col
             cash_flows balance income w capex da nwc change tax ebit)
    by assumption.
  cbn [fst snd raised].
  set (w1 := mkWorld (replace_nth cash_flows_df (negated cash_flows capex) (heap w))
                     (screen w)).
  assert (H1 : nth_error (heap w1) cash_flows_df = Some (negated cash_flows capex)).
  { unfold w1. cbn [heap]. now apply nth_error_replace_nth_same with (y := cash_flows). }
  rewrite (calculate_reinvestment_run cash_flows_df nwc_df income_df tax_rate_col
             (negated cash_flows capex) balance income w1
             (map neg capex) da nwc change tax ebit); try assumption.
  - cbn [fst snd raised]. repeat split; try assumption.
    rewrite negated_twice. unfold w1. cbn [heap screen].
    rewrite replace_nth_twice, (replace_nth_same_value _ _ _ cash_flows_at).
    now destruct w.
  - unfold w1. cbn [heap]. now rewrite nth_error_replace_nth_other.
  - unfold w1. cbn [heap]. now rewrite nth_error_replace_nth_other.
  - unfold negated, setitem. cbn [df_columns s_index s_values].
    rewrite reindex_same. apply lookup_assign.
  - unfold negated, setitem. cbn [df_columns s_index s_values].
    rewrite lookup_assign_other by reflexivity. exact has_da.
Qed.

End ReinvestmentTwice.

Lemma second_call_restores_input_example :
  let first := calculate_reinvestment 0%nat 1%nat 2%nat "Tax Rate For Calcs" history_world in
  let second :=
    calculate_reinvestment 0%nat 1%nat 2%nat "Tax Rate For Calcs" (snd first) in
  raised (fst first) = false /\ raised (fst second) = false /\
  nth_error (heap (snd first)) 0%nat
  = Some (negated (mkFrame [1%Z; 2%Z]
                     [("Capital Expenditure", [#(-100); #(-120)]);
                      ("Depreciation And Amortization", [#20; #30])])
                  [#(-100); #(-120)]) /\
  snd second = history_world.
Proof.
  apply (second_call_restores_input 0%nat 1%nat 2%nat "Tax Rate For Calcs"
           (mkFrame [1%Z; 2%Z]
              [("Capital Expenditure", [#(-100); #(-120)]);
               ("Depreciation And Amortization", [#20; #30])])
           (mkFrame [1%Z; 2%Z] [("NWC", [#50; #55]); ("Change in NWC", [NaN; #5])])
           (mkFrame [1%Z; 2%Z]
              [("EBIT", [#200; #(-40)]); ("Tax Rate For Calcs", [#0.25; #0.25])])
           history_world
           [#(-100); #(-120)] [#20; #30] [#50; #55] [NaN; #5] [#0.25; #0.25]
           [#200; #(-40)]);
    try reflexivity; discriminate.
Defined.

Section ReinvestmentValues.

Lemma nth_error_map2_inv (f : flt -> flt -> flt) (a b : list flt) (i : nat) (v : flt) :
  nth_error (map2 f a b) i = Some v ->
  exists x y, nth_error a i = Some x /\ nth_error b i = Some y /\ v = f x y.
Proof.
  revert b i. induction a as [| x a IH]; intros [| y b] [| i]; simpl;
    try discriminate.
  - intros [= <-]. now exists x, y.
  - apply IH.
Qed.

Variables (cash_flows_df nwc_df income_df : ref) (tax_rate_col : string).
Variables (cash_flows balance income : DataFrame) (w : world).
Variables (capex da nwc change tax ebit : list flt).

Hypothesis cash_flows_at : nth_error (heap w) cash_flows_df = Some cash_flows.
Hypothesis balance_at : nth_error (heap w) nwc_df = Some balance.
Hypothesis income_at : nth_error (heap w) income_df = Some income.
Hypothesis separate_nwc : cash_flows_df <> nwc_df.
Hypothesis separate_income : cash_flows_df <> income_df.
Hypothesis has_capex :
  lookup_column "Capital Expenditure" (df_columns cash_flows) = Some capex.
Hypothesis has_da :
  lookup_column "Depreciation And Amortization" (df_columns cash_flows) = Some da.
Hypothesis has_nwc : lookup_column "NWC" (df_columns balance) = Some nwc.
Hypothesis has_change : lookup_column "Change in NWC" (df_columns balance) = Some change.
Hypothesis has_tax : lookup_column tax_rate_col (df_columns income) = Some tax.
Hypothesis has_ebit : lookup_column "EBIT" (df_columns income) = Some ebit.

(** X9: with the three statements on the same periods, a period with
    finite figures gets [Reinvestment = -capex - d&a + change in NWC],
    where [capex] is the figure as reported (an outflow reported as a
    negative number enters as a positive amount), and
    [NOPAT = EBIT * (1 - tax rate)] with the tax rate of that period. *)
Theorem reinvestment_and_nopat_of_a_period (i : nat) (c d h e t : Q) :
  df_index balance = df_index cash_flows ->
  df_index income = df_index cash_flows ->
  nth_error capex i = Some #c -> nth_error da i = Some #d ->
  nth_error change i = Some #h ->
  nth_error ebit i = Some #e -> nth_error tax i = Some #t ->
  exists merged reinvestment nopat r n,
    fst (calculate_reinvestment cash_flows_df nwc_df income_df tax_rate_col w)
      = Returns merged /\
    df_index merged = df_index cash_flows /\
    lookup_column "Reinvestment" (df_columns merged) = Some reinvestment /\
    lookup_column "NOPAT" (df_columns merged) = Some nopat /\
    nth_error reinvestment i = Some #r /\ r == - c - d + h /\
    nth_error nopat i = Some #n /\ n == e * (1 - t).
Proof.
  intros Hb Hi Hc Hd Hh He Ht.
  rewrite (calculate_reinvestment_run cash_flows_df nwc_df income_df tax_rate_col
             cash_flows balance income w capex da nwc change tax ebit)
    by assumption.
  cbn [fst]. unfold reinvested. rewrite Hb, Hi.
  rewrite !reindex_same, binop_same, reindex_same.
  do 5 eexists. split; [reflexivity |]. split; [reflexivity |].
  split; [reflexivity |]. split; [reflexivity |].
  cbn [s_values].
  assert (Hneg : nth_error (map neg capex) i = Some (neg #c))
    by (now rewrite nth_error_map, Hc).
  assert (Hone : nth_error (map (sub #1) tax) i = Some (#1 - #t)%flt)
    by (now rewrite nth_error_map, Ht).
  rewrite (nth_error_map2 add _ _ i _ _
             (nth_error_map2 sub _ _ i _ _ Hneg Hd) Hh).
  rewrite (nth_error_map2 mul _ _ i _ _ He Hone).
  split; [reflexivity |]. split; [simpl; ring |].
  split; [reflexivity |]. simpl. ring.
Qed.

(** X10: the merge is a left join on the period.  A period of the cash
    flow statement that the balance sheet frame does not have keeps its
    row, with NaN as change in NWC and therefore NaN as reinvestment, and
    NaN as reinvestment rate wherever the rate column has an entry. *)
Theorem period_missing_from_balance_sheet (i : nat) (d : date) (c a : flt) :
  nth_error (df_index cash_flows) i = Some d ->
  ~ In d (df_index balance) ->
  nth_error capex i = Some c -> nth_error da i = Some a ->
  exists merged change_col reinvestment rate,
    fst (calculate_reinvestment cash_flows_df nwc_df income_df tax_rate_col w)
      = Returns merged /\
    nth_error (df_index merged) i = Some d /\
    lookup_column "Change in NWC" (df_columns merged) = Some change_col /\
    lookup_column "Reinvestment" (df_columns merged) = Some reinvestment /\
    lookup_column "Reinvestment Rate" (df_columns merged) = Some rate /\
    nth_error change_col i = Some NaN /\
    nth_error reinvestment i = Some NaN /\
    (forall v, nth_error rate i = Some v -> v = NaN).
Proof.
  intros Hi Habs Hc Ha.
  rewrite (calculate_reinvestment_run cash_flows_df nwc_df income_df tax_rate_col
             cash_flows balance income w capex da nwc change tax ebit)
    by assumption.
  cbn [fst]. unfold reinvested. cbn [s_values].
  do 4 eexists. split; [reflexivity |]. split; [exact Hi |].
  split; [reflexivity |]. split; [reflexivity |]. split; [reflexivity |].
  assert (Hnan : nth_error (reindex (mkSeries (df_index balance) change)
                              (df_index cash_flows)) i = Some NaN)
    by (now apply reindex_absent with (d := d)).
  assert (Hneg : nth_error (map neg capex) i = Some (neg c))
    by (now rewrite nth_error_map, Hc).
  assert (Hre : nth_error
                  (map2 add (map2 sub (map neg capex) da)
                     (reindex (mkSeries (df_index balance) change) (df_index cash_flows))) i
                = Some NaN).
  { rewrite (nth_error_map2 add _ _ i _ _
               (nth_error_map2 sub _ _ i _ _ Hneg Ha) Hnan).
    now rewrite add_nan_r. }
  split; [exact Hnan |]. split; [exact Hre |].
  intros v Hv. apply nth_error_map2_inv in Hv.
  destruct Hv as [x [y [Hx [_ ->]]]].
  rewrite Hre in Hx. injection Hx as <-. reflexivity.
Qed.

End ReinvestmentValues.

Lemma reinvestment_and_nopat_of_a_period_example :
  exists merged reinvestment nopat r n,
    fst (calculate_reinvestment 0%nat 1%nat 2%nat "Tax Rate For Calcs" history_world)
      = Returns merged /\
    df_index merged = [1%Z; 2%Z] /\
    lookup_column "Reinvestment" (df_columns merged) = Some reinvestment /\
    lookup_column "NOPAT" (df_columns merged) = Some nopat /\
    nth_error reinvestment 1 = Some #r /\ r == - (-120) - 30 + 5 /\
    nth_error nopat 1 = Some #n /\ n == (-40) * (1 - 0.25).
Proof.
  apply (reinvestment_and_nopat_of_a_period 0%nat 1%nat 2%nat "Tax Rate For Calcs"
           (mkFrame [1%Z; 2%Z]
              [("Capital Expenditure", [#(-100); #(-120)]);
               ("Depreciation And Amortization", [#20; #30])])
           (mkFrame [1%Z; 2%Z] [("NWC", [#50; #55]); ("Change in NWC", [NaN; #5])])
           (mkFrame [1%Z; 2%Z]
              [("EBIT", [#200; #(-40)]); ("Tax Rate For Calcs", [#0.25; #0.25])])
           history_world
           [#(-100); #(-120)] [#20; #30] [#50; #55] [NaN; #5] [#0.25; #0.25]
           [#200; #(-40)]);
    try reflexivity; discriminate.
Defined.

(** The balance sheet frame has the first period only. *)
Lemma period_missing_from_balance_sheet_example :
  exists merged change_col reinvestment rate,
    fst (calculate_reinvestment 0%nat 1%nat 2%nat "Tax Rate For Calcs"
           (mkWorld
              [ mkFrame [1%Z; 2%Z]
                  [("Capital Expenditure", [#(-100); #(-120)]);
                   ("Depreciation And Amortization", [#20; #30])];
                mkFrame [1%Z] [("NWC", [#50]); ("Change in NWC", [NaN])];
                mkFrame [1%Z; 2%Z]
                  [("EBIT", [#200; #(-40)]); ("Tax Rate For Calcs", [#0.25; #0.25])] ]
              []))
      = Returns merged /\
    nth_error (df_index merged) 1 = Some 2%Z /\
    lookup_column "Change in NWC" (df_columns merged) = Some change_col /\
    lookup_column "Reinvestment" (df_columns merged) = Some reinvestment /\
    lookup_column "Reinvestment Rate" (df_columns merged) = Some rate /\
    nth_error change_col 1 = Some NaN /\
    nth_error reinvestment 1 = Some NaN /\
    (forall v, nth_error rate 1 = Some v -> v = NaN).
Proof.
  eapply (period_missing_from_balance_sheet 0%nat 1%nat 2%nat "Tax Rate For Calcs"
           (mkFrame [1%Z; 2%Z]
              [("Capital Expenditure", [#(-100); #(-120)]);
               ("Depreciation And Amortization", [#20; #30])])
           (mkFrame [1%Z] [("NWC", [#50]); ("Change in NWC", [NaN])])
           (mkFrame [1%Z; 2%Z]
              [("EBIT", [#200; #(-40)]); ("Tax Rate For Calcs", [#0.25; #0.25])])
           (mkWorld
              [ mkFrame [1%Z; 2%Z]
                  [("Capital Expenditure", [#(-100); #(-120)]);
                   ("Depreciation And Amortization", [#20; #30])];
                mkFrame [1%Z] [("NWC", [#50]); ("Change in NWC", [NaN])];
                mkFrame [1%Z; 2%Z]
                  [("EBIT", [#200; #(-40)]); ("Tax Rate For Calcs", [#0.25; #0.25])] ]
              [])
           [#(-100); #(-120)] [#20; #30] [#50] [NaN] [#0.25; #0.25] [#200; #(-40)]);
    try reflexivity; try discriminate.
  simpl. intros [H | []]. discriminate H.
Defined.

Section NetWorkingCapital.

Variables (balance_sheet : ref) (sheet : DataFrame) (w : world).
Variables (assets cash liabilities debt : list flt).

Hypothesis sheet_at : nth_error (heap w) balance_sheet = Some sheet.
Hypothesis has_assets :
  lookup_column "Current Assets" (df_columns sheet) = Some assets.
Hypothesis has_cash :
  lookup_column "Cash Cash Equivalents And Short Term Investments" (df_columns sheet)
  = Some cash.
Hypothesis has_liabilities :
  lookup_column "Current Liabilities" (df_columns sheet) = Some liabilities.

(** X11: a balance sheet without a current debt line (the provider leaves
    out the lines a firm does not report) gives no working capital at
    all: [calculate_nwc] raises [KeyError] and the caller's frame is
    untouched. *)
Theorem calculate_nwc_without_current_debt :
  lookup_column "Current Debt And Capital Lease Obligation" (df_columns sheet) = None ->
  calculate_nwc balance_sheet w
  = (Raises (KeyError "Current Debt And Capital Lease Obligation"), w).
Proof.
  intros Hdebt. unfold calculate_nwc, bind_py, load, lift. rewrite sheet_at.
  unfold columns, getitem, setitem. cbn [df_columns df_index].
  rewrite has_assets, has_cash. cbn [bind df_columns df_index].
  rewrite !lookup_assign_other by reflexivity.
  rewrite has_liabilities, Hdebt. reflexivity.
Qed.

Hypothesis has_debt :
  lookup_column "Current Debt And Capital Lease Obligation" (df_columns sheet) = Some debt.

(** The columns [calculate_nwc] adds to its copy. *)
Lemma calculate_nwc_run :
  exists df,
    calculate_nwc balance_sheet w = (Returns df, w) /\
    df_index df = df_index sheet /\
    lookup_column "NWC" (df_columns df)
    = Some (map2 sub (map2 sub assets cash) (map2 sub liabilities debt)) /\
    lookup_column "Change in NWC" (df_columns df)
    = Some (s_values (diff (mkSeries (df_index sheet)
                              (map2 sub (map2 sub assets cash)
                                        (map2 sub liabilities debt))))).
Proof.
  unfold calculate_nwc, bind_py, load, lift. rewrite sheet_at.
  unfold columns, getitem, setitem. cbn [df_columns df_index].
  rewrite has_assets, has_cash. cbn [bind df_columns df_index].
  rewrite !lookup_assign_other by reflexivity.
  rewrite has_liabilities, has_debt. cbn [bind df_columns df_index].
  rewrite lookup_assign_other by reflexivity. rewrite !lookup_assign.
  cbn [bind df_columns df_index].
  rewrite !lookup_assign. cbn [bind df_columns df_index].
  rewrite !binop_same, !reindex_same.
  eexists. split; [reflexivity |]. split; [reflexivity |].
  cbn [df_columns]. split.
  - rewrite lookup_assign_other by reflexivity. apply lookup_assign.
  - unfold diff. cbn [s_index s_values]. rewrite reindex_same. apply lookup_assign.
Qed.

(** X12: for a period with finite figures, net working capital is
    [(current assets - cash) - (current liabilities - current debt)]. *)
Theorem net_working_capital_of_a_period (i : nat) (a c l d : Q) :
  nth_error assets i = Some #a -> nth_error cash i = Some #c ->
  nth_error liabilities i = Some #l -> nth_error debt i = Some #d ->
  exists df nwc q,
    calculate_nwc balance_sheet w = (Returns df, w) /\
    lookup_column "NWC" (df_columns df) = Some nwc /\
    nth_error nwc i = Some #q /\ q == (a - c) - (l - d).
Proof.
  intros Ha Hc Hl Hd.
  destruct calculate_nwc_run as [df [E [_ [Hnwc _]]]].
  exists df. do 2 eexists. split; [exact E |]. split; [exact Hnwc |].
  rewrite (nth_error_map2 sub _ _ i _ _
             (nth_error_map2 sub _ _ i _ _ Ha Hc)
             (nth_error_map2 sub _ _ i _ _ Hl Hd)).
  split; [reflexivity |]. simpl. ring.
Qed.

End NetWorkingCapital.

Section ChangeInNwc.

Lemma last_cons_default {A} (x d : A) (rest : list A) :
  last (x :: rest) d = last rest x.
Proof.
  revert x d. induction rest as [| y rest IH]; intros x d; [reflexivity |].
  change (last (x :: y :: rest) d) with (last (y :: rest) d).
  rewrite (IH y d). symmetry. apply (IH y x).
Qed.

Lemma diff_sum_finite (prev : Q) (rest : list Q) (acc : Q) :
  exists q,
    fold_left (fun a x => a + nan_to #0 x)%flt (diff_from #prev (map Fin rest)) #acc = #q /\
    q == acc + (last rest prev - prev).
Proof.
  revert prev acc. induction rest as [| x rest IH]; intros prev acc.
  - simpl. eexists. split; [reflexivity |]. ring.
  - cbn [map diff_from fold_left].
    change (#acc + nan_to #0 (#x - #prev))%flt with #(acc + (x + - prev)).
    destruct (IH x (acc + (x + - prev))) as [q [E Hq]].
    exists q. split; [exact E |]. rewrite Hq.
    rewrite last_cons_default. ring.
Qed.

(** X13: the change in NWC is undefined (NaN) for the first period, and
    when every period has a finite NWC the changes add up to the NWC of the
    last period minus that of the first. *)
Theorem change_in_nwc_telescopes (balance_sheet : ref) (sheet : DataFrame) (w : world)
  (assets cash liabilities debt : list flt) (first : Q) (later : list Q) :
  nth_error (heap w) balance_sheet = Some sheet ->
  lookup_column "Current Assets" (df_columns sheet) = Some assets ->
  lookup_column "Cash Cash Equivalents And Short Term Investments" (df_columns sheet)
    = Some cash ->
  lookup_column "Current Liabilities" (df_columns sheet) = Some liabilities ->
  lookup_column "Current Debt And Capital Lease Obligation" (df_columns sheet)
    = Some debt ->
  map2 sub (map2 sub assets cash) (map2 sub liabilities debt) = map Fin (first :: later) ->
  exists df change total_change,
    calculate_nwc balance_sheet w = (Returns df, w) /\
    getitem df "Change in NWC" = Returns change /\
    nth_error (s_values change) 0 = Some NaN /\
    sum change = #total_change /\
    total_change == last later first - first.
Proof.
  intros Hat Ha Hc Hl Hd Hfinite.
  destruct (calculate_nwc_run balance_sheet sheet w assets cash liabilities debt
              Hat Ha Hc Hl Hd) as [df [E [_ [_ Hchange]]]].
  rewrite Hfinite in Hchange. unfold diff in Hchange.
  cbn [s_values s_index map] in Hchange.
  destruct (diff_sum_finite first later (0 + 0)) as [q [Eq Hq]].
  exists df. do 2 eexists. split; [exact E |].
  unfold getitem. rewrite Hchange.
  split; [reflexivity |]. split; [reflexivity |].
  unfold sum. cbn [s_values fold_left nan_to is_nan add].
  split; [exact Eq |]. rewrite Hq. ring.
Qed.

End ChangeInNwc.

Lemma calculate_nwc_without_current_debt_example :
  calculate_nwc 0%nat
    (mkWorld [mkFrame [1%Z]
                [("Current Assets", [#500]);
                 ("Cash Cash Equivalents And Short Term Investments", [#100]);
                 ("Current Liabilities", [#300])]] [])
  = (Raises (KeyError "Current Debt And Capital Lease Obligation"),
     mkWorld [mkFrame [1%Z]
                [("Current Assets", [#500]);
                 ("Cash Cash Equivalents And Short Term Investments", [#100]);
                 ("Current Liabilities", [#300])]] []).
Proof.
  eapply (calculate_nwc_without_current_debt 0%nat); reflexivity.
Defined.

Lemma net_working_capital_of_a_period_example :
  exists df nwc q,
    calculate_nwc 0%nat
      (mkWorld [mkFrame [1%Z; 2%Z]
                  [("Current Assets", [#500; #600]);
                   ("Cash Cash Equivalents And Short Term Investments", [#100; #150]);
                   ("Current Liabilities", [#300; #320]);
                   ("Current Debt And Capital Lease Obligation", [#50; #60])]] [])
    = (Returns df,
       mkWorld [mkFrame [1%Z; 2%Z]
                  [("Current Assets", [#500; #600]);
                   ("Cash Cash Equivalents And Short Term Investments", [#100; #150]);
                   ("Current Liabilities", [#300; #320]);
                   ("Current Debt And Capital Lease Obligation", [#50; #60])]] []) /\
    lookup_column "NWC" (df_columns df) = Some nwc /\
    nth_error nwc 1 = Some #q /\ q == (600 - 150) - (320 - 60).
Proof.
  eapply (net_working_capital_of_a_period 0%nat); reflexivity.
Defined.

Lemma change_in_nwc_telescopes_example :
  exists df change total_change,
    calculate_nwc 0%nat
      (mkWorld [mkFrame [1%Z; 2%Z]
                  [("Current Assets", [#500; #600]);
                   ("Cash Cash Equivalents And Short Term Investments", [#100; #150]);
                   ("Current Liabilities", [#300; #320]);
                   ("Current Debt And Capital Lease Obligation", [#50; #60])]] [])
    = (Returns df,
       mkWorld [mkFrame [1%Z; 2%Z]
                  [("Current Assets", [#500; #600]);
                   ("Cash Cash Equivalents And Short Term Investments", [#100; #150]);
                   ("Current Liabilities", [#300; #320]);
                   ("Current Debt And Capital Lease Obligation", [#50; #60])]] []) /\
    getitem df "Change in NWC" = Returns change /\
    nth_error (s_values change) 0 = Some NaN /\
    sum change = #total_change /\
    total_change == last [190] 150 - 150.
Proof.
  eapply (change_in_nwc_telescopes 0%nat _ _ _ _ _ _ 150 [190]); reflexivity.
Defined.

Section GrowthAndMargins.

Lemma pct_change_from_nth (prev : flt) (xs : list flt) (i : nat) (p x : flt) :
  nth_error (prev :: xs) i = Some p -> nth_error xs i = Some x ->
  nth_error (pct_change_from prev xs) i = Some (x / p - #1)%flt.
Proof.
  revert prev i. induction xs as [| y ys IH]; intros prev i Hp Hx.
  - destruct i; discriminate.
  - destruct i as [| j]; simpl in *.
    + now injection Hp as ->; injection Hx as ->.
    + now apply IH.
Qed.

Variables (income_statement : ref) (stmt : DataFrame) (w : world).
Variables (gross ebit ebitda revenue : list flt).

Hypothesis stmt_at : nth_error (heap w) income_statement = Some stmt.
Hypothesis has_gross : lookup_column "Gross Profit" (df_columns stmt) = Some gross.
Hypothesis has_ebit : lookup_column "EBIT" (df_columns stmt) = Some ebit.
Hypothesis has_ebitda : lookup_column "EBITDA" (df_columns stmt) = Some ebitda.
Hypothesis has_revenue : lookup_column "Total Revenue" (df_columns stmt) = Some revenue.

(** The columns [calculate_growth_and_margins] adds to its copy. *)
Lemma calculate_growth_and_margins_run :
  exists df,
    calculate_growth_and_margins income_statement w = (Returns df, w) /\
    df_index df = df_index stmt /\
    lookup_column "Gross Margin" (df_columns df) = Some (map2 div gross revenue) /\
    lookup_column "EBIT Margin" (df_columns df) = Some (map2 div ebit revenue) /\
    lookup_column "EBITDA Margin" (df_columns df) = Some (map2 div ebitda revenue) /\
    lookup_column "Revenue Growth" (df_columns df)
    = Some (s_values (pct_change (mkSeries (df_index stmt) revenue))) /\
    lookup_column "EBIT Growth" (df_columns df)
    = Some (s_values (pct_change (mkSeries (df_index stmt) ebit))).
Proof.
  unfold calculate_growth_and_margins, bind_py, load, lift. rewrite stmt_at.
  unfold columns, getitem, setitem. cbn [df_columns df_index].
  rewrite has_gross, has_revenue. cbn [bind df_columns df_index].
  rewrite !lookup_assign_other by reflexivity.
  rewrite has_ebit, has_revenue. cbn [bind df_columns df_index].
  rewrite !lookup_assign_other by reflexivity.
  rewrite has_ebitda, has_revenue. cbn [bind df_columns df_index].
  rewrite !lookup_assign_other by reflexivity.
  rewrite has_revenue. cbn [bind df_columns df_index].
  rewrite !lookup_assign_other by reflexivity.
  rewrite has_ebit. cbn [bind df_columns df_index].
  rewrite !binop_same, !reindex_same.
  unfold pct_change. cbn [s_index s_values]. rewrite !reindex_same.
  eexists. split; [reflexivity |]. split; [reflexivity |].
  cbn [df_columns].
  repeat (split; [ rewrite ?lookup_assign_other by reflexivity; apply lookup_assign | ]).
  apply lookup_assign.
Qed.

(** X14: in a period with finite figures and a revenue other than zero
    the three margins are the finite quotients of gross profit, EBIT and
    EBITDA by the revenue of that period. *)
Theorem margins_of_a_period (i : nat) (g e a r : Q) :
  nth_error gross i = Some #g -> nth_error ebit i = Some #e ->
  nth_error ebitda i = Some #a -> nth_error revenue i = Some #r ->
  ~ r == 0 ->
  exists df gm em am,
    calculate_growth_and_margins income_statement w = (Returns df, w) /\
    lookup_column "Gross Margin" (df_columns df) = Some gm /\
    lookup_column "EBIT Margin" (df_columns df) = Some em /\
    lookup_column "EBITDA Margin" (df_columns df) = Some am /\
    nth_error gm i = Some #(g / r) /\
    nth_error em i = Some #(e / r) /\
    nth_error am i = Some #(a / r).
Proof.
  intros Hg He Ha Hr Hnz.
  destruct calculate_growth_and_margins_run as [df [E [_ [Hgm [Hem [Ham _]]]]]].
  exists df. do 3 eexists. split; [exact E |].
  split; [exact Hgm |]. split; [exact Hem |]. split; [exact Ham |].
  rewrite (nth_error_map2 div _ _ i _ _ Hg Hr),
          (nth_error_map2 div _ _ i _ _ He Hr),
          (nth_error_map2 div _ _ i _ _ Ha Hr).
  now rewrite !div_finite.
Qed.

(** X15: a period with zero revenue raises nothing: its margins are
    infinities or NaN, and the call returns as usual. *)
Theorem margins_with_zero_revenue (i : nat) (g e a r : Q) :
  nth_error gross i = Some #g -> nth_error ebit i = Some #e ->
  nth_error ebitda i = Some #a -> nth_error revenue i = Some #r ->
  r == 0 ->
  exists df gm em am x y z,
    calculate_growth_and_margins income_statement w = (Returns df, w) /\
    lookup_column "Gross Margin" (df_columns df) = Some gm /\
    lookup_column "EBIT Margin" (df_columns df) = Some em /\
    lookup_column "EBITDA Margin" (df_columns df) = Some am /\
    nth_error gm i = Some x /\ is_finite x = false /\
    nth_error em i = Some y /\ is_finite y = false /\
    nth_error am i = Some z /\ is_finite z = false.
Proof.
  intros Hg He Ha Hr Hz.
  destruct calculate_growth_and_margins_run as [df [E [_ [Hgm [Hem [Ham _]]]]]].
  exists df. do 6 eexists. split; [exact E |].
  split; [exact Hgm |]. split; [exact Hem |]. split; [exact Ham |].
  rewrite (nth_error_map2 div _ _ i _ _ Hg Hr),
          (nth_error_map2 div _ _ i _ _ He Hr),
          (nth_error_map2 div _ _ i _ _ Ha Hr).
  repeat split; now apply div_by_zero.
Qed.

(** X16: growth is undefined (NaN) in the first period; in a later period
    whose revenue is [r] after a revenue [p] other than zero, revenue
    growth is [r / p - 1], and likewise for EBIT. *)
Theorem growth_of_a_period (i : nat) (p r : Q) (first_revenue first_ebit q e : flt) :
  nth_error revenue 0 = Some first_revenue -> nth_error ebit 0 = Some first_ebit ->
  nth_error revenue i = Some #p -> nth_error revenue (S i) = Some #r ->
  nth_error ebit i = Some q -> nth_error ebit (S i) = Some e ->
  ~ p == 0 ->
  exists df rg eg,
    calculate_growth_and_margins income_statement w = (Returns df, w) /\
    lookup_column "Revenue Growth" (df_columns df) = Some rg /\
    lookup_column "EBIT Growth" (df_columns df) = Some eg /\
    nth_error rg 0 = Some NaN /\ nth_error eg 0 = Some NaN /\
    nth_error rg (S i) = Some #(r / p + - (1)) /\
    nth_error eg (S i) = Some (e / q - #1)%flt.
Proof.
  intros Hr0 He0 Hp Hr Hq He Hnz.
  destruct calculate_growth_and_margins_run as [df [E [_ [_ [_ [_ [Hrg Heg]]]]]]].
  exists df. do 2 eexists. split; [exact E |].
  split; [exact Hrg |]. split; [exact Heg |].
  unfold pct_change. cbn [s_values].
  destruct revenue as [| r0 revenue']; [discriminate |].
  destruct ebit as [| e0 ebit']; [discriminate |].
  split; [reflexivity |]. split; [reflexivity |].
  cbn [nth_error]. split.
  - rewrite (pct_change_from_nth r0 revenue' i #p #r Hp Hr).
    now rewrite div_finite.
  - now rewrite (pct_change_from_nth e0 ebit' i q e Hq He).
Qed.

End GrowthAndMargins.

Lemma margins_of_a_period_example :
  exists df gm em am,
    calculate_growth_and_margins 0%nat
      (mkWorld [mkFrame [1%Z; 2%Z]
                  [("Total Revenue", [#1000; #1200]); ("Gross Profit", [#400; #480]);
                   ("EBIT", [#200; #260]); ("EBITDA", [#250; #300])]] [])
    = (Returns df,
       mkWorld [mkFrame [1%Z; 2%Z]
                  [("Total Revenue", [#1000; #1200]); ("Gross Profit", [#400; #480]);
                   ("EBIT", [#200; #260]); ("EBITDA", [#250; #300])]] []) /\
    lookup_column "Gross Margin" (df_columns df) = Some gm /\
    lookup_column "EBIT Margin" (df_columns df) = Some em /\
    lookup_column "EBITDA Margin" (df_columns df) = Some am /\
    nth_error gm 1 = Some #(480 / 1200) /\
    nth_error em 1 = Some #(260 / 1200) /\
    nth_error am 1 = Some #(300 / 1200).
Proof.
  eapply (margins_of_a_period 0%nat); try reflexivity.
  intros H; discriminate H.
Defined.

Lemma margins_with_zero_revenue_example :
  exists df gm em am x y z,
    calculate_growth_and_margins 0%nat
      (mkWorld [mkFrame [1%Z]
                  [("Total Revenue", [#0]); ("Gross Profit", [#0]);
                   ("EBIT", [#(-30)]); ("EBITDA", [#(-20)])]] [])
    = (Returns df,
       mkWorld [mkFrame [1%Z]
                  [("Total Revenue", [#0]); ("Gross Profit", [#0]);
                   ("EBIT", [#(-30)]); ("EBITDA", [#(-20)])]] []) /\
    lookup_column "Gross Margin" (df_columns df) = Some gm /\
    lookup_column "EBIT Margin" (df_columns df) = Some em /\
    lookup_column "EBITDA Margin" (df_columns df) = Some am /\
    nth_error gm 0 = Some x /\ is_finite x = false /\
    nth_error em 0 = Some y /\ is_finite y = false /\
    nth_error am 0 = Some z /\ is_finite z = false.
Proof.
  eapply (margins_with_zero_revenue 0%nat); reflexivity.
Defined.

Lemma growth_of_a_period_example :
  exists df rg eg,
    calculate_growth_and_margins 0%nat
      (mkWorld [mkFrame [1%Z; 2%Z]
                  [("Total Revenue", [#1000; #1200]); ("Gross Profit", [#400; #480]);
                   ("EBIT", [#200; #260]); ("EBITDA", [#250; #300])]] [])
    = (Returns df,
       mkWorld [mkFrame [1%Z; 2%Z]
                  [("Total Revenue", [#1000; #1200]); ("Gross Profit", [#400; #480]);
                   ("EBIT", [#200; #260]); ("EBITDA", [#250; #300])]] []) /\
    lookup_column "Revenue Growth" (df_columns df) = Some rg /\
    lookup_column "EBIT Growth" (df_columns df) = Some eg /\
    nth_error rg 0 = Some NaN /\ nth_error eg 0 = Some NaN /\
    nth_error rg 1 = Some #(1200 / 1000 + - (1)) /\
    nth_error eg 1 = Some (#260 / #200 - #1)%flt.
Proof.
  eapply (growth_of_a_period 0%nat); try reflexivity.
  intros H; discriminate H.
Defined.

(** * Further properties of the DCF model *)

Section SortIndex.

Lemma insert_row_keys {A B} (d : date) (a : A) (b : B)
  (l1 : list (date * A)) (l2 : list (date * B)) :
  map fst l1 = map fst l2 ->
  map fst (insert_row (d, a) l1) = map fst (insert_row (d, b) l2).
Proof.
  revert l2. induction l1 as [| [k x] l1 IH]; intros [| [k' y] l2] H;
    try discriminate; [reflexivity |].
  simpl in H. injection H as -> H. simpl.
  destruct (Z.leb d k'); simpl; [now rewrite H |].
  f_equal. now apply IH.
Qed.

(** Every column is moved by the one permutation that sorts the index. *)
Lemma sort_rows_keys {A B} (idx : list date) (a : list A) (b : list B) :
  List.length a = List.length idx -> List.length b = List.length idx ->
  map fst (sort_rows (combine idx a)) = map fst (sort_rows (combine idx b)).
Proof.
  revert a b. induction idx as [| d idx IH]; intros [| x a] [| y b] Ha Hb;
    try discriminate; [reflexivity |].
  simpl in Ha, Hb. injection Ha as Ha. injection Hb as Hb.
  change (sort_rows (combine (d :: idx) (x :: a)))
    with (insert_row (d, x) (sort_rows (combine idx a))).
  change (sort_rows (combine (d :: idx) (y :: b)))
    with (insert_row (d, y) (sort_rows (combine idx b))).
  apply insert_row_keys. now apply IH.
Qed.

Lemma combine_fst_snd {A B} (l : list (A * B)) : combine (map fst l) (map snd l) = l.
Proof.
  induction l as [| [a b] l IH]; simpl; [reflexivity | now rewrite IH].
Qed.

(** [sort_index] keeps the rows whole.  For a column as long as the
    index, the sorted index paired with the sorted column is the list of
    (period, value) pairs of the frame in ascending period order: a
    permutation of the rows it was given, whatever their order. *)
Lemma sort_index_keeps_rows (df : DataFrame) (name : string) (col : list flt) :
  lookup_column name (df_columns df) = Some col ->
  List.length col = List.length (df_index df) ->
  exists col',
    lookup_column name (df_columns (sort_index df)) = Some col' /\
    combine (df_index (sort_index df)) col' = sort_rows (combine (df_index df) col) /\
    Permutation (combine (df_index df) col) (combine (df_index (sort_index df)) col') /\
    Sorted by_label (combine (df_index (sort_index df)) col').
Proof.
  intros Hcol Hlen. unfold sort_index. cbn [df_columns df_index].
  rewrite (lookup_column_map (fun c => map snd (sort_rows (combine (df_index df) c)))).
  rewrite Hcol. cbn [option_map].
  eexists. split; [reflexivity |].
  rewrite (sort_rows_keys (df_index df) (df_index df) col eq_refl Hlen).
  rewrite combine_fst_snd.
  split; [reflexivity |]. split; [apply sort_rows_perm | apply sort_rows_sorted].
Qed.

End SortIndex.

Section MostRecentDate.

Lemma sorted_keys {A} (l : list (date * A)) :
  Sorted by_label l -> Sorted Z.le (map fst l).
Proof.
  induction 1 as [| x l Hs IH Hhd]; simpl; constructor; [exact IH |].
  destruct Hhd as [| y l' Hxy]; simpl; constructor. exact Hxy.
Qed.

Lemma sorted_last_is_max (l : list Z) (x : Z) :
  Sorted Z.le (l ++ [x]) -> forall y, In y l -> (y <= x)%Z.
Proof.
  intros Hs. apply Sorted_StronglySorted in Hs; [| intros a b c; apply Z.le_trans].
  induction l as [| a l IH]; intros y Hy; [destruct Hy |].
  simpl in Hs. inversion Hs as [| ? ? Hrest Hall]; subst.
  destruct Hy as [<- | Hy].
  - rewrite Forall_forall in Hall. apply Hall. apply in_or_app. right. now left.
  - now apply IH.
Qed.

(** X18: the most recent date [get_ltm_data] returns is the latest period
    of the quarterly statement, in whatever order the provider lists the
    quarters. *)
Theorem most_recent_date_is_latest (facts : list (string * flt)) (stmt : DataFrame)
  (revenue : list flt) (w : world) :
  lookup_column "Total Revenue" (df_columns stmt) = Some revenue ->
  df_index stmt <> [] ->
  exists r,
    get_ltm_data (Returns (mkTicker facts stmt)) w = (Returns (Some r), w) /\
    In (most_recent_date r) (df_index stmt) /\
    forall d, In d (df_index stmt) -> (d <= most_recent_date r)%Z.
Proof.
  intros Hcol Hidx.
  unfold get_ltm_data, try_except, lift, T.
  cbn [bind Dcf.info quarterly_income_stmt].
  unfold getitem, tail_rows, sort_index. cbn [df_columns df_index].
  rewrite map_map. cbn [fst snd].
  rewrite (lookup_column_map
             (fun c => last_n 4 (map snd (sort_rows (combine (df_index stmt) c))))).
  rewrite Hcol. cbn [option_map bind].
  set (keys := map fst (sort_rows (combine (df_index stmt) (df_index stmt)))).
  assert (Hsorted : Sorted Z.le keys) by (apply sorted_keys, sort_rows_sorted).
  assert (Hmem : forall d, In d (df_index stmt) <-> In d keys).
  { intros d. unfold keys. split.
    - intros Hd. apply in_map_iff. exists (d, d). split; [reflexivity |].
      apply (Permutation_in _ (sort_rows_perm _)).
      clear - Hd. induction (df_index stmt) as [| a l IH]; [destruct Hd |].
      destruct Hd as [-> | Hd]; [now left | right; now apply IH].
    - intros Hd. apply in_map_iff in Hd. destruct Hd as [[a b] [E Hin]].
      simpl in E. subst a.
      apply (Permutation_in _ (Permutation_sym (sort_rows_perm _))) in Hin.
      now apply in_combine_l in Hin. }
  destruct (rev (last_n 4 keys)) as [| d rest] eqn:E.
  - exfalso. apply (f_equal (@List.length date)) in E.
    unfold keys in E.
    rewrite length_rev, last_n_length, length_map, sort_rows_length, length_combine in E.
    simpl in E. destruct (df_index stmt); [congruence | simpl in E; lia].
  - eexists. split; [reflexivity |]. cbn [most_recent_date].
    assert (Hsplit : keys = (firstn (List.length keys - 4) keys ++ rev rest ++ [d])%list).
    { rewrite <- (firstn_skipn (List.length keys - 4) keys) at 1.
      f_equal. change (skipn (List.length keys - 4) keys) with (last_n 4 keys).
      rewrite <- (rev_involutive (last_n 4 keys)), E. reflexivity. }
    rewrite app_assoc in Hsplit.
    split.
    + apply Hmem. rewrite Hsplit. apply in_or_app. right. now left.
    + intros d' Hd'. apply Hmem in Hd'. rewrite Hsplit in Hd', Hsorted.
      apply in_app_or in Hd'. destruct Hd' as [Hd' | [<- | []]].
      * now apply (sorted_last_is_max _ _ Hsorted).
      * apply Z.le_refl.
Qed.

End MostRecentDate.

Lemma most_recent_date_is_latest_example :
  exists r,
    get_ltm_data
      (Returns (mkTicker [] (mkFrame [20%Z; 30%Z; 10%Z] [("Total Revenue", [#2; #3; #1])])))
      blank_world
    = (Returns (Some r), blank_world) /\
    In (most_recent_date r) [20%Z; 30%Z; 10%Z] /\
    forall d, In d [20%Z; 30%Z; 10%Z] -> (d <= most_recent_date r)%Z.
Proof.
  apply (most_recent_date_is_latest [] (mkFrame [20%Z; 30%Z; 10%Z]
                                          [("Total Revenue", [#2; #3; #1])])
           [#2; #3; #1] blank_world).
  - reflexivity.
  - discriminate.
Defined.

Section LtmFailures.

(** X19: [get_ltm_data] never lets an exception out.  Either it returns
    the LTM data and leaves the screen alone, or some step failed (the
    provider, the revenue line, the empty index) and it returns the
    all-[None] tuple with exactly one [st.error] carrying the text of that
    exception; an exception of the provider is reported as such. *)
Theorem get_ltm_data_reports_failures (fetched : outcome ticker_data) (w : world) :
  ((exists r, get_ltm_data fetched w = (Returns (Some r), w)) \/
   (exists e, get_ltm_data fetched w = (Returns None, reported e w))) /\
  (forall e, fetched = Raises e ->
             get_ltm_data fetched w = (Returns None, reported e w)).
Proof.
  split.
  - unfold get_ltm_data, try_except, lift.
    destruct fetched as [ticker | e]; cbn [bind].
    + destruct (getitem _ "Total Revenue") as [revenue | e]; cbn [bind].
      * destruct (rev _) as [| d rest]; cbn [bind].
        -- right. eexists. reflexivity.
        -- left. eexists. reflexivity.
      * right. eexists. reflexivity.
    + right. eexists. reflexivity.
  - intros e ->. reflexivity.
Qed.

Lemma info_get_absent (facts : list (string * flt)) (key : string) (default : flt) :
  (forall v, ~ In (key, v) facts) -> info_get facts key default = default.
Proof.
  induction facts as [| [k v] facts IH]; intros H; [reflexivity |]. simpl.
  destruct (String.eqb k key) eqn:E.
  - apply String.eqb_eq in E. subst k. exfalso. apply (H v). now left.
  - apply IH. intros v' Hv'. apply (H v'). now right.
Qed.

(** X20: when the provider's [info] has no ['sharesOutstanding'] the share
    count defaults to zero, and the implied share price computed from it is
    an infinity or NaN: [calculate_share_price] divides by it and raises
    nothing. *)
Theorem missing_share_count_gives_no_price (facts : list (string * flt))
  (stmt : DataFrame) (revenue : list flt) (w : world)
  (pv_fcf_sum pv_terminal total_debt total_cash : Q) :
  lookup_column "Total Revenue" (df_columns stmt) = Some revenue ->
  df_index stmt <> [] ->
  (forall v, ~ In ("sharesOutstanding", v) facts) ->
  exists r firm_value equity_value share_price,
    get_ltm_data (Returns (mkTicker facts stmt)) w = (Returns (Some r), w) /\
    shares_outstanding r = #0 /\
    calculate_share_price #pv_fcf_sum #pv_terminal #total_debt #total_cash
      (shares_outstanding r)
    = Returns (firm_value, equity_value, share_price) /\
    is_finite share_price = false.
Proof.
  intros Hcol Hidx Habs.
  unfold get_ltm_data, try_except, lift, T.
  cbn [bind Dcf.info quarterly_income_stmt].
  unfold getitem, tail_rows, sort_index. cbn [df_columns df_index].
  rewrite map_map. cbn [fst snd].
  rewrite (lookup_column_map
             (fun c => last_n 4 (map snd (sort_rows (combine (df_index stmt) c))))).
  rewrite Hcol. cbn [option_map bind].
  destruct (rev (last_n 4 (map fst (sort_rows (combine (df_index stmt) (df_index stmt))))))
    as [| d rest] eqn:E.
  - exfalso. apply (f_equal (@List.length date)) in E.
    rewrite length_rev, last_n_length, length_map, sort_rows_length, length_combine in E.
    simpl in E. destruct (df_index stmt); [congruence | simpl in E; lia].
  - cbn [bind]. rewrite (info_get_absent _ _ _ Habs).
    do 4 eexists. split; [reflexivity |]. cbn [shares_outstanding].
    split; [reflexivity |].
    unfold calculate_share_price. split; [reflexivity |].
    cbn [add sub neg]. apply div_by_zero. reflexivity.
Qed.

End LtmFailures.

Lemma missing_share_count_gives_no_price_example :
  exists r firm_value equity_value share_price,
    get_ltm_data
      (Returns (mkTicker [("totalDebt", #200)]
                  (mkFrame [10%Z; 20%Z] [("Total Revenue", [#1; #2])])))
      blank_world
    = (Returns (Some r), blank_world) /\
    shares_outstanding r = #0 /\
    calculate_share_price #458 #3000 #200 #50 (shares_outstanding r)
    = Returns (firm_value, equity_value, share_price) /\
    is_finite share_price = false.
Proof.
  apply (missing_share_count_gives_no_price [("totalDebt", #200)]
           (mkFrame [10%Z; 20%Z] [("Total Revenue", [#1; #2])]) [#1; #2] blank_world
           458 3000 200 50).
  - reflexivity.
  - discriminate.
  - intros v [H | []]. discriminate H.
Defined.

Section ProjectedCashFlow.

Lemma projected_revenue_entry (ltm : Q) (growth : list Q) (dates : list date) (t : nat) :
  (t < List.length growth)%nat ->
  exists r,
    nth_error (map (mul #ltm)
                 (s_values (cumprod (mkSeries dates (map (add #1) (map Fin growth)))))) t
    = Some #r /\
    r == Formula.revenue ltm growth (S t).
Proof.
  intros Ht. unfold cumprod, Formula.revenue. cbn [s_values].
  destruct growth as [| g growth]; [simpl in Ht; lia |].
  simpl map. simpl nan_to.
  destruct t as [| t].
  - simpl. eexists. split; [reflexivity |]. destruct growth; simpl; ring.
  - simpl in Ht.
    change (map (Float.add #1) (map Fin growth))
      with (map (fun x => #1 + x)%flt (map Fin growth)).
    rewrite map_map.
    change (map (fun x : Q => (#1 + #x)%flt) growth) with (map (fun x : Q => #(1 + x)) growth).
    rewrite <- (map_map (Qplus 1) Fin).
    destruct (cumprod_from_finite (1 + g) (map (Qplus 1) growth) t) as [r [E Hr']].
    { rewrite length_map. lia. }
    simpl nth_error. rewrite (nth_error_map (mul #ltm)).
    change (nan_to #1 #(1 + g)) with #(1 + g).
    rewrite E. simpl. eexists. split; [reflexivity |].
    rewrite Hr'. rewrite firstn_map, <- compound_as_product.
    change (firstn (S (S t)) (g :: growth)) with (g :: firstn (S t) growth).
    simpl. ring.
Qed.

Lemma compound_positive (growth : list Q) :
  Forall (fun g => -1 < g) growth -> 0 < Formula.compound growth.
Proof.
  induction 1 as [| g growth Hg _ IH]; simpl; [reflexivity |].
  apply Qmult_lt_0_compat; [lra | exact IH].
Qed.

Lemma Forall_firstn_keeps {A} (P : A -> Prop) (n : nat) (l : list A) :
  Forall P l -> Forall P (firstn n l).
Proof.
  intros H. revert n. induction H as [| x l Hx _ IH]; intros [| n]; simpl;
    constructor; auto.
Qed.

(** X21: the free cash flow of projected year [t] is
    [LTM * (1 + g_1) ... (1 + g_t) * margin_t * (1 - tax) * (1 - reinv_t)].
    It is positive when the LTM revenue and the margin are positive, every
    growth rate is above -100%, and the tax rate and the reinvestment rate
    are below 100%. *)
Theorem projected_fcf_of_a_year (ltm tax : Q) (growth : list Q)
  (ebit_margin reinv_rate : list flt) (dates : list date) (t : nat) (m x : Q) :
  List.length growth = List.length dates ->
  List.length ebit_margin = List.length dates ->
  List.length reinv_rate = List.length dates ->
  (t < List.length growth)%nat ->
  nth_error ebit_margin t = Some #m -> nth_error reinv_rate t = Some #x ->
  exists projection fcf f,
    project_financials #ltm (map Fin growth) ebit_margin reinv_rate #tax dates
      = Returns projection /\
    lookup_column "FCF" (df_columns projection) = Some fcf /\
    nth_error fcf t = Some #f /\
    f == ltm * Formula.compound (firstn (S t) growth) * m * (1 - tax) * (1 - x) /\
    (0 < ltm -> Forall (fun g => -1 < g) growth -> 0 < m -> tax < 1 -> x < 1 -> 0 < f).
Proof.
  intros Hg He Hr Ht Hm Hx.
  rewrite project_financials_frame by (rewrite ?length_map; assumption).
  unfold projected.
  destruct (projected_revenue_entry ltm growth dates t Ht) as [r [Er Hrev]].
  do 3 eexists. split; [reflexivity |]. split; [reflexivity |].
  rewrite (nth_error_map2 mul _ _ t
             ((#r * #m) * (#1 - #tax))%flt (#1 - #x)%flt).
  - split; [reflexivity |].
    assert (Hf : r * m * (1 + - tax) * (1 + - x)
                 == ltm * Formula.compound (firstn (S t) growth) * m * (1 - tax) * (1 - x)).
    { rewrite Hrev. unfold Formula.revenue. ring. }
    split; [exact Hf |].
    intros Hl Hpos Hmp Htax Hxr.
    change ((#r * #m * (#1 - #tax) * (#1 - #x))%flt) with #(r * m * (1 + - tax) * (1 + - x)).
    rewrite Hf.
    assert (Hc := compound_positive _ (Forall_firstn_keeps _ (S t) _ Hpos)).
    repeat apply Qmult_lt_0_compat; try assumption; lra.
  - rewrite nth_error_map.
    rewrite (nth_error_map2 mul _ _ t #r #m Er Hm). reflexivity.
  - rewrite nth_error_map, Hx. reflexivity.
Qed.

(** X22: the frame is refused exactly when one of the three patterns does
    not have one value per projection date: [project_financials] raises
    [ValueError] in that case and returns in every other. *)
Theorem project_financials_raises_iff_missized (ltm_revenue tax_rate : flt)
  (growth ebit_margin reinv_rate : list flt) (dates : list date) :
  (project_financials ltm_revenue growth ebit_margin reinv_rate tax_rate dates
   = Raises (ValueError "Length of values does not match length of index") <->
   (List.length growth <> List.length dates \/
    List.length ebit_margin <> List.length dates \/
    List.length reinv_rate <> List.length dates)) /\
  (raised (project_financials ltm_revenue growth ebit_margin reinv_rate tax_rate dates)
   = false <->
   (List.length growth = List.length dates /\
    List.length ebit_margin = List.length dates /\
    List.length reinv_rate = List.length dates)).
Proof.
  destruct (Nat.eq_dec (List.length growth) (List.length dates)) as [Hg | Hg];
  destruct (Nat.eq_dec (List.length ebit_margin) (List.length dates)) as [He | He];
  destruct (Nat.eq_dec (List.length reinv_rate) (List.length dates)) as [Hr | Hr];
    try (rewrite project_financials_frame by assumption;
         split; split; [discriminate | intros [A | [A | A]]; contradiction
                       | intros _; auto | reflexivity]);
    (assert (Hraise :
       project_financials ltm_revenue growth ebit_margin reinv_rate tax_rate dates
       = Raises (ValueError "Length of values does not match length of index"))
       by (unfold project_financials, all_lengths; cbn [forallb];
           try (apply Nat.eqb_neq in Hg; rewrite Hg);
           try (apply Nat.eqb_neq in He; rewrite He);
           try (apply Nat.eqb_neq in Hr; rewrite Hr);
           rewrite ?andb_false_r; reflexivity);
     rewrite Hraise; split; split;
     [ intros _; tauto | reflexivity | discriminate | intros [A [B C]]; contradiction ]).
Qed.

End ProjectedCashFlow.

(** Year 2 of the scenario with an LTM revenue of 1000, growth of 20% and
    10%, a margin of 40%, reinvestment of 30% and a tax rate of 25%:
    [1000 * 1.2 * 1.1 * 0.4 * 0.75 * 0.7 = 277.2]. *)
Lemma projected_fcf_of_a_year_example :
  exists projection fcf f,
    project_financials #1000 (map Fin [0.20; 0.10]) [#0.40; #0.40] [#0.30; #0.30] #0.25
      [1%Z; 2%Z]
      = Returns projection /\
    lookup_column "FCF" (df_columns projection) = Some fcf /\
    nth_error fcf 1 = Some #f /\
    f == 1000 * Formula.compound (firstn 2 [0.20; 0.10]) * 0.40 * (1 - 0.25) * (1 - 0.30) /\
    (0 < 1000 -> Forall (fun g => -1 < g) [0.20; 0.10] -> 0 < 0.40 -> 0.25 < 1 ->
     0.30 < 1 -> 0 < f).
Proof.
  apply (projected_fcf_of_a_year 1000 0.25 [0.20; 0.10] [#0.40; #0.40] [#0.30; #0.30]
           [1%Z; 2%Z] 1%nat 0.40 0.30); try reflexivity.
  simpl. lia.
Defined.

Section DiscountedFlows.

(** X23: [discount_cash_flows] can be repeated.  The first call writes the
    discounted column into the caller's projection and returns that same
    object; a second call with the same rate returns it again and leaves
    the heap as the first call left it. *)
Theorem discount_cash_flows_is_idempotent (projection : ref) (wacc : flt)
  (df : DataFrame) (fcf : list flt) (w : world) :
  nth_error (heap w) projection = Some df ->
  lookup_column "FCF" (df_columns df) = Some fcf ->
  let first := discount_cash_flows projection wacc w in
  let second := discount_cash_flows projection wacc (snd first) in
  fst first = Returns projection /\ fst second = Returns projection /\
  snd second = snd first /\
  exists df',
    nth_error (heap (snd first)) projection = Some df' /\
    lookup_column "FCF" (df_columns df') = Some fcf /\
    lookup_column "Discounted FCF" (df_columns df')
    = Some (map2 div fcf (map (pow (#1 + wacc)%flt) (seq 1 (List.length (df_index df))))).
Proof.
  intros Hdf Hfcf. cbv zeta.
  rewrite (discount_cash_flows_writes_into_projection projection wacc df fcf w Hdf Hfcf).
  cbn [fst snd].
  set (df1 := setitem df "Discounted FCF"
                (discount (mkSeries (df_index df) fcf) (#1 + wacc)%flt
                   (arange_from_1 (len df)))).
  assert (H1 : nth_error (replace_nth projection df1 (heap w)) projection = Some df1)
    by (now apply nth_error_replace_nth_same with (y := df)).
  assert (Hfcf1 : lookup_column "FCF" (df_columns df1) = Some fcf).
  { unfold df1, setitem. cbn [df_columns].
    rewrite lookup_assign_other by reflexivity. exact Hfcf. }
  rewrite (discount_cash_flows_writes_into_projection projection wacc df1 fcf
             (mkWorld (replace_nth projection df1 (heap w)) (screen w)) H1 Hfcf1).
  cbn [fst snd heap screen].
  split; [reflexivity |]. split; [reflexivity |]. split.
  - rewrite replace_nth_twice. f_equal. f_equal.
    unfold df1, setitem, discount, len. cbn [df_index df_columns s_index s_values].
    rewrite !reindex_same, assign_column_twice. reflexivity.
  - exists df1. split; [exact H1 |]. split; [exact Hfcf1 |].
    unfold df1, setitem, discount, arange_from_1, len.
    cbn [df_index df_columns s_index s_values].
    rewrite reindex_same. apply lookup_assign.
Qed.

Lemma discounted_entry (fcfs : list Q) (b : Q) (k t : nat) (f : Q) :
  nth_error fcfs t = Some f ->
  nth_error (Formula.discounted fcfs b k) t = Some (f / b ^ Z.of_nat (k + t)).
Proof.
  revert k t. induction fcfs as [| x fcfs IH]; intros k [| t] H; try discriminate.
  - injection H as ->. simpl. now rewrite Nat.add_0_r.
  - simpl in H. cbn [Formula.discounted nth_error].
    rewrite (IH (S k) t H). now rewrite Nat.add_succ_r.
Qed.

(** X24: on a finite FCF column and a rate above -100%, the discounted
    flow that [discount_cash_flows] writes for year [t] (counted from 1) is
    [FCF_t / (1 + wacc) ^ t].  At a rate of zero it equals the flow; at a
    positive rate a positive flow is worth less than its face value and
    more than nothing. *)
Theorem discounted_flow_of_a_year (projection : ref) (frame : DataFrame) (w : world)
  (fcfs : list Q) (wacc : Q) (t : nat) (f : Q) :
  nth_error (heap w) projection = Some frame ->
  lookup_column "FCF" (df_columns frame) = Some (map Fin fcfs) ->
  List.length (df_index frame) = List.length fcfs ->
  -1 < wacc ->
  nth_error fcfs t = Some f ->
  exists df discounted d,
    fst (discount_cash_flows projection #wacc w) = Returns projection /\
    nth_error (heap (snd (discount_cash_flows projection #wacc w))) projection = Some df /\
    lookup_column "Discounted FCF" (df_columns df) = Some discounted /\
    nth_error discounted t = Some #d /\
    d == f / (1 + wacc) ^ Z.of_nat (S t) /\
    (wacc == 0 -> d == f) /\
    (0 < wacc -> 0 < f -> 0 < d /\ d < f).
Proof.
  intros Hat Hfcf Hlen Hw Hf.
  rewrite (discount_cash_flows_writes_into_projection projection #wacc frame
             (map Fin fcfs) w Hat Hfcf).
  cbn [fst snd heap].
  rewrite (nth_error_replace_nth_same _ _ _ _ Hat).
  unfold setitem, discount, arange_from_1, len. cbn [df_index df_columns s_index s_values].
  change (#1 + #wacc)%flt with #(1 + wacc).
  rewrite reindex_same, Hlen, discount_values by lra.
  do 3 eexists. split; [reflexivity |]. split; [reflexivity |]. cbn [df_columns].
  split; [apply lookup_assign |].
  rewrite nth_error_map, (discounted_entry fcfs (1 + wacc) 1 t f Hf).
  cbn [option_map]. split; [reflexivity |].
  change (1 + t)%nat with (S t).
  split; [reflexivity |]. split.
  - intros Hz. rewrite Hz.
    setoid_replace (1 + 0) with 1 by ring. rewrite Qpower_1. field.
  - intros Hpos Hfp.
    assert (Hb : 0 < (1 + wacc) ^ Z.of_nat (S t)) by (apply Qpower_nat_pos; lra).
    split.
    + apply Qlt_shift_div_l; [exact Hb |]. now rewrite Qmult_0_l.
    + assert (H1 : 1 ^ Z.of_nat (S t) < (1 + wacc) ^ Z.of_nat (S t))
        by (apply Qpower_base_lt; lra).
      rewrite Qpower_1 in H1.
      apply Qlt_shift_div_r; [exact Hb |].
      setoid_replace f with (f * 1) at 1 by ring.
      apply Qmult_lt_l; assumption.
Qed.

End DiscountedFlows.

Lemma discount_cash_flows_is_idempotent_example :
  let w := mkWorld [mkFrame [1%Z; 2%Z] [("FCF", [#252; #277.2])]] [] in
  let first := discount_cash_flows 0%nat #0.10 w in
  let second := discount_cash_flows 0%nat #0.10 (snd first) in
  fst first = Returns 0%nat /\ fst second = Returns 0%nat /\
  snd second = snd first /\
  exists df',
    nth_error (heap (snd first)) 0%nat = Some df' /\
    lookup_column "FCF" (df_columns df') = Some [#252; #277.2] /\
    lookup_column "Discounted FCF" (df_columns df')
    = Some (map2 div [#252; #277.2] (map (pow (#1 + #0.10)%flt) (seq 1 2))).
Proof.
  apply (discount_cash_flows_is_idempotent 0%nat #0.10
           (mkFrame [1%Z; 2%Z] [("FCF", [#252; #277.2])]) [#252; #277.2]
           (mkWorld [mkFrame [1%Z; 2%Z] [("FCF", [#252; #277.2])]] []));
    reflexivity.
Defined.

Lemma discounted_flow_of_a_year_example :
  exists df discounted d,
    fst (discount_cash_flows 0%nat #0.10
           (mkWorld [mkFrame [1%Z; 2%Z] [("FCF", [#252; #277.2])]] []))
    = Returns 0%nat /\
    nth_error (heap (snd (discount_cash_flows 0%nat #0.10
                            (mkWorld [mkFrame [1%Z; 2%Z] [("FCF", [#252; #277.2])]] []))))
              0%nat = Some df /\
    lookup_column "Discounted FCF" (df_columns df) = Some discounted /\
    nth_error discounted 1 = Some #d /\
    d == 277.2 / (1 + 0.10) ^ 2 /\
    (0.10 == 0 -> d == 277.2) /\
    (0 < 0.10 -> 0 < 277.2 -> 0 < d /\ d < 277.2).
Proof.
  apply (discounted_flow_of_a_year 0%nat (mkFrame [1%Z; 2%Z] [("FCF", [#252; #277.2])])
           (mkWorld [mkFrame [1%Z; 2%Z] [("FCF", [#252; #277.2])]] [])
           [252; 277.2] 0.10 1%nat 277.2); reflexivity.
Defined.

Section AdvancedInputs.

Variable float : string -> outcome flt.

(** X25: whatever is typed into the three text areas, the sidebar ends up
    with three patterns of exactly [num_years] values each and raises
    nothing: either the screen is untouched, or one error was written to
    the sidebar. *)
Theorem advanced_mode_always_fills_patterns
  (growth_input ebit_input reinv_input : string) (num_years : nat) (w : world) :
  exists growth ebit reinv w',
    advanced_mode float growth_input ebit_input reinv_input num_years w
    = (Returns (growth, ebit, reinv), w') /\
    List.length growth = num_years /\ List.length ebit = num_years /\
    List.length reinv = num_years /\
    (w' = w \/ w' = sidebar_error w).
Proof.
  unfold advanced_mode, try_except, lift.
  destruct (percentages float growth_input num_years) as [g |] eqn:Eg;
    [| cbn [bind]; do 4 eexists; split; [reflexivity |];
       rewrite !repeat_length; repeat split; now right].
  destruct (percentages float ebit_input num_years) as [e |] eqn:Ee;
    [| cbn [bind]; do 4 eexists; split; [reflexivity |];
       rewrite !repeat_length; repeat split; now right].
  destruct (percentages float reinv_input num_years) as [r |] eqn:Er;
    [| cbn [bind]; do 4 eexists; split; [reflexivity |];
       rewrite !repeat_length; repeat split; now right].
  cbn [bind]. do 4 eexists. split; [reflexivity |].
  rewrite !pad_extends.
  repeat split;
    try (apply extend_to_length_length; eapply percentages_length; eassumption).
  now left.
Qed.

(** X26: one entry that is not a number spoils all three inputs.  If any
    of the three text areas fails to convert, the three patterns are the
    defaults (15% growth, 46% margin, 20% reinvestment, for every year),
    also for the text areas that were fine, and one error is written to the
    sidebar. *)
Theorem one_bad_entry_resets_all_patterns
  (growth_input ebit_input reinv_input : string) (num_years : nat) (w : world) :
  raised (percentages float growth_input num_years) = true \/
  raised (percentages float ebit_input num_years) = true \/
  raised (percentages float reinv_input num_years) = true ->
  advanced_mode float growth_input ebit_input reinv_input num_years w
  = (Returns (repeat #0.15 num_years, repeat #0.46 num_years, repeat #0.20 num_years),
     sidebar_error w).
Proof.
  intros H. unfold advanced_mode, try_except, lift.
  destruct (percentages float growth_input num_years) as [g |]; [| reflexivity].
  destruct (percentages float ebit_input num_years) as [e |]; [| reflexivity].
  destruct (percentages float reinv_input num_years) as [r |]; [| reflexivity].
  destruct H as [H | [H | H]]; discriminate H.
Qed.

(** The comprehension converts every entry before the slice is taken: an
    entry past the projected years that is not a number fails the whole
    text area. *)
Lemma percentages_converts_every_entry (text : string) (num_years : nat) (e : exn) :
  for_each (fun x => v <- float (PyStr.strip x) ;; Returns (v / #100)%flt)%exc
           (PyStr.split_on "," text) = Raises e ->
  percentages float text num_years = Raises e.
Proof. intros H. unfold percentages. now rewrite H. Qed.

(** X27: entries beyond the projected years are dropped without a word.
    When each text area converts to at least [num_years] values, the
    patterns are the first [num_years] values of each and the screen is
    untouched. *)
Theorem surplus_entries_are_dropped
  (growth_input ebit_input reinv_input : string) (num_years : nat) (w : world)
  (growth ebit reinv : list flt) :
  let convert := fun x => (v <- float (PyStr.strip x) ;; Returns (v / #100)%flt)%exc in
  for_each convert (PyStr.split_on "," growth_input) = Returns growth ->
  for_each convert (PyStr.split_on "," ebit_input) = Returns ebit ->
  for_each convert (PyStr.split_on "," reinv_input) = Returns reinv ->
  (num_years <= List.length growth)%nat ->
  (num_years <= List.length ebit)%nat ->
  (num_years <= List.length reinv)%nat ->
  advanced_mode float growth_input ebit_input reinv_input num_years w
  = (Returns (firstn num_years growth, firstn num_years ebit, firstn num_years reinv), w).
Proof.
  intros convert Hg He Hr Lg Le Lr.
  unfold advanced_mode, try_except, lift, percentages.
  fold convert. rewrite Hg, He, Hr. cbn [bind].
  rewrite !pad_extends. unfold Formula.extend_to_length.
  rewrite !length_firstn.
  replace (num_years - Nat.min num_years (List.length growth))%nat with 0%nat by lia.
  replace (num_years - Nat.min num_years (List.length ebit))%nat with 0%nat by lia.
  replace (num_years - Nat.min num_years (List.length reinv))%nat with 0%nat by lia.
  cbn [repeat]. now rewrite !app_nil_r.
Qed.

End AdvancedInputs.

Lemma one_bad_entry_resets_all_patterns_example :
  advanced_mode decimal_float "20,15,10" "46,forty" "40,30,20" 3 blank_world
  = (Returns (repeat #0.15 3, repeat #0.46 3, repeat #0.20 3), sidebar_error blank_world).
Proof.
  apply (one_bad_entry_resets_all_patterns decimal_float "20,15,10" "46,forty" "40,30,20"
           3 blank_world).
  right. left. reflexivity.
Defined.

Lemma surplus_entries_are_dropped_example :
  advanced_mode decimal_float "20,15,10" "46,46" "40,30,20,10" 2 blank_world
  = (Returns (firstn 2 [#(20 / 100); #(15 / 100); #(10 / 100)],
              firstn 2 [#(46 / 100); #(46 / 100)],
              firstn 2 [#(40 / 100); #(30 / 100); #(20 / 100); #(10 / 100)]),
     blank_world).
Proof.
  apply (surplus_entries_are_dropped decimal_float "20,15,10" "46,46" "40,30,20,10" 2
           blank_world); try reflexivity; simpl; lia.
Defined.

(** * Further properties of the fetches and the sidebar inputs *)

Section CapitalWeights.

Lemma scale_factor_positive (scale : scale_option) :
  exists s : Q, scale_factor scale = #s /\ 0 < s.
Proof. destruct scale; eexists; (split; [reflexivity | lra]). Qed.

Lemma truediv_finite (a b : Q) : ~ b == 0 -> truediv #a #b = Value #(a / b).
Proof.
  intros H. unfold truediv. rewrite (Qeq_bool_false _ _ H).
  now rewrite div_finite.
Qed.

Lemma truediv_zero (a b : Q) : b == 0 -> truediv #a #b = ZeroDivisionError.
Proof.
  intros H. unfold truediv.
  assert (E : Qeq_bool b 0 = true) by now apply Qeq_bool_iff.
  now rewrite E.
Qed.

(** X28: the capital structure weights.  When market capitalisation and
    debt do not cancel, the two weights are the shares of each in their
    total whatever display scale is chosen, they add up to one, and they
    lie between 0 and 1 for non-negative inputs.  When the total is zero
    (both keys missing, for one) the division raises
    [ZeroDivisionError]. *)
Theorem capital_weights_split (info : list (string * flt)) (scale : scale_option)
  (mc td : Q) :
  info_get info "marketCap" #0 = #mc ->
  info_get info "totalDebt" #0 = #td ->
  (mc + td == 0 -> capital_weights info scale = ZeroDivisionError) /\
  (~ mc + td == 0 ->
   exists (cs : capital_structure) (e d : Q),
     capital_weights info scale = Value cs /\
     w_E cs = #e /\ w_D cs = #d /\
     e == mc / (mc + td) /\ d == td / (mc + td) /\
     e + d == 1 /\
     (0 <= mc -> 0 <= td -> (0 <= e <= 1) /\ (0 <= d <= 1))).
Proof.
  intros Hmc Htd.
  destruct (scale_factor_positive scale) as [s [Hs Hpos]].
  assert (Hs0 : ~ s == 0) by lra.
  assert (Hsum : mc / s + td / s == (mc + td) / s) by (field; exact Hs0).
  unfold capital_weights. rewrite Hmc, Htd, Hs.
  rewrite !truediv_finite by exact Hs0. cbn [and_then].
  change (#(mc / s) + #(td / s))%flt with #(mc / s + td / s).
  split.
  - intros Hzero. rewrite truediv_zero; [reflexivity |].
    rewrite Hsum, Hzero. field. exact Hs0.
  - intros Hnz.
    assert (Hden : ~ mc / s + td / s == 0).
    { rewrite Hsum. intros H. apply Hnz.
      assert (E : mc + td == (mc + td) / s * s) by (field; exact Hs0).
      rewrite E, H. ring. }
    rewrite !truediv_finite by exact Hden. cbn [and_then].
    assert (He : mc / s / (mc / s + td / s) == mc / (mc + td)) by (field; split; assumption).
    assert (Hd : td / s / (mc / s + td / s) == td / (mc + td)) by (field; split; assumption).
    eexists _, _, _. split; [reflexivity |]. cbn [w_E w_D].
    split; [reflexivity |]. split; [reflexivity |].
    split; [exact He |]. split; [exact Hd |].
    split.
    + rewrite He, Hd. field. exact Hnz.
    + intros H0 H1. rewrite He, Hd.
      assert (Hpos' : 0 < mc + td).
      { destruct (Qlt_le_dec 0 (mc + td)) as [H | H]; [exact H |].
        exfalso. apply Hnz. lra. }
      repeat split.
      * apply Qle_shift_div_l; [exact Hpos' | lra].
      * apply Qle_shift_div_r; [exact Hpos' | lra].
      * apply Qle_shift_div_l; [exact Hpos' | lra].
      * apply Qle_shift_div_r; [exact Hpos' | lra].
Qed.

End CapitalWeights.

(** A company worth 3000 billion with 1000 billion of debt, shown in
    millions: 75% equity and 25% debt. *)
Lemma capital_weights_split_example :
  exists (cs : capital_structure) (e d : Q),
    capital_weights [("marketCap", #3000000000000); ("totalDebt", #1000000000000)] Millions
    = Value cs /\
    w_E cs = #e /\ w_D cs = #d /\
    e == 3000000000000 / (3000000000000 + 1000000000000) /\
    d == 1000000000000 / (3000000000000 + 1000000000000) /\
    e + d == 1 /\
    (0 <= 3000000000000 -> 0 <= 1000000000000 -> (0 <= e <= 1) /\ (0 <= d <= 1)).
Proof.
  apply (capital_weights_split
           [("marketCap", #3000000000000); ("totalDebt", #1000000000000)] Millions
           3000000000000 1000000000000); [reflexivity | reflexivity | ].
  intros H. vm_compute in H. discriminate H.
Defined.

Section Fetching.

(** X17: [get_financial_data] hands each of the three statements back with
    its periods in ascending order and every row intact: a line item keeps,
    period by period, the values it was fetched with; the company facts are
    passed through and nothing is written to the page.  A fetch that raises
    is reported on the page and answered by [None]. *)
Theorem get_financial_data_sorts_periods (w : world) :
  (forall ticker : statements,
   exists fd : financial_data,
     get_financial_data (Returns ticker) w = (Returns (Some fd), w) /\
     fd_info fd = st_info ticker /\
     forall (stmt sorted : DataFrame) (name : string) (col : list flt),
       In (stmt, sorted)
          [(financials ticker, income_statement fd);
           (balance_sheet ticker, balance fd);
           (cashflow ticker, cash_flows fd)] ->
       lookup_column name (df_columns stmt) = Some col ->
       List.length col = List.length (df_index stmt) ->
       exists col' : list flt,
         lookup_column name (df_columns sorted) = Some col' /\
         Permutation (combine (df_index stmt) col) (combine (df_index sorted) col') /\
         Sorted by_label (combine (df_index sorted) col')) /\
  (forall e : exn,
     get_financial_data (Raises e) w = (Returns None, reported e w)).
Proof.
  split.
  - intros ticker. eexists. split; [reflexivity |]. split; [reflexivity |].
    cbn [income_statement balance cash_flows].
    intros stmt sorted name col Hin Hcol Hlen.
    assert (Hs : sorted = sort_index (T stmt)).
    { destruct Hin as [E | [E | [E | []]]]; inversion E; reflexivity. }
    subst sorted. unfold T.
    destruct (sort_index_keeps_rows stmt name col Hcol Hlen)
      as [col' [Hl [_ [Hp Hsorted]]]].
    exists col'. auto.
  - intros e. reflexivity.
Qed.

End Fetching.

Section SimpleMode.

Lemma linspace_length (start stop : flt) (num : nat) :
  List.length (linspace start stop num) = num.
Proof.
  destruct num as [| [| k]]; [reflexivity | reflexivity |].
  unfold linspace. rewrite length_app, length_map, length_seq. simpl. lia.
Qed.

Lemma linspace_entry (a b : Q) (n i : nat) :
  (2 <= n)%nat -> (i < n)%nat ->
  exists q : Q,
    nth_error (linspace #a #b n) i = Some #q /\
    q == a + inject_Z (Z.of_nat i) / inject_Z (Z.of_nat (n - 1)) * (b - a) /\
    ((a <= q <= b) \/ (b <= q <= a)).
Proof.
  intros Hn Hi. destruct n as [| [| k]]; try lia.
  replace (S (S k) - 1)%nat with (S k) by lia.
  set (div := S k) in *.
  assert (Hdiv : 0 < inject_Z (Z.of_nat div)).
  { change 0 with (inject_Z 0). rewrite <- Zlt_Qlt. subst div. lia. }
  assert (Hdiv0 : ~ inject_Z (Z.of_nat div) == 0) by lra.
  assert (Hunfold : linspace #a #b (S div)
     = (map (fun i => Fin (inject_Z (Z.of_nat i))
                      * (#(b - a) / Fin (inject_Z (Z.of_nat div))) + #a)%flt
            (seq 0 div) ++ [#b])%list) by reflexivity.
  rewrite Hunfold. clear Hunfold.
  assert (Hbound : forall t : Q, 0 <= t -> t <= 1 ->
            (a <= a + t * (b - a) <= b) \/ (b <= a + t * (b - a) <= a)).
  { intros t H0 H1. destruct (Qlt_le_dec b a) as [H | H].
    - right. split; nra.
    - left. split; nra. }
  destruct (Nat.eq_dec i div) as [E | E].
  - subst i. rewrite nth_error_app2 by (rewrite length_map, length_seq; lia).
    rewrite length_map, length_seq, Nat.sub_diag. cbn [nth_error].
    exists b. split; [reflexivity |].
    assert (Hone : inject_Z (Z.of_nat div) / inject_Z (Z.of_nat div) == 1)
      by (field; exact Hdiv0).
    split.
    + rewrite Hone. ring.
    + destruct (Qlt_le_dec b a) as [H | H]; [right | left]; split; lra.
  - rewrite nth_error_app1 by (rewrite length_map, length_seq; lia).
    rewrite nth_error_map, nth_error_seq.
    assert (Hlt : Nat.ltb i div = true) by (apply Nat.ltb_lt; lia).
    rewrite Hlt. cbn [option_map Nat.add].
    rewrite div_finite by exact Hdiv0.
    eexists. split; [reflexivity |].
    assert (Hq : inject_Z (Z.of_nat i) * ((b - a) / inject_Z (Z.of_nat div)) + a
                 == a + inject_Z (Z.of_nat i) / inject_Z (Z.of_nat div) * (b - a))
      by (field; exact Hdiv0).
    split; [exact Hq |].
    rewrite Hq. apply Hbound.
    + apply Qle_shift_div_l; [exact Hdiv |].
      rewrite Qmult_0_l. change 0 with (inject_Z 0). rewrite <- Zle_Qle. lia.
    + apply Qle_shift_div_r; [exact Hdiv |].
      rewrite Qmult_1_l. rewrite <- Zle_Qle. lia.
Qed.

(** X29: the patterns of the simple mode.  Over two or more years the
    growth and reinvestment paths move in equal steps from the initial to
    the final rate, never leaving the range between the two, the margin
    stays at its one value, and the three patterns always have one entry
    per projection date, so that [project_financials] accepts them. *)
Theorem simple_mode_patterns (g0 g1 m r0 r1 : Q) (num_years : nat)
  (ltm_revenue tax_rate : flt) (dates : list date) :
  (2 <= num_years)%nat ->
  List.length dates = num_years ->
  exists growth ebit reinv : list flt,
    simple_mode #g0 #g1 #m #r0 #r1 num_years = (growth, ebit, reinv) /\
    raised (project_financials ltm_revenue growth ebit reinv tax_rate dates) = false /\
    forall i : nat, (i < num_years)%nat ->
      exists g r : Q,
        nth_error growth i = Some #g /\
        nth_error ebit i = Some #m /\
        nth_error reinv i = Some #r /\
        g == g0 + inject_Z (Z.of_nat i) / inject_Z (Z.of_nat (num_years - 1)) * (g1 - g0) /\
        r == r0 + inject_Z (Z.of_nat i) / inject_Z (Z.of_nat (num_years - 1)) * (r1 - r0) /\
        ((g0 <= g <= g1) \/ (g1 <= g <= g0)) /\
        ((r0 <= r <= r1) \/ (r1 <= r <= r0)).
Proof.
  intros Hn Hlen. eexists _, _, _. split; [reflexivity |]. split.
  - rewrite project_financials_frame;
      [reflexivity | | |]; rewrite ?linspace_length, ?repeat_length; now symmetry.
  - intros i Hi.
    destruct (linspace_entry g0 g1 num_years i Hn Hi) as [g [Hg [Eg Bg]]].
    destruct (linspace_entry r0 r1 num_years i Hn Hi) as [r [Hr [Er Br]]].
    exists g, r. repeat split; try assumption; try tauto.
    apply nth_error_repeat. exact Hi.
Qed.

End SimpleMode.

(** Five years from 15% down to 7% growth, reinvestment from 40% to 20%. *)
Lemma simple_mode_patterns_example :
  exists growth ebit reinv : list flt,
    simple_mode #0.15 #0.07 #0.46 #0.40 #0.20 5 = (growth, ebit, reinv) /\
    raised (project_financials #1000 growth ebit reinv #0.25 [1%Z; 2%Z; 3%Z; 4%Z; 5%Z])
    = false /\
    forall i : nat, (i < 5)%nat ->
      exists g r : Q,
        nth_error growth i = Some #g /\
        nth_error ebit i = Some #0.46 /\
        nth_error reinv i = Some #r /\
        g == 0.15 + inject_Z (Z.of_nat i) / inject_Z (Z.of_nat (5 - 1)) * (0.07 - 0.15) /\
        r == 0.40 + inject_Z (Z.of_nat i) / inject_Z (Z.of_nat (5 - 1)) * (0.20 - 0.40) /\
        ((0.15 <= g <= 0.07) \/ (0.07 <= g <= 0.15)) /\
        ((0.40 <= r <= 0.20) \/ (0.20 <= r <= 0.40)).
Proof.
  apply (simple_mode_patterns 0.15 0.07 0.46 0.40 0.20 5 #1000 #0.25
           [1%Z; 2%Z; 3%Z; 4%Z; 5%Z]); [lia | reflexivity].
Defined.

Section ProjectionDates.

(** X30: the projection dates.  From any date of a month,
    [create_projection_dates] gives exactly [num_years] dates: the last day
    of that same month in each of the following [num_years] years, leap
    days included.  All of them lie after the starting date, whether or not
    that date is itself a month end. *)
Theorem create_projection_dates_following_years (most_recent_date : Timestamp)
  (num_years : nat) :
  (1 <= day most_recent_date
     <= days_in_month (year most_recent_date) (month most_recent_date))%Z ->
  create_projection_dates most_recent_date num_years
  = map (fun k => year_end (year most_recent_date + Z.of_nat k) (month most_recent_date))
        (seq 1 num_years) /\
  List.length (create_projection_dates most_recent_date num_years) = num_years /\
  forall d : Timestamp,
    In d (create_projection_dates most_recent_date num_years) ->
    not_after d most_recent_date = false.
Proof.
  intros Hday.
  assert (Heq : create_projection_dates most_recent_date num_years
    = map (fun k => year_end (year most_recent_date + Z.of_nat k) (month most_recent_date))
          (seq 1 num_years)).
  { unfold create_projection_dates, freq_dict, date_range.
    assert (Hon : not_after most_recent_date
                    (year_end (year most_recent_date) (month most_recent_date)) = true).
    { unfold not_after, year_end. cbn [year month day].
      rewrite !Z.eqb_refl. cbn [andb].
      assert (Hle : Z.leb (day most_recent_date)
                      (days_in_month (year most_recent_date) (month most_recent_date))
                    = true) by (apply Z.leb_le; lia).
      rewrite Hle. now rewrite !orb_true_r. }
    rewrite Hon. replace (num_years + 1)%nat with (S num_years) by lia.
    reflexivity. }
  split; [exact Heq |]. rewrite Heq. split.
  - now rewrite length_map, length_seq.
  - intros d Hin. apply in_map_iff in Hin. destruct Hin as [k [Hd Hk]].
    apply in_seq in Hk. subst d. unfold not_after, year_end. cbn [year month day].
    assert (H1 : Z.ltb (year most_recent_date + Z.of_nat k) (year most_recent_date) = false)
      by (apply Z.ltb_ge; lia).
    assert (H2 : Z.eqb (year most_recent_date + Z.of_nat k) (year most_recent_date) = false)
      by (apply Z.eqb_neq; lia).
    now rewrite H1, H2.
Qed.

End ProjectionDates.

(** A fiscal year that ended on 29 February 2024: the next three year ends
    fall on 28 February, the fourth on 29 February 2028. *)
Lemma create_projection_dates_following_years_example :
  create_projection_dates (mkTimestamp 2024 FEB 29) 4
  = [mkTimestamp 2025 FEB 28; mkTimestamp 2026 FEB 28; mkTimestamp 2027 FEB 28;
     mkTimestamp 2028 FEB 29].
Proof.
  destruct (create_projection_dates_following_years (mkTimestamp 2024 FEB 29) 4) as [H _].
  - vm_compute. split; discriminate.
  - rewrite H. reflexivity.
Defined.
